(** * ObstacleController: the obstacle / geofence document and its vehicle sync

    A shallow embedding of [src/MissionManager/ObstacleController.cc].

    The controller is a Qt object driven by signals and slots on one thread.
    Its member variables become the fields of a record, every member function
    becomes a function on that record, and an [emit] runs the slots that the
    constructor connected, in place, as a direct Qt connection does.  The
    signals that leave the controller and the requests handed to the
    transport are appended to two logs kept in the record. *)

From Stdlib Require Import ZArith Bool Lia.
From Stdlib Require Import Floats.SpecFloat.
From stdpp Require Import gmap strings list fin_maps.

(** ** C++ [double]

    IEEE 754 binary64, in the Standard Library's specification of floating
    point numbers: 53 bits of mantissa, infinities at exponent 1024, and one
    NaN. *)

Definition double : Type := spec_float.

Definition prec : Z := 53.
Definition emax : Z := 1024.

(** The double nearest to an integer (exact below 2^53). *)
Definition double_of_Z (z : Z) : double := binary_normalize prec emax z 0 false.

Definition qQNaN : double := S754_nan.

Definition qIsNaN (d : double) : bool :=
  match d with S754_nan => true | _ => false end.

Definition qAbs (d : double) : double := SFabs d.

(** [qMin(a, b)] is [(a < b) ? a : b]. *)
Definition qMin (a b : double) : double := if SFltb a b then a else b.

(** Qt's [qFuzzyCompare(double, double)]:
    [qAbs(p1 - p2) * 1000000000000. <= qMin(qAbs(p1), qAbs(p2))]. *)
Definition qFuzzyCompare (p1 p2 : double) : bool :=
  SFleb (SFmul prec emax (qAbs (SFsub prec emax p1 p2)) (double_of_Z 1000000000000))
        (qMin (qAbs p1) (qAbs p2)).

(** The integer a double holds, when it holds one. *)
Definition double_to_Z (d : double) : option Z :=
  match d with
  | S754_zero _ => Some 0%Z
  | S754_finite s m e =>
      let sign := if s then (-1)%Z else 1%Z in
      if (0 <=? e)%Z then Some (sign * (Z.pos m * 2 ^ e))%Z
      else if (Z.pos m mod 2 ^ (- e) =? 0)%Z
           then Some (sign * (Z.pos m / 2 ^ (- e)))%Z
           else None
  | _ => None
  end.

#[global] Instance double_eq_dec : EqDecision double.
Proof. solve_decision. Defined.

(** ** [QGeoCoordinate] (Qt Positioning)

    Latitude, longitude and altitude; the default constructor leaves all
    three NaN, which is the invalid coordinate. *)

Record QGeoCoordinate : Type := mkCoordinate {
  latitude : double;
  longitude : double;
  altitude : double
}.

#[global] Instance QGeoCoordinate_eq_dec : EqDecision QGeoCoordinate.
Proof. solve_decision. Defined.

(** [QGeoCoordinate()] *)
Definition QGeoCoordinate_default : QGeoCoordinate :=
  mkCoordinate qQNaN qQNaN qQNaN.

(** [isValid]: the latitude lies in [-90, 90] and the longitude in
    [-180, 180]; a NaN fails both comparisons. *)
Definition isValid (c : QGeoCoordinate) : bool :=
  SFleb (double_of_Z (-90)) (latitude c) && SFleb (latitude c) (double_of_Z 90)
  && SFleb (double_of_Z (-180)) (longitude c) && SFleb (longitude c) (double_of_Z 180).

Definition setAltitude (a : double) (c : QGeoCoordinate) : QGeoCoordinate :=
  mkCoordinate (latitude c) (longitude c) a.

(** [operator==]: componentwise, two NaN being equal and two numbers equal
    when [qFuzzyCompare] says so; at a pole the longitude is ignored. *)
Definition QGeoCoordinate_eqb (a b : QGeoCoordinate) : bool :=
  let same (x y : double) := (qIsNaN x && qIsNaN y) || qFuzzyCompare x y in
  let latEqual := same (latitude a) (latitude b) in
  let lngEqual := same (longitude a) (longitude b) in
  let altEqual := same (altitude a) (altitude b) in
  let atPole :=
    negb (qIsNaN (latitude a))
    && (SFeqb (latitude a) (double_of_Z 90) || SFeqb (latitude a) (double_of_Z (-90))) in
  latEqual && (atPole || lngEqual) && altEqual.

(** ** JSON values (Qt's [QJsonValue], [QJsonArray], [QJsonObject]) *)

#[warnings="-register-all"]
Inductive QJsonValue : Type :=
| JNull
| JBool (b : bool)
| JDouble (d : double)
| JString (s : string)
| JArray (a : list QJsonValue)
| JObject (o : gmap string QJsonValue)
| JUndefined.

Abbreviation QJsonObject := (gmap string QJsonValue).

(** [QJsonValue::Type] *)
Inductive QJsonType : Type :=
| TNull | TBool | TDouble | TString | TArray | TObject | TUndefined.

#[global] Instance QJsonType_eq_dec : EqDecision QJsonType.
Proof. solve_decision. Defined.

Definition jtype (v : QJsonValue) : QJsonType :=
  match v with
  | JNull => TNull
  | JBool _ => TBool
  | JDouble _ => TDouble
  | JString _ => TString
  | JArray _ => TArray
  | JObject _ => TObject
  | JUndefined => TUndefined
  end.

(** [json[key]] on a const object: the value, or Undefined. *)
Definition jsonAt (json : QJsonObject) (key : string) : QJsonValue :=
  default JUndefined (json !! key).

(** [json.contains(key)] *)
Definition contains (json : QJsonObject) (key : string) : bool :=
  bool_decide (is_Some (json !! key)).

(** [toInt()]: the integer when the value is a double that holds an [int],
    and the default 0 otherwise. *)
Definition toInt (v : QJsonValue) : Z :=
  match v with
  | JDouble d =>
      match double_to_Z d with
      | Some z => if ((- 2 ^ 31 <=? z) && (z <? 2 ^ 31))%Z then z else 0%Z
      | None => 0%Z
      end
  | _ => 0%Z
  end.

(** [toArray()]: the array, or an empty one. *)
Definition toArray (v : QJsonValue) : list QJsonValue :=
  match v with JArray a => a | _ => [] end.

(** [QJsonValue(int)] stores the number as a double. *)
Definition JInt (z : Z) : QJsonValue := JDouble (double_of_Z z).

(** ** Shapes

    [QGCFencePolygon] and [QGCFenceCircle] are classes of the repository
    declared outside [ObstacleController.cc]. *)

(** Modelled from the spec: the class [QGCFencePolygon], whose source is
    missing.  A polygon is an ordered sequence of vertices with an
    [inclusion] flag, the [interactive] selection flag and its own [dirty]
    flag. *)
Record QGCFencePolygon : Type := mkPolygon {
  path : list QGeoCoordinate;
  polygon_inclusion : bool;
  polygon_interactive : bool;
  polygon_dirty : bool
}.

(** Modelled from the spec: the class [QGCFenceCircle], whose source is
    missing.  A circle is a center, a radius in meters, and the same three
    flags. *)
Record QGCFenceCircle : Type := mkCircle {
  center : QGeoCoordinate;
  radius : double;
  circle_inclusion : bool;
  circle_interactive : bool;
  circle_dirty : bool
}.

(** Modelled from the spec: the constructor [QGCFencePolygon(inclusion,
    parent)], whose source is missing: no vertex yet, not selected, clean. *)
Definition QGCFencePolygon_new (inclusion : bool) : QGCFencePolygon :=
  mkPolygon [] inclusion false false.

(** Modelled from the spec: the constructor [QGCFenceCircle(parent)], whose
    source is missing: an invalid center and a zero radius. *)
Definition QGCFenceCircle_new : QGCFenceCircle :=
  mkCircle QGeoCoordinate_default (S754_zero false) false false false.

(** Modelled from the spec: [QGCFencePolygon::setDirty], whose source is
    missing.  The spec has [setDirty(false)] of the document clear the flag of
    every contained shape, and has only an external mutation of a shape's
    flag raise the document's flag: the call made by the document itself
    raises nothing. *)
Definition QGCFencePolygon_setDirty (d : bool) (p : QGCFencePolygon) : QGCFencePolygon :=
  mkPolygon (path p) (polygon_inclusion p) (polygon_interactive p) d.

(** Modelled from the spec: [QGCFenceCircle::setDirty], whose source is
    missing; as for the polygon. *)
Definition QGCFenceCircle_setDirty (d : bool) (c : QGCFenceCircle) : QGCFenceCircle :=
  mkCircle (center c) (radius c) (circle_inclusion c) (circle_interactive c) d.

(** Modelled from the spec: the copy constructors [QGCFencePolygon(other,
    parent)] and [QGCFenceCircle(other, parent)], whose source is missing.
    Reconciliation deep-copies the transport's shapes into newly owned
    instances; shapes are values here, so a copy is the value itself. *)
Definition QGCFencePolygon_copy (p : QGCFencePolygon) : QGCFencePolygon := p.
Definition QGCFenceCircle_copy (c : QGCFenceCircle) : QGCFenceCircle := c.

(** Two shapes are equivalent when they describe the same fence: the same
    vertices, or center and radius, and the same inclusion flag. *)
Definition polygon_equiv (p q : QGCFencePolygon) : Prop :=
  path p = path q /\ polygon_inclusion p = polygon_inclusion q.

Definition circle_equiv (c d : QGCFenceCircle) : Prop :=
  center c = center d /\ radius c = radius d /\ circle_inclusion c = circle_inclusion d.

(** ** Collaborators *)

(** What the controller reads from [Vehicle]. *)
Record Vehicle : Type := mkVehicle {
  capabilityBits : Z;
  maxProtoVersion : Z;
  initialPlanRequestComplete : bool
}.

(** A call made on the transport, [ObstacleManager]. *)
Inductive Request : Type :=
| ReqLoadFromVehicle
| ReqSendToVehicle (breachReturn : QGeoCoordinate)
                   (polys : list QGCFencePolygon) (circs : list QGCFenceCircle)
| ReqRemoveAll.

(** Modelled from the spec: the transport [ObstacleManager], whose source is
    missing.  It reports whether an operation is in progress and its last
    known breach return point, polygons and circles; its load, send and
    remove-all operations are requests that complete later through a
    callback.  The requests it has received are kept in [issued]; what it
    does with them is its own business. *)
Record ObstacleManager : Type := mkManager {
  inProgress : bool;
  breachReturnPoint : QGeoCoordinate;
  polygons : list QGCFencePolygon;
  circles : list QGCFenceCircle;
  issued : list Request
}.

Definition ObstacleManager_request (r : Request) (m : ObstacleManager) : ObstacleManager :=
  mkManager (inProgress m) (breachReturnPoint m) (polygons m) (circles m) (issued m ++ [r]).

(** The signals of the controller that the model records. *)
Inductive Signal : Type :=
| dirtyChanged (dirty : bool)
| breachReturnPointChanged (c : QGeoCoordinate)
| containsItemsChanged (b : bool)
| loadComplete.

(** ** The controller *)

Record ObstacleController : Type := mkController {
  (* PlanElementController and the session *)
  _flyView : bool;
  offline : bool;                        (* _masterController->offline() *)
  _managerVehicle : Vehicle;
  _obstacleManager : ObstacleManager;
  (* the document *)
  _polygons : list QGCFencePolygon;
  _circles : list QGCFenceCircle;
  _breachReturnPoint : QGeoCoordinate;
  _breachReturnAltitudeFact : double;    (* the raw value of the fact *)
  _breachReturnDefaultAltitude : double;
  _dirty : bool;
  _itemsRequested : bool;
  (* the signals emitted so far, oldest first *)
  emitted : list Signal
}.

Definition with_obstacleManager (m : ObstacleManager) (s : ObstacleController) :=
  mkController (_flyView s) (offline s) (_managerVehicle s) m
    (_polygons s) (_circles s) (_breachReturnPoint s) (_breachReturnAltitudeFact s)
    (_breachReturnDefaultAltitude s) (_dirty s) (_itemsRequested s) (emitted s).

Definition with_polygons (l : list QGCFencePolygon) (s : ObstacleController) :=
  mkController (_flyView s) (offline s) (_managerVehicle s) (_obstacleManager s)
    l (_circles s) (_breachReturnPoint s) (_breachReturnAltitudeFact s)
    (_breachReturnDefaultAltitude s) (_dirty s) (_itemsRequested s) (emitted s).

Definition with_circles (l : list QGCFenceCircle) (s : ObstacleController) :=
  mkController (_flyView s) (offline s) (_managerVehicle s) (_obstacleManager s)
    (_polygons s) l (_breachReturnPoint s) (_breachReturnAltitudeFact s)
    (_breachReturnDefaultAltitude s) (_dirty s) (_itemsRequested s) (emitted s).

Definition with_breachReturnPoint (c : QGeoCoordinate) (s : ObstacleController) :=
  mkController (_flyView s) (offline s) (_managerVehicle s) (_obstacleManager s)
    (_polygons s) (_circles s) c (_breachReturnAltitudeFact s)
    (_breachReturnDefaultAltitude s) (_dirty s) (_itemsRequested s) (emitted s).

Definition with_breachReturnAltitudeFact (a : double) (s : ObstacleController) :=
  mkController (_flyView s) (offline s) (_managerVehicle s) (_obstacleManager s)
    (_polygons s) (_circles s) (_breachReturnPoint s) a
    (_breachReturnDefaultAltitude s) (_dirty s) (_itemsRequested s) (emitted s).

Definition with_dirty (d : bool) (s : ObstacleController) :=
  mkController (_flyView s) (offline s) (_managerVehicle s) (_obstacleManager s)
    (_polygons s) (_circles s) (_breachReturnPoint s) (_breachReturnAltitudeFact s)
    (_breachReturnDefaultAltitude s) d (_itemsRequested s) (emitted s).

Definition with_itemsRequested (b : bool) (s : ObstacleController) :=
  mkController (_flyView s) (offline s) (_managerVehicle s) (_obstacleManager s)
    (_polygons s) (_circles s) (_breachReturnPoint s) (_breachReturnAltitudeFact s)
    (_breachReturnDefaultAltitude s) (_dirty s) b (emitted s).

(** [emit sig]: the signal is recorded; the slots connected to it are run by
    the functions below. *)
Definition emit (sig : Signal) (s : ObstacleController) :=
  mkController (_flyView s) (offline s) (_managerVehicle s) (_obstacleManager s)
    (_polygons s) (_circles s) (_breachReturnPoint s) (_breachReturnAltitudeFact s)
    (_breachReturnDefaultAltitude s) (_dirty s) (_itemsRequested s) (emitted s ++ [sig]).

(** *** Dirty flag *)

Definition dirty (s : ObstacleController) : bool := _dirty s.

(** [setDirty]: nothing happens unless the flag changes; clearing it also
    clears the flag of every polygon and circle. *)
Definition setDirty (d : bool) (s : ObstacleController) : ObstacleController :=
  if negb (eqb d (_dirty s)) then
    let s := with_dirty d s in
    let s :=
      if negb d then
        let s := with_polygons (QGCFencePolygon_setDirty false <$> _polygons s) s in
        with_circles (QGCFenceCircle_setDirty false <$> _circles s) s
      else s in
    emit (dirtyChanged d) s
  else s.

(** The slot [_setDirty], connected by the constructor to
    [breachReturnPointChanged], to the altitude fact's [rawValueChanged] and
    to the [dirtyChanged] of both shape lists. *)
Definition _setDirty (s : ObstacleController) : ObstacleController := setDirty true s.

Definition _polygonDirtyChanged (d : bool) (s : ObstacleController) : ObstacleController :=
  if d then setDirty true s else s.

(** [emit breachReturnPointChanged(c)] with its slot. *)
Definition emit_breachReturnPointChanged (c : QGeoCoordinate) (s : ObstacleController) :=
  _setDirty (emit (breachReturnPointChanged c) s).

(** Modelled from the spec: [Fact::setRawValue], whose source is missing.  A
    change of the altitude value raises [rawValueChanged], which the
    constructor connects to [_setDirty]. *)
Definition setRawValue (a : double) (s : ObstacleController) : ObstacleController :=
  if decide (a = _breachReturnAltitudeFact s) then s
  else _setDirty (with_breachReturnAltitudeFact a s).

(** *** The shape lists *)

Definition containsItems (s : ObstacleController) : bool :=
  (0 <? length (_polygons s)) || (0 <? length (_circles s)).

(** The slot [_updateContainsItems], connected to the [countChanged] of both
    lists. *)
Definition _updateContainsItems (s : ObstacleController) : ObstacleController :=
  emit (containsItemsChanged (containsItems s)) s.

Definition isEmpty (s : ObstacleController) : bool :=
  (length (_polygons s) =? 0) && (length (_circles s) =? 0)
  && negb (isValid (_breachReturnPoint s)).

(** Modelled from the spec: [QmlObjectListModel::append] on [_polygons],
    whose source is missing.  A change of membership raises [countChanged],
    and a change of the shape count makes the document dirty, which reaches
    the controller as the list's [dirtyChanged]. *)
Definition polygons_append (p : QGCFencePolygon) (s : ObstacleController) :=
  _setDirty (_updateContainsItems (with_polygons (_polygons s ++ [p]) s)).

(** Modelled from the spec: [QmlObjectListModel::append] on [_circles]. *)
Definition circles_append (c : QGCFenceCircle) (s : ObstacleController) :=
  _setDirty (_updateContainsItems (with_circles (_circles s ++ [c]) s)).

(** Modelled from the spec: [QmlObjectListModel::clearAndDeleteContents] on
    [_polygons], whose source is missing: every shape is destroyed; an empty
    list has no membership to change. *)
Definition polygons_clearAndDeleteContents (s : ObstacleController) :=
  match _polygons s with
  | [] => s
  | _ :: _ => _setDirty (_updateContainsItems (with_polygons [] s))
  end.

(** Modelled from the spec: [QmlObjectListModel::clearAndDeleteContents] on
    [_circles]. *)
Definition circles_clearAndDeleteContents (s : ObstacleController) :=
  match _circles s with
  | [] => s
  | _ :: _ => _setDirty (_updateContainsItems (with_circles [] s))
  end.

(** Modelled from the spec: [QGCFencePolygon::appendVertex] called from
    outside on the polygon at index [i], whose source is missing.  The
    polygon gets the vertex and becomes dirty; the change of its flag is an
    external mutation, re-raised by the list as [dirtyChanged], whose slot is
    [_setDirty]. *)
Definition appendVertex (i : nat) (v : QGeoCoordinate) (s : ObstacleController) :=
  match _polygons s !! i with
  | None => s
  | Some p =>
      let p' := mkPolygon (path p ++ [v]) (polygon_inclusion p) (polygon_interactive p) true in
      let s' := with_polygons (<[i := p']> (_polygons s)) s in
      if polygon_dirty p then s' else _setDirty s'
  end.

(** Modelled from the spec: [QGCFencePolygon::setDirty] called from outside
    on the polygon at index [i], whose source is missing.  A call that does
    not change the polygon's flag raises nothing; a change is an external
    mutation of the flag, re-raised by the list as [dirtyChanged], whose
    slot is [_setDirty]. *)
Definition setPolygonDirty (i : nat) (d : bool) (s : ObstacleController) :=
  match _polygons s !! i with
  | None => s
  | Some p =>
      if eqb d (polygon_dirty p) then s
      else _setDirty (with_polygons (<[i := QGCFencePolygon_setDirty d p]> (_polygons s)) s)
  end.

(** Modelled from the spec: [QGCFenceCircle::setDirty] called from outside
    on the circle at index [i]. *)
Definition setCircleDirty (i : nat) (d : bool) (s : ObstacleController) :=
  match _circles s !! i with
  | None => s
  | Some c =>
      if eqb d (circle_dirty c) then s
      else _setDirty (with_circles (<[i := QGCFenceCircle_setDirty d c]> (_circles s)) s)
  end.

(** The data model's reading of the aggregate flag: the document is dirty
    whenever one of its shapes is, so a clear flag means that every polygon
    and every circle is clean. *)
Definition dirtyConsistent (s : ObstacleController) : bool :=
  _dirty s
  || (forallb negb (polygon_dirty <$> _polygons s)
      && forallb negb (circle_dirty <$> _circles s)).

(** *** Breach return point and [removeAll] *)

Definition setBreachReturnPoint (c : QGeoCoordinate) (s : ObstacleController) :=
  if negb (QGeoCoordinate_eqb (_breachReturnPoint s) c) then
    let s := with_breachReturnPoint c s in
    let s := setDirty true s in
    emit_breachReturnPointChanged c s
  else s.

Definition removeAll (s : ObstacleController) : ObstacleController :=
  let s := setBreachReturnPoint QGeoCoordinate_default s in
  let s := polygons_clearAndDeleteContents s in
  circles_clearAndDeleteContents s.

(** ** The file schema *)

(** Modelled from the spec: [JsonHelper::jsonVersionKey], declared outside
    [ObstacleController.cc]; the schema names the field [version]. *)
Definition jsonVersionKey : string := "version".

Definition _jsonBreachReturnKey : string := "breachReturn".
Definition _jsonPolygonsKey : string := "polygons".
Definition _jsonCirclesKey : string := "circles".

(** Modelled from the spec: [_jsonCurrentVersion], declared in the missing
    header; the current supported version is 2. *)
Definition _jsonCurrentVersion : Z := 2.

(** [JsonHelper::KeyValidateInfo] *)
Record KeyValidateInfo : Type := mkKeyInfo {
  key : string;
  type : QJsonType;
  required : bool
}.

(** Modelled from the spec: [JsonHelper::validateKeys], whose source is
    missing.  A required key must be present, and a listed key that is
    present must hold a value of the listed type. *)
Definition validateKey (json : QJsonObject) (info : KeyValidateInfo) : bool :=
  match json !! key info with
  | None => negb (required info)
  | Some v => bool_decide (jtype v = type info)
  end.

Definition validateKeys (json : QJsonObject) (keyInfo : list KeyValidateInfo) : bool :=
  forallb (validateKey json) keyInfo.

(** Modelled from the spec: [JsonHelper::saveGeoCoordinate], whose source is
    missing.  The schema stores a coordinate as the array [lon, lat, alt]. *)
Definition saveGeoCoordinate (c : QGeoCoordinate) (writeAltitude : bool) : QJsonValue :=
  JArray ([JDouble (longitude c); JDouble (latitude c)]
          ++ (if writeAltitude then [JDouble (altitude c)] else [])).

(** Modelled from the spec: [JsonHelper::loadGeoCoordinate], whose source is
    missing.  The value must be an array of numbers, three of them when the
    altitude is required; [None] stands for a [false] return, which leaves
    the coordinate passed by reference as it was. *)
Definition loadGeoCoordinate (v : QJsonValue) (altitudeRequired : bool)
  : option QGeoCoordinate :=
  match v with
  | JArray [JDouble lon; JDouble lat] =>
      if altitudeRequired then None else Some (mkCoordinate lat lon qQNaN)
  | JArray [JDouble lon; JDouble lat; JDouble alt] =>
      if altitudeRequired then Some (mkCoordinate lat lon alt) else None
  | _ => None
  end.

(** The sub-schemas of the two shapes belong to the shapes' own serializers,
    [saveToJson] and [loadFromJson] of [QGCFencePolygon] and
    [QGCFenceCircle], whose source is missing and which the spec leaves
    opaque: [saveToJson] fills the object it is given, [loadFromJson] fills
    the shape it is called on and answers [None] for a [false] return. *)
Class ShapeJson : Type := {
  polygon_saveToJson : QGCFencePolygon -> QJsonObject -> QJsonObject;
  polygon_loadFromJson :
    QJsonObject -> bool (* required *) -> QGCFencePolygon -> option QGCFencePolygon;
  circle_saveToJson : QGCFenceCircle -> QJsonObject -> QJsonObject;
  circle_loadFromJson : QJsonObject -> QGCFenceCircle -> option QGCFenceCircle
}.

(** The contract the spec gives the serializers: what one writes the other
    reads back as an equivalent shape. *)
Record ShapeJsonRoundTrip (SJ : ShapeJson) : Prop := {
  polygon_roundtrip : forall p p0, exists q,
      polygon_loadFromJson (polygon_saveToJson p ∅) true p0 = Some q /\ polygon_equiv p q;
  circle_roundtrip : forall c c0, exists d,
      circle_loadFromJson (circle_saveToJson c ∅) c0 = Some d /\ circle_equiv c d
}.

(** A sample pair of serializers, used to run the model on concrete
    documents: a polygon is [{ "inclusion": bool, "polygon": [coordinate...] }]
    and a circle [{ "inclusion": bool, "center": coordinate, "radius": number }]. *)
Definition sample_loadPath (l : list QJsonValue) : option (list QGeoCoordinate) :=
  mapM (fun v => loadGeoCoordinate v true) l.

#[global] Instance sampleShapeJson : ShapeJson := {|
  polygon_saveToJson p json :=
    <["polygon" := JArray ((fun c => saveGeoCoordinate c true) <$> path p)]>
      (<["inclusion" := JBool (polygon_inclusion p)]> json);
  polygon_loadFromJson json _ p :=
    match json !! "inclusion", json !! "polygon" with
    | Some (JBool b), Some (JArray l) =>
        match sample_loadPath l with
        | Some vs => Some (mkPolygon vs b (polygon_interactive p) false)
        | None => None
        end
    | _, _ => None
    end;
  circle_saveToJson c json :=
    <["radius" := JDouble (radius c)]>
      (<["center" := saveGeoCoordinate (center c) true]>
         (<["inclusion" := JBool (circle_inclusion c)]> json));
  circle_loadFromJson json c :=
    match json !! "inclusion", json !! "center", json !! "radius" with
    | Some (JBool b), Some v, Some (JDouble r) =>
        match loadGeoCoordinate v true with
        | Some ctr => Some (mkCircle ctr r b (circle_interactive c) false)
        | None => None
        end
    | _, _, _ => None
    end
|}.

(** ** [load] and [save] *)

(** Why [load] returned [false]; the message left in [errorString] is given
    with each case that [ObstacleController.cc] writes itself. *)
Inductive LoadError : Type :=
| KeysInvalid           (* validateKeys failed, with its own message *)
| UnsupportedVersion    (* "Obstacle supports version 2" *)
| PolygonNotObject      (* "Obstacle polygon not stored as object" *)
| PolygonInvalid        (* the polygon's loadFromJson failed, with its own message *)
| CircleNotObject       (* "Obstacle circle not stored as object" *)
| CircleInvalid         (* the circle's loadFromJson failed, with its own message *)
| BreachReturnInvalid.  (* loadGeoCoordinate failed, with its own message *)

(** The pair returned by [load]: [LoadOk] is [true] with a cleared
    [errorString], [LoadFailed e] is [false] with the message of [e]. *)
Inductive LoadResult : Type :=
| LoadOk
| LoadFailed (e : LoadError).

(** Run [k] unless the load has already returned [false]. *)
Definition andThen (r : LoadResult * ObstacleController)
    (k : ObstacleController -> LoadResult * ObstacleController)
  : LoadResult * ObstacleController :=
  match r with
  | (LoadOk, s) => k s
  | (LoadFailed e, s) => (LoadFailed e, s)
  end.

Definition keyInfoList : list KeyValidateInfo :=
  [ mkKeyInfo jsonVersionKey TDouble true;
    mkKeyInfo _jsonCirclesKey TArray true;
    mkKeyInfo _jsonPolygonsKey TArray true;
    mkKeyInfo _jsonBreachReturnKey TArray false ].

Section LoadSave.
Context {SJ : ShapeJson}.

(** One turn of the loop over [jsonPolygonArray]: the polygon that is
    appended for the entry, or the error [load] returns at it. *)
Definition loadPolygonEntry (v : QJsonValue) : QGCFencePolygon + LoadError :=
  match v with
  | JObject o =>
      match polygon_loadFromJson o true (QGCFencePolygon_new false) with
      | Some fencePolygon => inl fencePolygon
      | None => inr PolygonInvalid
      end
  | _ => inr PolygonNotObject
  end.

(** One turn of the loop over [jsonCircleArray]. *)
Definition loadCircleEntry (v : QJsonValue) : QGCFenceCircle + LoadError :=
  match v with
  | JObject o =>
      match circle_loadFromJson o QGCFenceCircle_new with
      | Some fenceCircle => inl fenceCircle
      | None => inr CircleInvalid
      end
  | _ => inr CircleNotObject
  end.

(** The loop over [jsonPolygonArray]. *)
Fixpoint load_polygons (l : list QJsonValue) (s : ObstacleController)
  : LoadResult * ObstacleController :=
  match l with
  | [] => (LoadOk, s)
  | JObject o :: l' =>
      match polygon_loadFromJson o true (QGCFencePolygon_new false) with
      | Some fencePolygon => load_polygons l' (polygons_append fencePolygon s)
      | None => (LoadFailed PolygonInvalid, s)
      end
  | _ :: _ => (LoadFailed PolygonNotObject, s)
  end.

(** The loop over [jsonCircleArray]. *)
Fixpoint load_circles (l : list QJsonValue) (s : ObstacleController)
  : LoadResult * ObstacleController :=
  match l with
  | [] => (LoadOk, s)
  | JObject o :: l' =>
      match circle_loadFromJson o QGCFenceCircle_new with
      | Some fenceCircle => load_circles l' (circles_append fenceCircle s)
      | None => (LoadFailed CircleInvalid, s)
      end
  | _ :: _ => (LoadFailed CircleNotObject, s)
  end.

(** The breach return point, read into [_breachReturnPoint] itself. *)
Definition load_breachReturn (json : QJsonObject) (s : ObstacleController)
  : LoadResult * ObstacleController :=
  if contains json _jsonBreachReturnKey then
    match loadGeoCoordinate (jsonAt json _jsonBreachReturnKey) true with
    | Some c =>
        let s := with_breachReturnPoint c s in
        (LoadOk, setRawValue (altitude (_breachReturnPoint s)) s)
    | None => (LoadFailed BreachReturnInvalid, s)
    end
  else
    let s := with_breachReturnPoint QGeoCoordinate_default s in
    (LoadOk, setRawValue (_breachReturnDefaultAltitude s) s).

Definition load (json : QJsonObject) (s : ObstacleController)
  : LoadResult * ObstacleController :=
  let s := removeAll s in
  if negb (contains json jsonVersionKey)
     || (contains json jsonVersionKey && (toInt (jsonAt json jsonVersionKey) =? 1)%Z)
  then (* We just ignore old version 1 or prior data *)
    (LoadOk, s)
  else if negb (validateKeys json keyInfoList) then (LoadFailed KeysInvalid, s)
  else if negb (toInt (jsonAt json jsonVersionKey) =? _jsonCurrentVersion)%Z
  then (LoadFailed UnsupportedVersion, s)
  else
    andThen (load_polygons (toArray (jsonAt json _jsonPolygonsKey)) s) (fun s =>
    andThen (load_circles (toArray (jsonAt json _jsonCirclesKey)) s) (fun s =>
    andThen (load_breachReturn json s) (fun s =>
      let s := emit_breachReturnPointChanged (_breachReturnPoint s) s in
      (LoadOk, setDirty false s)))).

(** [save] fills the object it is given and, when the breach return point
    is valid, first stores the altitude fact into the point. *)
Definition save (json : QJsonObject) (s : ObstacleController)
  : QJsonObject * ObstacleController :=
  let json := <[jsonVersionKey := JInt _jsonCurrentVersion]> json in
  let jsonPolygonArray := (fun p => JObject (polygon_saveToJson p ∅)) <$> _polygons s in
  let json := <[_jsonPolygonsKey := JArray jsonPolygonArray]> json in
  let jsonCircleArray := (fun c => JObject (circle_saveToJson c ∅)) <$> _circles s in
  let json := <[_jsonCirclesKey := JArray jsonCircleArray]> json in
  if isValid (_breachReturnPoint s) then
    let s :=
      with_breachReturnPoint
        (setAltitude (_breachReturnAltitudeFact s) (_breachReturnPoint s)) s in
    let jsonCoordinate := saveGeoCoordinate (_breachReturnPoint s) true in
    (<[_jsonBreachReturnKey := jsonCoordinate]> json, s)
  else (json, s).
End LoadSave.

(** ** Sync with the vehicle *)

Definition syncInProgress (s : ObstacleController) : bool :=
  inProgress (_obstacleManager s).

(** A call on [_obstacleManager]. *)
Definition call_obstacleManager (r : Request) (s : ObstacleController) :=
  with_obstacleManager (ObstacleManager_request r (_obstacleManager s)) s.

Definition removeAllFromVehicle (s : ObstacleController) : ObstacleController :=
  if offline s then s                     (* warning: called while offline *)
  else if syncInProgress s then s         (* warning: called while syncInProgress *)
  else call_obstacleManager ReqRemoveAll s.

Definition loadFromVehicle (s : ObstacleController) : ObstacleController :=
  if offline s then s
  else if syncInProgress s then s
  else
    let s := with_itemsRequested true s in
    call_obstacleManager ReqLoadFromVehicle s.

Definition sendToVehicle (s : ObstacleController) : ObstacleController :=
  if offline s then s
  else if syncInProgress s then s
  else
    let s :=
      call_obstacleManager
        (ReqSendToVehicle (_breachReturnPoint s) (_polygons s) (_circles s)) s in
    setDirty false s.

Definition _setFenceFromManager (polys : list QGCFencePolygon) (circs : list QGCFenceCircle)
    (s : ObstacleController) : ObstacleController :=
  let s := polygons_clearAndDeleteContents s in
  let s := circles_clearAndDeleteContents s in
  let s := fold_left (fun s p => polygons_append (QGCFencePolygon_copy p) s) polys s in
  let s := fold_left (fun s c => circles_append (QGCFenceCircle_copy c) s) circs s in
  setDirty false s.

Definition _setReturnPointFromManager (c : QGeoCoordinate) (s : ObstacleController)
  : ObstacleController :=
  let s := with_breachReturnPoint c s in
  let s := emit_breachReturnPointChanged (_breachReturnPoint s) s in
  if isValid (_breachReturnPoint s)
  then setRawValue (altitude (_breachReturnPoint s)) s
  else setRawValue (_breachReturnDefaultAltitude s) s.

(** The guard of [_managerLoadComplete]: the fly view always reloads, the
    plan view only when a load was requested or there is no current plan. *)
Definition reloadWanted (s : ObstacleController) : bool :=
  _flyView s || _itemsRequested s || isEmpty s.

Definition _managerLoadComplete (s : ObstacleController) : ObstacleController :=
  let s :=
    if reloadWanted s then
      let s := _setReturnPointFromManager (breachReturnPoint (_obstacleManager s)) s in
      let s :=
        _setFenceFromManager (polygons (_obstacleManager s)) (circles (_obstacleManager s)) s in
      let s := setDirty false s in
      emit loadComplete s
    else s in
  with_itemsRequested false s.

(** [true] stops further propagation of the request. *)
Definition showPlanFromManagerVehicle (s : ObstacleController) : bool * ObstacleController :=
  if offline s then (true, s)
  else
    let s := with_itemsRequested true s in
    if negb (initialPlanRequestComplete (_managerVehicle s)) then
      (* wait for loadComplete to be signalled *)
      (true, s)
    else if syncInProgress s then
      (* _loadComplete will be called when the sync is done *)
      (true, s)
    else
      (* fake a _loadComplete with the current items *)
      let s := with_itemsRequested true s in
      (false, _managerLoadComplete s).

Definition _managerSendComplete (error : bool) (s : ObstacleController) : ObstacleController :=
  if negb error && _flyView s then snd (showPlanFromManagerVehicle s) else s.

Definition _managerRemoveAllComplete (error : bool) (s : ObstacleController)
  : ObstacleController :=
  if negb error then snd (showPlanFromManagerVehicle s) else s.

(** ** Capability *)

(** [MAV_PROTOCOL_CAPABILITY_MISSION_FENCE], declared in the MAVLink headers,
    which are not part of [ObstacleController.cc]: the enum
    [MAV_PROTOCOL_CAPABILITY] of the common dialect gives it the value 16384,
    bit 14 (bit 5, the value 32, is [MAV_PROTOCOL_CAPABILITY_FTP]). *)
Definition MAV_PROTOCOL_CAPABILITY_MISSION_FENCE : Z := 16384.

(** [supported]: an integer is true in C++ when it is not zero. *)
Definition supported (s : ObstacleController) : bool :=
  negb (Z.land (capabilityBits (_managerVehicle s)) MAV_PROTOCOL_CAPABILITY_MISSION_FENCE =? 0)%Z
  && (200 <=? maxProtoVersion (_managerVehicle s))%Z.

(** The vehicle reports its protocol version times 100: 100 for MAVLink 1
    and 200 for MAVLink 2. *)
Definition protocolMajorVersion (v : Vehicle) : Z := (maxProtoVersion v / 100)%Z.

(** The fence capability bit among the vehicle's capability bits. *)
Definition fenceCapabilityAdvertised (v : Vehicle) : bool :=
  Z.testbit (capabilityBits v) 14.

(** ** Sample documents *)

Definition coordinate (lat lon alt : Z) : QGeoCoordinate :=
  mkCoordinate (double_of_Z lat) (double_of_Z lon) (double_of_Z alt).

Definition idleManager : ObstacleManager :=
  mkManager false QGeoCoordinate_default [] [] [].

(** A MAVLink 2 vehicle that advertises the fence capability and nothing
    else. *)
Definition mavlink2Vehicle : Vehicle := mkVehicle 16384 200 true.

(** A MAVLink 2 vehicle that advertises file transfer only. *)
Definition ftpOnlyVehicle : Vehicle := mkVehicle 32 200 true.

(** A MAVLink 1 vehicle with the fence bit set. *)
Definition mavlink1Vehicle : Vehicle := mkVehicle 16384 100 true.

(** A controller as its constructor leaves it, for a default mission
    altitude of 50. *)
Definition newController : ObstacleController :=
  mkController false false mavlink2Vehicle idleManager
    [] [] QGeoCoordinate_default (double_of_Z 50) (double_of_Z 50) false false [].

(** The same for another vehicle. *)
Definition newControllerFor (veh : Vehicle) : ObstacleController :=
  mkController false false veh idleManager
    [] [] QGeoCoordinate_default (double_of_Z 50) (double_of_Z 50) false false [].

Definition samplePolygon : QGCFencePolygon :=
  mkPolygon [coordinate 1 1 0; coordinate 1 2 0; coordinate 2 2 0] true false true.

Definition sampleCircle : QGCFenceCircle :=
  mkCircle (coordinate 3 3 0) (double_of_Z 100) false false true.

(** The three sync operations a caller can ask for. *)
Inductive SyncOp : Type := OpLoadFromVehicle | OpSendToVehicle | OpRemoveAllFromVehicle.

Definition runSyncOp (s : ObstacleController) (op : SyncOp) : ObstacleController :=
  match op with
  | OpLoadFromVehicle => loadFromVehicle s
  | OpSendToVehicle => sendToVehicle s
  | OpRemoveAllFromVehicle => removeAllFromVehicle s
  end.

Definition isLoadComplete (sig : Signal) : bool :=
  match sig with loadComplete => true | _ => false end.

(** How many times [loadComplete] has been signalled. *)
Definition loadCompleteCount (s : ObstacleController) : nat :=
  length (List.filter isLoadComplete (emitted s)).

(** What the operations on the document leave alone: the view, the session,
    the vehicle, the transport, the default altitude, the pending request
    flag and the number of [loadComplete] signals. *)
Definition surroundings (s : ObstacleController) :=
  (_flyView s, offline s, _managerVehicle s, _obstacleManager s,
   _breachReturnDefaultAltitude s, _itemsRequested s, loadCompleteCount s).

(** A new controller whose breach return point has been set at altitude 3;
    the altitude fact still holds the default 50. *)
Definition breachPointDocument : ObstacleController :=
  setBreachReturnPoint (coordinate 1 2 3) newController.

(** The same with a circle and a polygon added. *)
Definition sampleDocument : ObstacleController :=
  polygons_append samplePolygon (circles_append sampleCircle breachPointDocument).

(** A version 1 object; its other field is not even an array. *)
Definition legacyObject : QJsonObject :=
  <[jsonVersionKey := JInt 1]> (<[_jsonPolygonsKey := JString "old format"]> ∅).

(** Version 3 and nothing else. *)
Definition version3Only : QJsonObject :=
  <[jsonVersionKey := JInt 3]> ∅.

(** Version 3 with the two required arrays. *)
Definition version3Object : QJsonObject :=
  <[jsonVersionKey := JInt 3]>
    (<[_jsonPolygonsKey := JArray [JObject (polygon_saveToJson samplePolygon ∅)]]>
       (<[_jsonCirclesKey := JArray []]> ∅)).

(** A current object whose second polygon entry is not an object. *)
Definition secondPolygonMalformed : QJsonObject :=
  <[jsonVersionKey := JInt 2]>
    (<[_jsonPolygonsKey := JArray [JObject (polygon_saveToJson samplePolygon ∅); JNull]]>
       (<[_jsonCirclesKey := JArray []]> ∅)).

(** ** Editing the shape lists *)

(** The document proper: what a user edits, saves and syncs. *)
Definition document (s : ObstacleController) :=
  (_polygons s, _circles s, _breachReturnPoint s, _breachReturnAltitudeFact s, _dirty s).

(** Modelled from the spec: [setInteractive] of the two shapes, whose source
    is missing.  [interactive] is the selection flag of the user interface
    and no part of what a shape persists. *)
Definition QGCFencePolygon_setInteractive (b : bool) (p : QGCFencePolygon) : QGCFencePolygon :=
  mkPolygon (path p) (polygon_inclusion p) b (polygon_dirty p).

Definition QGCFenceCircle_setInteractive (b : bool) (c : QGCFenceCircle) : QGCFenceCircle :=
  mkCircle (center c) (radius c) (circle_inclusion c) b (circle_dirty c).

Definition clearAllInteractive (s : ObstacleController) : ObstacleController :=
  let s := with_polygons (QGCFencePolygon_setInteractive false <$> _polygons s) s in
  with_circles (QGCFenceCircle_setInteractive false <$> _circles s) s.

(** Modelled from the spec: [QmlObjectListModel::removeAt] on [_polygons],
    whose source is missing.  The shape at the index leaves the list; the
    change of membership raises [countChanged] and makes the document dirty,
    as for [append]. *)
Definition polygons_removeAt (i : nat) (s : ObstacleController) : ObstacleController :=
  _setDirty (_updateContainsItems (with_polygons (delete i (_polygons s)) s)).

(** Modelled from the spec: [QmlObjectListModel::removeAt] on [_circles]. *)
Definition circles_removeAt (i : nat) (s : ObstacleController) : ObstacleController :=
  _setDirty (_updateContainsItems (with_circles (delete i (_circles s)) s)).

(** [index] is a C++ [int]. *)
Definition deletePolygon (index : Z) (s : ObstacleController) : ObstacleController :=
  if ((index <? 0) || (Z.of_nat (length (_polygons s)) - 1 <? index))%Z then s
  else polygons_removeAt (Z.to_nat index) s.

Definition deleteCircle (index : Z) (s : ObstacleController) : ObstacleController :=
  if ((index <? 0) || (Z.of_nat (length (_circles s)) - 1 <? index))%Z then s
  else circles_removeAt (Z.to_nat index) s.

(** ** Adding a shape from the viewport *)

(** [QGeoCoordinate(latitude, longitude)]: the two values are kept only when
    both are in range; the altitude is left NaN. *)
Definition QGeoCoordinate_make (lat lon : double) : QGeoCoordinate :=
  if isValid (mkCoordinate lat lon qQNaN) then mkCoordinate lat lon qQNaN
  else QGeoCoordinate_default.

(** The geodesic computations of [QGeoCoordinate], which are Qt's and work
    on the WGS84 ellipsoid with the C library's trigonometry: they are taken
    as given. *)
Class Geodesy : Type := {
  distanceTo : QGeoCoordinate -> QGeoCoordinate -> double;
  atDistanceAndAzimuth :
    QGeoCoordinate -> double (* distance *) -> double (* azimuth *) -> QGeoCoordinate
}.

(** Modelled from the spec: [QGCFencePolygon::appendVertex] on a polygon that
    is not in a list yet, whose source is missing: the vertex is added at the
    end and the polygon is dirty. *)
Definition QGCFencePolygon_appendVertex (v : QGeoCoordinate) (p : QGCFencePolygon)
  : QGCFencePolygon :=
  mkPolygon (path p ++ [v]) (polygon_inclusion p) (polygon_interactive p) true.

(** Modelled from the spec: the constructor [QGCFenceCircle(center, radius,
    inclusion, parent)], whose source is missing. *)
Definition QGCFenceCircle_make (ctr : QGeoCoordinate) (r : double) (inclusion : bool)
  : QGCFenceCircle :=
  mkCircle ctr r inclusion false false.

(** The C++ literals [0.75], [2.0] and [1500.0]. *)
Definition threeQuarters : double := binary_normalize prec emax 3 (-2) false.
Definition two : double := double_of_Z 2.
Definition maxHalfExtent : double := double_of_Z 1500.

(** [x * 0.75], capped at 1500 meters. *)
Definition inset (x : double) : double :=
  qMin (SFmul prec emax x threeQuarters) maxHalfExtent.

(** [shape->setInteractive(true)] on the shape just appended, which is the
    last of its list. *)
Definition lastPolygon_setInteractive (b : bool) (s : ObstacleController) :=
  with_polygons
    (alter (QGCFencePolygon_setInteractive b) (length (_polygons s) - 1) (_polygons s)) s.

Definition lastCircle_setInteractive (b : bool) (s : ObstacleController) :=
  with_circles
    (alter (QGCFenceCircle_setInteractive b) (length (_circles s) - 1) (_circles s)) s.

Section AddShapes.
Context {G : Geodesy}.

(** The center of the viewport whose corners are given. *)
Definition viewportCenter (topLeft bottomRight : QGeoCoordinate) : QGeoCoordinate :=
  let topRight := QGeoCoordinate_make (latitude topLeft) (longitude bottomRight) in
  let bottomLeft := QGeoCoordinate_make (latitude bottomRight) (longitude topLeft) in
  let halfWidthMeters := SFdiv prec emax (distanceTo topLeft topRight) two in
  let halfHeightMeters := SFdiv prec emax (distanceTo topLeft bottomLeft) two in
  let centerLeftEdge := atDistanceAndAzimuth topLeft halfHeightMeters (double_of_Z 180) in
  let centerTopEdge := atDistanceAndAzimuth topLeft halfWidthMeters (double_of_Z 90) in
  QGeoCoordinate_make (latitude centerLeftEdge) (longitude centerTopEdge).

(** The polygon that [addInclusionPolygon] builds before it appends it. *)
Definition initialPolygon (topLeft bottomRight : QGeoCoordinate) : QGCFencePolygon :=
  let topRight := QGeoCoordinate_make (latitude topLeft) (longitude bottomRight) in
  let bottomLeft := QGeoCoordinate_make (latitude bottomRight) (longitude topLeft) in
  let halfWidthMeters := SFdiv prec emax (distanceTo topLeft topRight) two in
  let halfHeightMeters := SFdiv prec emax (distanceTo topLeft bottomLeft) two in
  let center := viewportCenter topLeft bottomRight in
  (* Initial polygon is inset to take 3/4s of viewport with max width/height of 3000 meters *)
  let halfWidthMeters := inset halfWidthMeters in
  let halfHeightMeters := inset halfHeightMeters in
  let west := atDistanceAndAzimuth center halfWidthMeters (double_of_Z (-90)) in
  let east := atDistanceAndAzimuth center halfWidthMeters (double_of_Z 90) in
  let topLeft := atDistanceAndAzimuth west halfHeightMeters (double_of_Z 0) in
  let topRight := atDistanceAndAzimuth east halfHeightMeters (double_of_Z 0) in
  let bottomLeft := atDistanceAndAzimuth west halfHeightMeters (double_of_Z 180) in
  let bottomRight := atDistanceAndAzimuth east halfHeightMeters (double_of_Z 180) in
  QGCFencePolygon_appendVertex bottomLeft
    (QGCFencePolygon_appendVertex bottomRight
       (QGCFencePolygon_appendVertex topRight
          (QGCFencePolygon_appendVertex topLeft (QGCFencePolygon_new true)))).

Definition addInclusionPolygon (topLeft bottomRight : QGeoCoordinate)
    (s : ObstacleController) : ObstacleController :=
  let polygon := initialPolygon topLeft bottomRight in
  let s := polygons_append polygon s in
  let s := clearAllInteractive s in
  lastPolygon_setInteractive true s.

(** The circle that [addInclusionCircle] builds before it appends it. *)
Definition initialCircle (topLeft bottomRight : QGeoCoordinate) : QGCFenceCircle :=
  let topRight := QGeoCoordinate_make (latitude topLeft) (longitude bottomRight) in
  let bottomLeft := QGeoCoordinate_make (latitude bottomRight) (longitude topLeft) in
  (* Initial radius is inset to take 3/4s of viewport and max of 1500 meters *)
  let halfWidthMeters := SFdiv prec emax (distanceTo topLeft topRight) two in
  let halfHeightMeters := SFdiv prec emax (distanceTo topLeft bottomLeft) two in
  let radius := inset (qMin halfWidthMeters halfHeightMeters) in
  let center := viewportCenter topLeft bottomRight in
  QGCFenceCircle_make center radius true.

Definition addInclusionCircle (topLeft bottomRight : QGeoCoordinate)
    (s : ObstacleController) : ObstacleController :=
  let circle := initialCircle topLeft bottomRight in
  let s := circles_append circle s in
  let s := clearAllInteractive s in
  lastCircle_setInteractive true s.
End AddShapes.

(** ** The transport moves on *)

(** Between two calls of the controller the transport may come to report
    something else; the controller's own members stay. *)
Definition transportReports (m : ObstacleManager) (s : ObstacleController)
  : ObstacleController :=
  with_obstacleManager m s.

(** The point and the altitude fact agree: the next [save] has nothing to
    write into the point. *)
Definition altitudeInSync (s : ObstacleController) : Prop :=
  isValid (_breachReturnPoint s) = false
  \/ altitude (_breachReturnPoint s) = _breachReturnAltitudeFact s.

(** A double that is a number or NaN, not an infinity. *)
Definition notInfinite (d : double) : bool :=
  match d with S754_infinity _ => false | _ => true end.

(** The transport once a requested load has come back with a polygon, a
    circle and a breach return point at altitude 7. *)
Definition reportingManager : ObstacleManager :=
  mkManager false (coordinate 5 6 7) [samplePolygon] [sampleCircle] [ReqLoadFromVehicle].

(** The sample document after [loadFromVehicle], the transport having
    finished the load. *)
Definition awaitedDocument : ObstacleController :=
  transportReports reportingManager (loadFromVehicle sampleDocument).

(** ** The life of a controller *)

(** What can happen to a controller: a call of one of its methods, one of
    its slots run by a signal of the transport, a change made to one of its
    shapes or to its altitude fact from outside, or the transport coming to
    report something else. *)
Inductive Operation : Type :=
| CallSetDirty (d : bool)
| CallSetBreachReturnPoint (c : QGeoCoordinate)
| CallRemoveAll
| CallLoad (json : QJsonObject)
| CallSave (json : QJsonObject)
| CallSync (op : SyncOp)
| CallShowPlanFromManagerVehicle
| CallAddInclusionPolygon (topLeft bottomRight : QGeoCoordinate)
| CallAddInclusionCircle (topLeft bottomRight : QGeoCoordinate)
| CallDeletePolygon (index : Z)
| CallDeleteCircle (index : Z)
| CallClearAllInteractive
| SlotManagerLoadComplete
| SlotManagerSendComplete (error : bool)
| SlotManagerRemoveAllComplete (error : bool)
| FactSetRawValue (a : double)
| ShapeAppendVertex (i : nat) (v : QGeoCoordinate)
| ShapeSetPolygonDirty (i : nat) (d : bool)
| ShapeSetCircleDirty (i : nat) (d : bool)
| TransportReports (m : ObstacleManager).

(** The controller as its constructor leaves it: no shape, an invalid
    breach return point and the altitude fact at the default altitude. *)
Definition constructed (flyView isOffline : bool) (veh : Vehicle) (m : ObstacleManager)
    (defaultAltitude : double) : ObstacleController :=
  mkController flyView isOffline veh m
    [] [] QGeoCoordinate_default defaultAltitude defaultAltitude false false [].

Section Operations.
Context {SJ : ShapeJson} {G : Geodesy}.

Definition perform (s : ObstacleController) (op : Operation) : ObstacleController :=
  match op with
  | CallSetDirty d => setDirty d s
  | CallSetBreachReturnPoint c => setBreachReturnPoint c s
  | CallRemoveAll => removeAll s
  | CallLoad json => snd (load json s)
  | CallSave json => snd (save json s)
  | CallSync op => runSyncOp s op
  | CallShowPlanFromManagerVehicle => snd (showPlanFromManagerVehicle s)
  | CallAddInclusionPolygon topLeft bottomRight => addInclusionPolygon topLeft bottomRight s
  | CallAddInclusionCircle topLeft bottomRight => addInclusionCircle topLeft bottomRight s
  | CallDeletePolygon index => deletePolygon index s
  | CallDeleteCircle index => deleteCircle index s
  | CallClearAllInteractive => clearAllInteractive s
  | SlotManagerLoadComplete => _managerLoadComplete s
  | SlotManagerSendComplete error => _managerSendComplete error s
  | SlotManagerRemoveAllComplete error => _managerRemoveAllComplete error s
  | FactSetRawValue a => setRawValue a s
  | ShapeAppendVertex i v => appendVertex i v s
  | ShapeSetPolygonDirty i d => setPolygonDirty i d s
  | ShapeSetCircleDirty i d => setCircleDirty i d s
  | TransportReports m => transportReports m s
  end.

(** The states a controller can come to. *)
Definition reachable (s : ObstacleController) : Prop :=
  exists flyView isOffline veh m defaultAltitude (ops : list Operation),
    s = fold_left perform ops (constructed flyView isOffline veh m defaultAltitude).
End Operations.

(** * Properties *)

(** ** Capability *)

Lemma land_fence_bit (caps : Z) :
  Z.land caps MAV_PROTOCOL_CAPABILITY_MISSION_FENCE
  = if Z.testbit caps 14 then 16384%Z else 0%Z.
Proof.
  apply Z.bits_inj'. intros k Hk.
  rewrite Z.land_spec. change MAV_PROTOCOL_CAPABILITY_MISSION_FENCE with (2 ^ 14)%Z.
  rewrite Z.pow2_bits_eqb by lia.
  destruct (Z.eqb_spec 14 k) as [<- | Hne].
  - rewrite andb_true_r. destruct (Z.testbit caps 14); reflexivity.
  - rewrite andb_false_r. destruct (Z.testbit caps 14).
    + change 16384%Z with (2 ^ 14)%Z. rewrite Z.pow2_bits_eqb by lia.
      symmetry. apply Z.eqb_neq. exact Hne.
    + symmetry. apply Z.bits_0.
Qed.

(** C9.  [supported] answers true exactly when the fence capability bit,
    bit 14 of the capability bits, is advertised and the protocol major
    version is at least 2; with protocol version 1 it answers false whatever
    the capability bits. *)
Theorem supported_iff (s : ObstacleController) :
  (supported s = true <->
     fenceCapabilityAdvertised (_managerVehicle s) = true
     /\ (2 <= protocolMajorVersion (_managerVehicle s))%Z)
  /\ (protocolMajorVersion (_managerVehicle s) = 1%Z -> supported s = false).
Proof.
  unfold supported, fenceCapabilityAdvertised, protocolMajorVersion.
  rewrite land_fence_bit.
  destruct (Z.testbit (capabilityBits (_managerVehicle s)) 14); cbn [negb Z.eqb andb].
  - split.
    + rewrite Z.leb_le. split.
      * intros H. split; [reflexivity | Z.div_mod_to_equations; lia].
      * intros [_ H]. Z.div_mod_to_equations; lia.
    + intros H. apply Z.leb_gt. Z.div_mod_to_equations; lia.
  - split; [ | reflexivity]. split; [discriminate | intros [H _]; discriminate].
Qed.

(** A MAVLink 2 vehicle with the fence bit is supported; one that advertises
    only file transfer (32, bit 5) is not, and neither is a MAVLink 1 vehicle
    with the fence bit. *)
Lemma supported_samples :
  supported (newControllerFor mavlink2Vehicle) = true
  /\ supported (newControllerFor ftpOnlyVehicle) = false
  /\ supported (newControllerFor mavlink1Vehicle) = false.
Proof. repeat split. Qed.

(** ** The guard of the sync operations *)

Lemma guarded_op_noop (s : ObstacleController) (op : SyncOp) :
  offline s = true \/ syncInProgress s = true -> runSyncOp s op = s.
Proof.
  intros Hguard.
  destruct op; cbn [runSyncOp];
    unfold loadFromVehicle, sendToVehicle, removeAllFromVehicle;
    destruct (offline s); try reflexivity;
    destruct Hguard as [Hoff | Hsync]; try discriminate; rewrite Hsync; reflexivity.
Qed.

(** C5.  While the session is offline or the transport reports an operation
    in progress, [sendToVehicle], [loadFromVehicle] and
    [removeAllFromVehicle] leave the controller as it is, the list of
    requests issued to the transport included; so does any sequence of
    them. *)
Theorem sync_single_flight (s : ObstacleController) :
  offline s = true \/ syncInProgress s = true ->
  sendToVehicle s = s
  /\ loadFromVehicle s = s
  /\ removeAllFromVehicle s = s
  /\ forall ops : list SyncOp, fold_left runSyncOp ops s = s.
Proof.
  intros Hguard. repeat split.
  - exact (guarded_op_noop s OpSendToVehicle Hguard).
  - exact (guarded_op_noop s OpLoadFromVehicle Hguard).
  - exact (guarded_op_noop s OpRemoveAllFromVehicle Hguard).
  - intros ops. induction ops as [ | op ops IH]; [reflexivity | ].
    cbn [fold_left]. rewrite guarded_op_noop by exact Hguard. exact IH.
Qed.

Lemma sync_single_flight_witness :
  let s := with_obstacleManager (mkManager true QGeoCoordinate_default [] [] [ReqLoadFromVehicle])
             (polygons_append samplePolygon newController) in
  sendToVehicle s = s
  /\ loadFromVehicle s = s
  /\ removeAllFromVehicle s = s
  /\ forall ops : list SyncOp, fold_left runSyncOp ops s = s.
Proof.
  intros s. apply (sync_single_flight s). right. reflexivity.
Defined.

(** An operation that passes the guard issues exactly one request. *)
Lemma unguarded_op_issues_one (s : ObstacleController) (op : SyncOp) :
  offline s = false -> syncInProgress s = false ->
  exists r, issued (_obstacleManager (runSyncOp s op)) = issued (_obstacleManager s) ++ [r].
Proof.
  intros Hon Hidle.
  destruct op; cbn [runSyncOp];
    unfold loadFromVehicle, sendToVehicle, removeAllFromVehicle;
    rewrite Hon, Hidle; eexists;
    destruct s as [fv off veh mgr ps cs brp fact def [] req sigs]; reflexivity.
Qed.

(** ** The primitive steps on the document *)

(** The steps unfold once the controller they act on is a record of known
    fields, innermost first. *)
Arguments emit sig !s /.
Arguments with_dirty d !s /.
Arguments with_polygons l !s /.
Arguments with_circles l !s /.
Arguments with_breachReturnPoint c !s /.
Arguments with_breachReturnAltitudeFact a !s /.
Arguments with_itemsRequested b !s /.
Arguments with_obstacleManager m !s /.
Arguments call_obstacleManager r !s /.
Arguments setDirty d !s /.
Arguments _setDirty !s /.
Arguments emit_breachReturnPointChanged c !s /.
Arguments _updateContainsItems !s /.
Arguments setRawValue a !s /.
Arguments polygons_append p !s /.
Arguments circles_append c !s /.
Arguments polygons_clearAndDeleteContents !s /.
Arguments circles_clearAndDeleteContents !s /.
Arguments setBreachReturnPoint c !s /.
Arguments removeAll !s /.
Arguments surroundings !s /.
Arguments loadCompleteCount !s /.

Ltac count_simpl :=
  rewrite ?List.filter_app, ?length_app in *; cbn in *;
  rewrite ?Nat.add_0_r in *.

(** Destruct the controller, run the step symbolically and split on every
    test it makes. *)
Ltac solve_step s :=
  destruct s as [fv off veh mgr ps cs brp fact def d req sigs];
  cbn in *;
  repeat (case_match; cbn in * );
  count_simpl; repeat split; try reflexivity; try discriminate; try congruence.

Lemma setDirty_dirty (b : bool) (s : ObstacleController) : _dirty (setDirty b s) = b.
Proof. destruct b; solve_step s. Qed.

Lemma setDirty_frame (b : bool) (s : ObstacleController) :
  surroundings (setDirty b s) = surroundings s
  /\ _breachReturnPoint (setDirty b s) = _breachReturnPoint s
  /\ _breachReturnAltitudeFact (setDirty b s) = _breachReturnAltitudeFact s.
Proof. destruct b; solve_step s. Qed.

Lemma setDirty_true_shapes (s : ObstacleController) :
  _polygons (setDirty true s) = _polygons s /\ _circles (setDirty true s) = _circles s.
Proof. solve_step s. Qed.

Lemma setDirty_false_clean (s : ObstacleController) :
  _dirty s = false -> setDirty false s = s.
Proof. intros H. solve_step s. Qed.

Lemma setDirty_false_shapes (s : ObstacleController) :
  _dirty s = true ->
  _polygons (setDirty false s) = QGCFencePolygon_setDirty false <$> _polygons s
  /\ _circles (setDirty false s) = QGCFenceCircle_setDirty false <$> _circles s.
Proof. intros H. solve_step s. Qed.

Lemma emit_breachReturnPointChanged_frame (c : QGeoCoordinate) (s : ObstacleController) :
  let s' := emit_breachReturnPointChanged c s in
  surroundings s' = surroundings s
  /\ _breachReturnPoint s' = _breachReturnPoint s
  /\ _breachReturnAltitudeFact s' = _breachReturnAltitudeFact s
  /\ _polygons s' = _polygons s
  /\ _circles s' = _circles s
  /\ _dirty s' = true.
Proof. solve_step s. Qed.

Lemma setRawValue_frame (a : double) (s : ObstacleController) :
  let s' := setRawValue a s in
  surroundings s' = surroundings s
  /\ _breachReturnPoint s' = _breachReturnPoint s
  /\ _breachReturnAltitudeFact s' = a
  /\ _polygons s' = _polygons s
  /\ _circles s' = _circles s
  /\ (_dirty s = true -> _dirty s' = true).
Proof. solve_step s. Qed.

Lemma polygons_append_frame (p : QGCFencePolygon) (s : ObstacleController) :
  let s' := polygons_append p s in
  surroundings s' = surroundings s
  /\ _breachReturnPoint s' = _breachReturnPoint s
  /\ _breachReturnAltitudeFact s' = _breachReturnAltitudeFact s
  /\ _polygons s' = _polygons s ++ [p]
  /\ _circles s' = _circles s
  /\ _dirty s' = true.
Proof. solve_step s. Qed.

Lemma circles_append_frame (c : QGCFenceCircle) (s : ObstacleController) :
  let s' := circles_append c s in
  surroundings s' = surroundings s
  /\ _breachReturnPoint s' = _breachReturnPoint s
  /\ _breachReturnAltitudeFact s' = _breachReturnAltitudeFact s
  /\ _polygons s' = _polygons s
  /\ _circles s' = _circles s ++ [c]
  /\ _dirty s' = true.
Proof. solve_step s. Qed.

Lemma polygons_clear_frame (s : ObstacleController) :
  let s' := polygons_clearAndDeleteContents s in
  surroundings s' = surroundings s
  /\ _breachReturnPoint s' = _breachReturnPoint s
  /\ _breachReturnAltitudeFact s' = _breachReturnAltitudeFact s
  /\ _polygons s' = []
  /\ _circles s' = _circles s
  /\ (_dirty s = true -> _dirty s' = true).
Proof. solve_step s. Qed.

Lemma circles_clear_frame (s : ObstacleController) :
  let s' := circles_clearAndDeleteContents s in
  surroundings s' = surroundings s
  /\ _breachReturnPoint s' = _breachReturnPoint s
  /\ _breachReturnAltitudeFact s' = _breachReturnAltitudeFact s
  /\ _polygons s' = _polygons s
  /\ _circles s' = []
  /\ (_dirty s = true -> _dirty s' = true).
Proof. solve_step s. Qed.

(** A NaN compares equal to nothing under [qFuzzyCompare]. *)
Lemma qFuzzyCompare_nan_r (x : double) : qFuzzyCompare x qQNaN = false.
Proof. destruct x; reflexivity. Qed.

(** Only the invalid coordinate is [==] to [QGeoCoordinate()]. *)
Lemma eqb_default_invalid (c : QGeoCoordinate) :
  QGeoCoordinate_eqb c QGeoCoordinate_default = true -> isValid c = false.
Proof.
  destruct c as [lat lng alt]. unfold QGeoCoordinate_eqb, isValid.
  cbn [latitude longitude altitude QGeoCoordinate_default].
  rewrite !qFuzzyCompare_nan_r, !orb_false_r.
  destruct lat; cbn [qIsNaN andb]; try discriminate.
  reflexivity.
Qed.

Lemma setAltitude_isValid (a : double) (c : QGeoCoordinate) :
  isValid (setAltitude a c) = isValid c.
Proof. reflexivity. Qed.

Lemma removeAll_cleared (s : ObstacleController) :
  _polygons (removeAll s) = []
  /\ _circles (removeAll s) = []
  /\ isValid (_breachReturnPoint (removeAll s)) = false.
Proof.
  pose proof (eqb_default_invalid (_breachReturnPoint s)) as Hinv.
  destruct s as [fv off veh mgr ps cs brp fact def d req sigs].
  cbn in Hinv.
  unfold removeAll, setBreachReturnPoint.
  cbn [_breachReturnPoint].
  destruct (QGeoCoordinate_eqb brp QGeoCoordinate_default); cbn [negb].
  - destruct ps, cs, d; repeat split; try reflexivity; cbn; auto.
  - destruct ps, cs, d; repeat split; reflexivity.
Qed.

Lemma removeAll_frame (s : ObstacleController) :
  surroundings (removeAll s) = surroundings s
  /\ _breachReturnAltitudeFact (removeAll s) = _breachReturnAltitudeFact s.
Proof. solve_step s. Qed.

(** ** Dirty propagation *)

Lemma polygons_clean_after (l : list QGCFencePolygon) :
  Forall (fun p => polygon_dirty p = false) (QGCFencePolygon_setDirty false <$> l).
Proof. induction l; constructor; [reflexivity | assumption]. Qed.

Lemma circles_clean_after (l : list QGCFenceCircle) :
  Forall (fun c => circle_dirty c = false) (QGCFenceCircle_setDirty false <$> l).
Proof. induction l; constructor; [reflexivity | assumption]. Qed.

Lemma appendVertex_clean_polygon (i : nat) (v : QGeoCoordinate) (p : QGCFencePolygon)
    (s : ObstacleController) :
  _polygons s !! i = Some p -> polygon_dirty p = false ->
  _dirty (appendVertex i v s) = true.
Proof.
  intros Hi Hclean. unfold appendVertex. rewrite Hi, Hclean.
  apply setDirty_dirty.
Qed.

(** A list of flags holds no [true] exactly when every shape is clean. *)
Lemma clean_polygons_forallb (l : list QGCFencePolygon) :
  forallb negb (polygon_dirty <$> l) = true <-> Forall (fun p => polygon_dirty p = false) l.
Proof.
  induction l as [ | p l IH].
  - split; [constructor | reflexivity].
  - rewrite fmap_cons, Forall_cons. cbn [forallb].
    rewrite andb_true_iff, negb_true_iff, IH. reflexivity.
Qed.

Lemma clean_circles_forallb (l : list QGCFenceCircle) :
  forallb negb (circle_dirty <$> l) = true <-> Forall (fun c => circle_dirty c = false) l.
Proof.
  induction l as [ | c l IH].
  - split; [constructor | reflexivity].
  - rewrite fmap_cons, Forall_cons. cbn [forallb].
    rewrite andb_true_iff, negb_true_iff, IH. reflexivity.
Qed.

Lemma dirtyConsistent_iff (s : ObstacleController) :
  dirtyConsistent s = true
  <-> _dirty s = true
      \/ (Forall (fun p => polygon_dirty p = false) (_polygons s)
          /\ Forall (fun c => circle_dirty c = false) (_circles s)).
Proof.
  unfold dirtyConsistent.
  rewrite orb_true_iff, andb_true_iff, clean_polygons_forallb, clean_circles_forallb.
  reflexivity.
Qed.

Lemma dirtyConsistent_of_dirty (s : ObstacleController) :
  _dirty s = true -> dirtyConsistent s = true.
Proof. intros H. apply dirtyConsistent_iff. left. exact H. Qed.

Lemma dirtyConsistent_of_clean (s : ObstacleController) :
  Forall (fun p => polygon_dirty p = false) (_polygons s) ->
  Forall (fun c => circle_dirty c = false) (_circles s) ->
  dirtyConsistent s = true.
Proof. intros HP HC. apply dirtyConsistent_iff. right. split; assumption. Qed.

(** In a consistent document a dirty polygon means a dirty document. *)
Lemma dirty_polygon_dirty_document (s : ObstacleController) (i : nat) (p : QGCFencePolygon) :
  dirtyConsistent s = true -> _polygons s !! i = Some p -> polygon_dirty p = true ->
  _dirty s = true.
Proof.
  intros Hc Hi Hp. apply dirtyConsistent_iff in Hc. destruct Hc as [Hd | [HP _]]; [exact Hd | ].
  pose proof (Forall_lookup_1 _ _ _ _ HP Hi) as Hclean. cbn in Hclean. congruence.
Qed.

Lemma dirty_circle_dirty_document (s : ObstacleController) (i : nat) (c : QGCFenceCircle) :
  dirtyConsistent s = true -> _circles s !! i = Some c -> circle_dirty c = true ->
  _dirty s = true.
Proof.
  intros Hc Hi Hp. apply dirtyConsistent_iff in Hc. destruct Hc as [Hd | [_ HC]]; [exact Hd | ].
  pose proof (Forall_lookup_1 _ _ _ _ HC Hi) as Hclean. cbn in Hclean. congruence.
Qed.

(** [setDirty] keeps the shapes in their places. *)
Lemma setDirty_shapes_cases (b : bool) (s : ObstacleController) :
  (_polygons (setDirty b s) = _polygons s /\ _circles (setDirty b s) = _circles s)
  \/ (_polygons (setDirty b s) = QGCFencePolygon_setDirty false <$> _polygons s
      /\ _circles (setDirty b s) = QGCFenceCircle_setDirty false <$> _circles s).
Proof.
  destruct b; [left; apply setDirty_true_shapes | ].
  destruct (_dirty s) eqn:Hd.
  - right. apply setDirty_false_shapes. exact Hd.
  - left. rewrite setDirty_false_clean by exact Hd. split; reflexivity.
Qed.

(** [setDirty(false)] on a consistent document leaves every shape clean,
    whether it has to clear the flags or returns at its guard. *)
Lemma setDirty_false_all_clean (s : ObstacleController) :
  dirtyConsistent s = true ->
  Forall (fun p => polygon_dirty p = false) (_polygons (setDirty false s))
  /\ Forall (fun c => circle_dirty c = false) (_circles (setDirty false s)).
Proof.
  intros Hc. apply dirtyConsistent_iff in Hc.
  destruct (_dirty s) eqn:Hd.
  - destruct (setDirty_false_shapes s Hd) as [-> ->].
    split; [apply polygons_clean_after | apply circles_clean_after].
  - rewrite setDirty_false_clean by exact Hd.
    destruct Hc as [Hc | Hc]; [congruence | exact Hc].
Qed.

(** C6.  In every consistent document, that is, one whose flag is set
    whenever one of its shapes is dirty, as the data model has it and as
    every operation keeps it, [setDirty(false)] leaves every polygon and
    every circle clean and the document's flag clear; a polygon appended
    just before the call is in the list and clean; [setDirty(true)] changes
    no shape; and after [setDirty(false)] a per-shape dirty change, be it a
    vertex appended to a polygon or the flag of a polygon or of a circle set
    from outside, sets the document's flag again. *)
Theorem setDirty_propagation (s : ObstacleController) :
  dirtyConsistent s = true ->
  (Forall (fun p => polygon_dirty p = false) (_polygons (setDirty false s))
   /\ Forall (fun c => circle_dirty c = false) (_circles (setDirty false s))
   /\ _dirty (setDirty false s) = false)
  /\ (forall p,
        _polygons (setDirty false (polygons_append p s))
        = QGCFencePolygon_setDirty false <$> (_polygons s ++ [p])
        /\ Forall (fun q => polygon_dirty q = false)
                  (_polygons (setDirty false (polygons_append p s))))
  /\ (_polygons (setDirty true s) = _polygons s /\ _circles (setDirty true s) = _circles s)
  /\ (forall i v, is_Some (_polygons s !! i) ->
        _dirty (appendVertex i v (setDirty false s)) = true)
  /\ (forall i, is_Some (_polygons s !! i) ->
        _dirty (setPolygonDirty i true (setDirty false s)) = true)
  /\ (forall i, is_Some (_circles s !! i) ->
        _dirty (setCircleDirty i true (setDirty false s)) = true).
Proof.
  intros Hc. destruct (setDirty_false_all_clean s Hc) as [HP HC].
  assert (HlookP : forall i, is_Some (_polygons s !! i) ->
            exists p, _polygons (setDirty false s) !! i = Some p /\ polygon_dirty p = false).
  { intros i [p Hp].
    assert (Hsome : is_Some (_polygons (setDirty false s) !! i)).
    { destruct (setDirty_shapes_cases false s) as [[-> _] | [-> _]].
      - exists p. exact Hp.
      - rewrite list_lookup_fmap, Hp. eexists. reflexivity. }
    destruct Hsome as [q Hq]. exists q. split; [exact Hq | ].
    exact (Forall_lookup_1 _ _ _ _ HP Hq). }
  assert (HlookC : forall i, is_Some (_circles s !! i) ->
            exists c, _circles (setDirty false s) !! i = Some c /\ circle_dirty c = false).
  { intros i [c Hci].
    assert (Hsome : is_Some (_circles (setDirty false s) !! i)).
    { destruct (setDirty_shapes_cases false s) as [[_ ->] | [_ ->]].
      - exists c. exact Hci.
      - rewrite list_lookup_fmap, Hci. eexists. reflexivity. }
    destruct Hsome as [q Hq]. exists q. split; [exact Hq | ].
    exact (Forall_lookup_1 _ _ _ _ HC Hq). }
  split; [ | split; [ | split; [ | split; [ | split]]]].
  - split; [exact HP | ]. split; [exact HC | apply setDirty_dirty].
  - intros p.
    destruct (polygons_append_frame p s) as (_ & _ & _ & Hps & _ & Hd).
    destruct (setDirty_false_shapes _ Hd) as [-> _]. rewrite Hps.
    split; [reflexivity | apply polygons_clean_after].
  - apply setDirty_true_shapes.
  - intros i v Hi. destruct (HlookP i Hi) as (q & Hq & Hclean).
    exact (appendVertex_clean_polygon i v q _ Hq Hclean).
  - intros i Hi. destruct (HlookP i Hi) as (q & Hq & Hclean).
    unfold setPolygonDirty. rewrite Hq, Hclean. cbn [eqb]. apply setDirty_dirty.
  - intros i Hi. destruct (HlookC i Hi) as (q & Hq & Hclean).
    unfold setCircleDirty. rewrite Hq, Hclean. cbn [eqb]. apply setDirty_dirty.
Qed.

(** ** Reconciliation with the transport *)

Lemma append_polygons_frame (l : list QGCFencePolygon) (s : ObstacleController) :
  let s' := fold_left (fun s p => polygons_append (QGCFencePolygon_copy p) s) l s in
  surroundings s' = surroundings s
  /\ _breachReturnPoint s' = _breachReturnPoint s
  /\ _breachReturnAltitudeFact s' = _breachReturnAltitudeFact s
  /\ _polygons s' = _polygons s ++ l
  /\ _circles s' = _circles s
  /\ (_dirty s = true -> _dirty s' = true).
Proof.
  revert s. induction l as [ | p l IH]; intros s; cbn [fold_left].
  - rewrite app_nil_r. repeat split; auto.
  - destruct (IH (polygons_append (QGCFencePolygon_copy p) s)) as (H1 & H2 & H3 & H4 & H5 & H6).
    destruct (polygons_append_frame (QGCFencePolygon_copy p) s) as (F1 & F2 & F3 & F4 & F5 & F6).
    cbn zeta in *.
    rewrite H1, H2, H3, H4, H5, F1, F2, F3, F4, F5, <- app_assoc.
    repeat split; auto.
Qed.

Lemma append_circles_frame (l : list QGCFenceCircle) (s : ObstacleController) :
  let s' := fold_left (fun s c => circles_append (QGCFenceCircle_copy c) s) l s in
  surroundings s' = surroundings s
  /\ _breachReturnPoint s' = _breachReturnPoint s
  /\ _breachReturnAltitudeFact s' = _breachReturnAltitudeFact s
  /\ _polygons s' = _polygons s
  /\ _circles s' = _circles s ++ l
  /\ (_dirty s = true -> _dirty s' = true).
Proof.
  revert s. induction l as [ | c l IH]; intros s; cbn [fold_left].
  - rewrite app_nil_r. repeat split; auto.
  - destruct (IH (circles_append (QGCFenceCircle_copy c) s)) as (H1 & H2 & H3 & H4 & H5 & H6).
    destruct (circles_append_frame (QGCFenceCircle_copy c) s) as (F1 & F2 & F3 & F4 & F5 & F6).
    cbn zeta in *.
    rewrite H1, H2, H3, H4, H5, F1, F2, F3, F4, F5, <- app_assoc.
    repeat split; auto.
Qed.

Lemma setFenceFromManager_effect (polys : list QGCFencePolygon)
    (circs : list QGCFenceCircle) (s : ObstacleController) :
  _dirty s = true ->
  let s' := _setFenceFromManager polys circs s in
  surroundings s' = surroundings s
  /\ _breachReturnPoint s' = _breachReturnPoint s
  /\ _breachReturnAltitudeFact s' = _breachReturnAltitudeFact s
  /\ _polygons s' = QGCFencePolygon_setDirty false <$> polys
  /\ _circles s' = QGCFenceCircle_setDirty false <$> circs
  /\ _dirty s' = false.
Proof.
  intros Hd. unfold _setFenceFromManager.
  set (s1 := polygons_clearAndDeleteContents s).
  set (s2 := circles_clearAndDeleteContents s1).
  set (s3 := fold_left _ polys s2).
  set (s4 := fold_left _ circs s3).
  destruct (polygons_clear_frame s) as (A1 & A2 & A3 & A4 & A5 & A6).
  destruct (circles_clear_frame s1) as (B1 & B2 & B3 & B4 & B5 & B6).
  destruct (append_polygons_frame polys s2) as (C1 & C2 & C3 & C4 & C5 & C6).
  destruct (append_circles_frame circs s3) as (D1 & D2 & D3 & D4 & D5 & D6).
  cbn zeta in *. fold s1 in A1, A2, A3, A4, A5, A6. fold s2 in B1, B2, B3, B4, B5, B6.
  fold s3 in C1, C2, C3, C4, C5, C6. fold s4 in D1, D2, D3, D4, D5, D6.
  assert (Hd4 : _dirty s4 = true) by auto.
  destruct (setDirty_frame false s4) as (E1 & E2 & E3).
  destruct (setDirty_false_shapes s4 Hd4) as (E4 & E5).
  cbn zeta.
  rewrite E1, E2, E3, E4, E5, D1, D2, D3, D4, D5, C1, C2, C3, C4, C5,
    B1, B2, B3, B4, B5, A1, A2, A3, A4.
  repeat split; try reflexivity. apply setDirty_dirty.
Qed.

Lemma setReturnPointFromManager_effect (c : QGeoCoordinate) (s : ObstacleController) :
  let s' := _setReturnPointFromManager c s in
  surroundings s' = surroundings s
  /\ _breachReturnPoint s' = c
  /\ _breachReturnAltitudeFact s'
     = (if isValid c then altitude c else _breachReturnDefaultAltitude s)
  /\ _dirty s' = true.
Proof. unfold _setReturnPointFromManager. solve_step s. Qed.

(** What [_managerLoadComplete] does when its guard holds. *)
Lemma managerLoadComplete_reload (s : ObstacleController) :
  reloadWanted s = true ->
  let s' := _managerLoadComplete s in
  _polygons s' = QGCFencePolygon_setDirty false <$> polygons (_obstacleManager s)
  /\ _circles s' = QGCFenceCircle_setDirty false <$> circles (_obstacleManager s)
  /\ _breachReturnPoint s' = breachReturnPoint (_obstacleManager s)
  /\ _breachReturnAltitudeFact s'
     = (if isValid (breachReturnPoint (_obstacleManager s))
        then altitude (breachReturnPoint (_obstacleManager s))
        else _breachReturnDefaultAltitude s)
  /\ _dirty s' = false
  /\ _itemsRequested s' = false
  /\ _obstacleManager s' = _obstacleManager s
  /\ loadCompleteCount s' = S (loadCompleteCount s)
  /\ last (emitted s') = Some loadComplete.
Proof.
  intros Hwanted. unfold _managerLoadComplete. rewrite Hwanted.
  set (c := breachReturnPoint (_obstacleManager s)).
  set (s1 := _setReturnPointFromManager c s).
  destruct (setReturnPointFromManager_effect c s) as (A1 & A2 & A3 & A4).
  cbn zeta in *. fold s1 in A1, A2, A3, A4.
  assert (Hm : _obstacleManager s1 = _obstacleManager s).
  { unfold surroundings in A1. congruence. }
  rewrite Hm.
  set (s2 := _setFenceFromManager _ _ s1).
  destruct (setFenceFromManager_effect (polygons (_obstacleManager s))
              (circles (_obstacleManager s)) s1 A4) as (B1 & B2 & B3 & B4 & B5 & B6).
  cbn zeta in *. fold s2 in B1, B2, B3, B4, B5, B6.
  rewrite (setDirty_false_clean s2 B6).
  unfold surroundings in A1, B1.
  assert (Hcount : loadCompleteCount s2 = loadCompleteCount s) by congruence.
  assert (Hmgr : _obstacleManager s2 = _obstacleManager s) by congruence.
  assert (Hdef : _breachReturnDefaultAltitude s1 = _breachReturnDefaultAltitude s) by congruence.
  clear A1 B1.
  destruct s2 as [fv off veh mgr ps cs brp fact def d req sigs].
  unfold with_itemsRequested, emit, loadCompleteCount in *. cbn in *.
  rewrite List.filter_app, length_app, last_snoc. cbn.
  subst. repeat split; try reflexivity; try assumption. lia.
Qed.

(** What it does otherwise: only the pending request flag is reset. *)
Lemma managerLoadComplete_skip (s : ObstacleController) :
  reloadWanted s = false ->
  _managerLoadComplete s = with_itemsRequested false s.
Proof. intros Hskip. unfold _managerLoadComplete. rewrite Hskip. reflexivity. Qed.

(** C7.  When the transport's load-complete callback fires, the document is
    reconciled exactly when the fly view is shown, or items were requested,
    or the document is empty: the shapes and the breach return point become
    the transport's, the dirty flag is cleared and [loadComplete] is
    signalled; otherwise nothing but the request flag changes.  The request
    flag is false afterwards in both cases. *)
Theorem managerLoadComplete_reconciles (s : ObstacleController) :
  let s' := _managerLoadComplete s in
  let wanted := _flyView s = true \/ _itemsRequested s = true \/ isEmpty s = true in
  _itemsRequested s' = false
  /\ (loadCompleteCount s' = S (loadCompleteCount s) <-> wanted)
  /\ (wanted ->
        _polygons s' = QGCFencePolygon_setDirty false <$> polygons (_obstacleManager s)
        /\ _circles s' = QGCFenceCircle_setDirty false <$> circles (_obstacleManager s)
        /\ _breachReturnPoint s' = breachReturnPoint (_obstacleManager s)
        /\ _dirty s' = false
        /\ last (emitted s') = Some loadComplete)
  /\ (~ wanted -> s' = with_itemsRequested false s).
Proof.
  cbn zeta.
  assert (Hiff : reloadWanted s = true
                 <-> _flyView s = true \/ _itemsRequested s = true \/ isEmpty s = true).
  { unfold reloadWanted. rewrite !orb_true_iff. tauto. }
  destruct (reloadWanted s) eqn:Hw.
  - destruct (managerLoadComplete_reload s Hw) as (P & C & B & _ & D & I & _ & N & L).
    cbn zeta in *.
    split; [exact I | ]. split; [ | split].
    + split; [intros _; apply Hiff; reflexivity | intros _; exact N].
    + intros _. repeat split; assumption.
    + intros Hnot. exfalso. apply Hnot, Hiff. reflexivity.
  - rewrite (managerLoadComplete_skip s Hw).
    split; [reflexivity | ]. split; [ | split].
    + split.
      * unfold loadCompleteCount, with_itemsRequested. cbn [emitted]. intros Habs. lia.
      * intros Hwanted. apply Hiff in Hwanted. discriminate.
    + intros Hwanted. apply Hiff in Hwanted. discriminate.
    + intros _. reflexivity.
Qed.

(** C8.  [showPlanFromManagerVehicle] answers true in three cases: offline,
    where nothing changes; the vehicle's initial plan request incomplete; a
    sync in progress; in the last two only the request flag is set.
    Otherwise it reconciles at once from what the transport reports and
    answers false. *)
Theorem showPlanFromManagerVehicle_cases (s : ObstacleController) :
  let handled := fst (showPlanFromManagerVehicle s) in
  let s' := snd (showPlanFromManagerVehicle s) in
  (handled = true <->
     offline s = true
     \/ initialPlanRequestComplete (_managerVehicle s) = false
     \/ syncInProgress s = true)
  /\ (offline s = true -> handled = true /\ s' = s)
  /\ (offline s = false ->
      initialPlanRequestComplete (_managerVehicle s) = false \/ syncInProgress s = true ->
      handled = true /\ s' = with_itemsRequested true s)
  /\ (handled = false ->
        s' = _managerLoadComplete (with_itemsRequested true s)
        /\ _polygons s' = QGCFencePolygon_setDirty false <$> polygons (_obstacleManager s)
        /\ _circles s' = QGCFenceCircle_setDirty false <$> circles (_obstacleManager s)
        /\ _breachReturnPoint s' = breachReturnPoint (_obstacleManager s)
        /\ _dirty s' = false
        /\ _itemsRequested s' = false
        /\ loadCompleteCount s' = S (loadCompleteCount s)).
Proof.
  cbn zeta. unfold showPlanFromManagerVehicle.
  destruct (offline s) eqn:Hoff; cbn [fst snd].
  { split; [ | split; [ | split]].
    - split; auto.
    - auto.
    - discriminate.
    - discriminate. }
  change (_managerVehicle (with_itemsRequested true s)) with (_managerVehicle s).
  change (syncInProgress (with_itemsRequested true s)) with (syncInProgress s).
  change (with_itemsRequested true (with_itemsRequested true s))
    with (with_itemsRequested true s).
  destruct (initialPlanRequestComplete (_managerVehicle s)) eqn:Hinit; cbn [negb fst snd].
  2:{ split; [ | split; [ | split]].
      - split; auto.
      - discriminate.
      - auto.
      - discriminate. }
  destruct (syncInProgress s) eqn:Hsync; cbn [fst snd].
  { split; [ | split; [ | split]].
    - split; auto.
    - discriminate.
    - auto.
    - discriminate. }
  split; [ | split; [ | split]].
  - split; [discriminate | intros [H | [H | H]]; discriminate].
  - discriminate.
  - intros _ [H | H]; discriminate.
  - intros _.
    assert (Hw : reloadWanted (with_itemsRequested true s) = true).
    { unfold reloadWanted. cbn [_itemsRequested with_itemsRequested].
      rewrite orb_true_r. reflexivity. }
    destruct (managerLoadComplete_reload _ Hw) as (P & C & B & _ & D & I & _ & N & _).
    cbn zeta in *. repeat split; assumption.
Qed.

(** ** Loading *)

Lemma contains_Some (json : QJsonObject) (k : string) (v : QJsonValue) :
  json !! k = Some v -> contains json k = true /\ jsonAt json k = v.
Proof.
  intros H. unfold contains, jsonAt. rewrite H. split; [ | reflexivity].
  apply bool_decide_eq_true. eauto.
Qed.

Lemma contains_None (json : QJsonObject) (k : string) :
  json !! k = None -> contains json k = false.
Proof.
  intros H. unfold contains. rewrite H.
  apply bool_decide_eq_false. intros [v Hv]. discriminate.
Qed.

Lemma load_round_trip_coordinate (c : QGeoCoordinate) :
  loadGeoCoordinate (saveGeoCoordinate c true) true = Some c.
Proof. destruct c; reflexivity. Qed.

Section Loading.
Context {SJ : ShapeJson}.

Lemma load_legacy_removeAll (json : QJsonObject) (s : ObstacleController) :
  contains json jsonVersionKey = false \/ toInt (jsonAt json jsonVersionKey) = 1%Z ->
  load json s = (LoadOk, removeAll s).
Proof.
  intros Hlegacy. unfold load.
  destruct Hlegacy as [Habsent | Hone].
  - rewrite Habsent. reflexivity.
  - rewrite Hone. destruct (contains json jsonVersionKey); reflexivity.
Qed.

(** C2.  When [version] is absent or holds 1, [load] returns true with no
    error and leaves the document empty: no polygon, no circle, an invalid
    breach return point; the other fields of the object are not looked at. *)
Theorem load_legacy_version (json : QJsonObject) (s : ObstacleController) :
  contains json jsonVersionKey = false \/ toInt (jsonAt json jsonVersionKey) = 1%Z ->
  fst (load json s) = LoadOk
  /\ _polygons (snd (load json s)) = []
  /\ _circles (snd (load json s)) = []
  /\ isValid (_breachReturnPoint (snd (load json s))) = false
  /\ isEmpty (snd (load json s)) = true.
Proof.
  intros Hlegacy. rewrite (load_legacy_removeAll json s Hlegacy). cbn [fst snd].
  destruct (removeAll_cleared s) as (Hp & Hc & Hb).
  unfold isEmpty. rewrite Hp, Hc, Hb. repeat split; reflexivity.
Qed.

Lemma load_not_legacy (json : QJsonObject) (s : ObstacleController) :
  contains json jsonVersionKey = true ->
  toInt (jsonAt json jsonVersionKey) <> 1%Z ->
  load json s =
    if negb (validateKeys json keyInfoList) then (LoadFailed KeysInvalid, removeAll s)
    else if negb (toInt (jsonAt json jsonVersionKey) =? _jsonCurrentVersion)%Z
    then (LoadFailed UnsupportedVersion, removeAll s)
    else
      andThen (load_polygons (toArray (jsonAt json _jsonPolygonsKey)) (removeAll s)) (fun s =>
      andThen (load_circles (toArray (jsonAt json _jsonCirclesKey)) s) (fun s =>
      andThen (load_breachReturn json s) (fun s =>
        (LoadOk, setDirty false (emit_breachReturnPointChanged (_breachReturnPoint s) s))))).
Proof.
  intros Hpresent Hne. unfold load. rewrite Hpresent.
  apply Z.eqb_neq in Hne. rewrite Hne. reflexivity.
Qed.

(** C3, as the code has it.  When [version] is present, holds neither 1 nor
    2, and the object passes the key validation that [load] runs first, the
    load fails for its version, and the document holds no polygon and no
    circle. *)
Theorem load_unsupported_version (json : QJsonObject) (s : ObstacleController) :
  contains json jsonVersionKey = true ->
  toInt (jsonAt json jsonVersionKey) <> 1%Z ->
  toInt (jsonAt json jsonVersionKey) <> 2%Z ->
  validateKeys json keyInfoList = true ->
  fst (load json s) = LoadFailed UnsupportedVersion
  /\ length (_polygons (snd (load json s))) = 0
  /\ length (_circles (snd (load json s))) = 0.
Proof.
  intros Hpresent Hne1 Hne2 Hkeys.
  rewrite load_not_legacy by assumption. rewrite Hkeys. cbn [negb].
  apply Z.eqb_neq in Hne2. unfold _jsonCurrentVersion. rewrite Hne2. cbn [negb fst snd].
  destruct (removeAll_cleared s) as (Hp & Hc & _). rewrite Hp, Hc. repeat split; reflexivity.
Qed.

(** The outcome of the loop over the polygon entries: every entry before a
    failure has been appended. *)
Lemma load_polygons_effect (l : list QJsonValue) (s : ObstacleController) :
  let r := fst (load_polygons l s) in
  let s' := snd (load_polygons l s) in
  surroundings s' = surroundings s
  /\ _breachReturnPoint s' = _breachReturnPoint s
  /\ _breachReturnAltitudeFact s' = _breachReturnAltitudeFact s
  /\ _circles s' = _circles s
  /\ match r with
     | LoadOk => length (_polygons s') = length (_polygons s) + length l
     | LoadFailed e =>
         length (_polygons s') < length (_polygons s) + length l
         /\ (e = PolygonNotObject \/ e = PolygonInvalid)
     end.
Proof.
  cbn zeta. revert s. induction l as [ | v l IH]; intros s.
  - cbn. repeat split; try reflexivity. lia.
  - destruct v; cbn [load_polygons fst snd length];
      try (repeat split; [lia | left; reflexivity]).
    destruct (polygon_loadFromJson o true (QGCFencePolygon_new false)) as [p | ];
      cbn [fst snd]; [ | repeat split; [lia | right; reflexivity]].
    destruct (polygons_append_frame p s) as (F1 & F2 & F3 & F4 & F5 & _).
    destruct (IH (polygons_append p s)) as (H1 & H2 & H3 & H4 & H5).
    cbn zeta in *. rewrite H1, H2, H3, H4, F1, F2, F3, F5.
    repeat split.
    rewrite F4, length_app in H5. cbn [length] in H5.
    destruct (fst (load_polygons l (polygons_append p s))).
    + lia.
    + destruct H5 as [Hlt He]. split; [lia | exact He].
Qed.

Lemma load_circles_effect (l : list QJsonValue) (s : ObstacleController) :
  let r := fst (load_circles l s) in
  let s' := snd (load_circles l s) in
  surroundings s' = surroundings s
  /\ _breachReturnPoint s' = _breachReturnPoint s
  /\ _breachReturnAltitudeFact s' = _breachReturnAltitudeFact s
  /\ _polygons s' = _polygons s
  /\ match r with
     | LoadOk => length (_circles s') = length (_circles s) + length l
     | LoadFailed e =>
         length (_circles s') < length (_circles s) + length l
         /\ (e = CircleNotObject \/ e = CircleInvalid)
     end.
Proof.
  cbn zeta. revert s. induction l as [ | v l IH]; intros s.
  - cbn. repeat split; try reflexivity. lia.
  - destruct v; cbn [load_circles fst snd length];
      try (repeat split; [lia | left; reflexivity]).
    destruct (circle_loadFromJson o QGCFenceCircle_new) as [c | ];
      cbn [fst snd]; [ | repeat split; [lia | right; reflexivity]].
    destruct (circles_append_frame c s) as (F1 & F2 & F3 & F4 & F5 & _).
    destruct (IH (circles_append c s)) as (H1 & H2 & H3 & H4 & H5).
    cbn zeta in *. rewrite H1, H2, H3, H4, F1, F2, F3, F4.
    repeat split.
    rewrite F5, length_app in H5. cbn [length] in H5.
    destruct (fst (load_circles l (circles_append c s))).
    + lia.
    + destruct H5 as [Hlt He]. split; [lia | exact He].
Qed.

Lemma load_breachReturn_effect (json : QJsonObject) (s : ObstacleController) :
  let r := fst (load_breachReturn json s) in
  let s' := snd (load_breachReturn json s) in
  _polygons s' = _polygons s
  /\ _circles s' = _circles s
  /\ match r with
     | LoadOk => True
     | LoadFailed e => e = BreachReturnInvalid /\ s' = s
     end.
Proof.
  cbn zeta. unfold load_breachReturn.
  destruct (contains json _jsonBreachReturnKey).
  - destruct (loadGeoCoordinate (jsonAt json _jsonBreachReturnKey) true) as [c | ];
      cbn [fst snd]; [ | repeat split].
    change (_breachReturnPoint (with_breachReturnPoint c s)) with c.
    destruct (setRawValue_frame (altitude c) (with_breachReturnPoint c s))
      as (_ & _ & _ & Hp & Hc & _).
    cbn zeta in *. rewrite Hp, Hc. repeat split.
  - cbn [fst snd].
    change (_breachReturnDefaultAltitude (with_breachReturnPoint QGeoCoordinate_default s))
      with (_breachReturnDefaultAltitude s).
    destruct (setRawValue_frame (_breachReturnDefaultAltitude s)
                (with_breachReturnPoint QGeoCoordinate_default s))
      as (_ & _ & _ & Hp & Hc & _).
    cbn zeta in *. rewrite Hp, Hc. repeat split.
Qed.

(** The loop over the polygon entries, entry by entry: the polygons it
    appends are those of the entries before the one it stops at, each as
    [loadPolygonEntry] gives it. *)
Lemma load_polygons_exact (l : list QJsonValue) (s : ObstacleController) :
  exists qs,
    _polygons (snd (load_polygons l s)) = _polygons s ++ qs
    /\ Forall2 (fun v p => loadPolygonEntry v = inl p) (take (length qs) l) qs
    /\ match fst (load_polygons l s) with
       | LoadOk => length qs = length l
       | LoadFailed e => exists v, l !! length qs = Some v /\ loadPolygonEntry v = inr e
       end.
Proof.
  revert s. induction l as [ | v l IH]; intros s.
  - exists []. cbn. rewrite app_nil_r. repeat split. constructor.
  - destruct v as [ | b | d | str | arr | o | ];
      try (exists []; cbn; rewrite app_nil_r;
           split; [reflexivity | split; [constructor | eexists; split; reflexivity]]).
    cbn [load_polygons].
    destruct (polygon_loadFromJson o true (QGCFencePolygon_new false)) as [p | ] eqn:Hload.
    + destruct (IH (polygons_append p s)) as (qs & Hps & Hall & Hr).
      destruct (polygons_append_frame p s) as (_ & _ & _ & F4 & _).
      exists (p :: qs). rewrite Hps, F4, <- app_assoc.
      split; [reflexivity | ]. split.
      * cbn [length take]. constructor; [ | exact Hall].
        cbn [loadPolygonEntry]. rewrite Hload. reflexivity.
      * destruct (fst (load_polygons l (polygons_append p s))); cbn [length].
        -- f_equal. exact Hr.
        -- exact Hr.
    + exists []. cbn [fst snd length take]. rewrite app_nil_r.
      split; [reflexivity | ]. split; [constructor | ].
      eexists. split; [reflexivity | ]. cbn [loadPolygonEntry]. rewrite Hload. reflexivity.
Qed.

Lemma load_circles_exact (l : list QJsonValue) (s : ObstacleController) :
  exists qs,
    _circles (snd (load_circles l s)) = _circles s ++ qs
    /\ Forall2 (fun v c => loadCircleEntry v = inl c) (take (length qs) l) qs
    /\ match fst (load_circles l s) with
       | LoadOk => length qs = length l
       | LoadFailed e => exists v, l !! length qs = Some v /\ loadCircleEntry v = inr e
       end.
Proof.
  revert s. induction l as [ | v l IH]; intros s.
  - exists []. cbn. rewrite app_nil_r. repeat split. constructor.
  - destruct v as [ | b | d | str | arr | o | ];
      try (exists []; cbn; rewrite app_nil_r;
           split; [reflexivity | split; [constructor | eexists; split; reflexivity]]).
    cbn [load_circles].
    destruct (circle_loadFromJson o QGCFenceCircle_new) as [c | ] eqn:Hload.
    + destruct (IH (circles_append c s)) as (qs & Hcs & Hall & Hr).
      destruct (circles_append_frame c s) as (_ & _ & _ & _ & F5 & _).
      exists (c :: qs). rewrite Hcs, F5, <- app_assoc.
      split; [reflexivity | ]. split.
      * cbn [length take]. constructor; [ | exact Hall].
        cbn [loadCircleEntry]. rewrite Hload. reflexivity.
      * destruct (fst (load_circles l (circles_append c s))); cbn [length].
        -- f_equal. exact Hr.
        -- exact Hr.
    + exists []. cbn [fst snd length take]. rewrite app_nil_r.
      split; [reflexivity | ]. split; [constructor | ].
      eexists. split; [reflexivity | ]. cbn [loadCircleEntry]. rewrite Hload. reflexivity.
Qed.

(** C4, as the code has it.  When [load] fails, the error is returned and
    the breach return point is invalid, but the document is not rolled back:
    it holds exactly the shapes appended before the failure.  None when the
    keys or the version are refused.  When the polygon entry of index [n] is
    refused, [n] polygons, which are those of the entries before it, one for
    one and as the polygon loader gave them, and no circle.  When the circle
    entry of index [n] is refused, the polygons of all the polygon entries
    and the circles of the [n] circle entries before it.  When the breach
    return point is refused, the polygons and the circles of all the
    entries. *)
Theorem load_failure (json : QJsonObject) (s : ObstacleController) (e : LoadError) :
  fst (load json s) = LoadFailed e ->
  let s' := snd (load json s) in
  let polygonEntries := toArray (jsonAt json _jsonPolygonsKey) in
  let circleEntries := toArray (jsonAt json _jsonCirclesKey) in
  isValid (_breachReturnPoint s') = false
  /\ match e with
     | KeysInvalid | UnsupportedVersion => _polygons s' = [] /\ _circles s' = []
     | PolygonNotObject | PolygonInvalid =>
         (exists n v,
            polygonEntries !! n = Some v
            /\ loadPolygonEntry v = inr e
            /\ length (_polygons s') = n
            /\ Forall2 (fun v p => loadPolygonEntry v = inl p)
                       (take n polygonEntries) (_polygons s'))
         /\ _circles s' = []
     | CircleNotObject | CircleInvalid =>
         Forall2 (fun v p => loadPolygonEntry v = inl p) polygonEntries (_polygons s')
         /\ (exists n v,
               circleEntries !! n = Some v
               /\ loadCircleEntry v = inr e
               /\ length (_circles s') = n
               /\ Forall2 (fun v c => loadCircleEntry v = inl c)
                          (take n circleEntries) (_circles s'))
     | BreachReturnInvalid =>
         Forall2 (fun v p => loadPolygonEntry v = inl p) polygonEntries (_polygons s')
         /\ Forall2 (fun v c => loadCircleEntry v = inl c) circleEntries (_circles s')
     end.
Proof.
  cbn zeta. unfold load.
  destruct (removeAll_cleared s) as (Hp0 & Hc0 & Hb0).
  set (s0 := removeAll s) in *.
  destruct (negb (contains json jsonVersionKey) || _); [discriminate | ].
  destruct (validateKeys json keyInfoList); cbn [negb fst snd];
    [ | intros [= <-]; auto].
  destruct (toInt (jsonAt json jsonVersionKey) =? _jsonCurrentVersion)%Z; cbn [negb fst snd];
    [ | intros [= <-]; auto].
  (* the polygon entries *)
  pose proof (load_polygons_effect (toArray (jsonAt json _jsonPolygonsKey)) s0) as HP.
  destruct (load_polygons_exact (toArray (jsonAt json _jsonPolygonsKey)) s0)
    as (ps & Hps & HallP & HrP).
  destruct (load_polygons (toArray (jsonAt json _jsonPolygonsKey)) s0) as [r1 s1].
  cbn [fst snd] in HP, Hps, HrP. cbn zeta in HP. destruct HP as (_ & Hb1 & _ & Hc1 & Hn1).
  rewrite Hp0 in Hps. cbn [app] in Hps.
  destruct r1 as [ | e1]; cbn [andThen fst snd].
  2:{ intros [= <-]. rewrite Hb1, Hc1, Hb0, Hc0, Hps.
      destruct HrP as (v & Hv & He).
      split; [reflexivity | ].
      destruct Hn1 as [_ [-> | ->]];
        (split; [exists (length ps), v; repeat split; assumption | reflexivity]). }
  rewrite HrP, firstn_all in HallP.
  (* the circle entries *)
  pose proof (load_circles_effect (toArray (jsonAt json _jsonCirclesKey)) s1) as HC.
  destruct (load_circles_exact (toArray (jsonAt json _jsonCirclesKey)) s1)
    as (cs & Hcs & HallC & HrC).
  destruct (load_circles (toArray (jsonAt json _jsonCirclesKey)) s1) as [r2 s2].
  cbn [fst snd] in HC, Hcs, HrC. cbn zeta in HC. destruct HC as (_ & Hb2 & _ & Hp2 & Hn2).
  rewrite Hc1, Hc0 in Hcs. cbn [app] in Hcs.
  destruct r2 as [ | e2]; cbn [andThen fst snd].
  2:{ intros [= <-]. rewrite Hb2, Hb1, Hp2, Hb0, Hps, Hcs.
      destruct HrC as (v & Hv & He).
      split; [reflexivity | ].
      destruct Hn2 as [_ [-> | ->]];
        (split; [exact HallP | exists (length cs), v; repeat split; assumption]). }
  rewrite HrC, firstn_all in HallC.
  (* the breach return point *)
  pose proof (load_breachReturn_effect json s2) as HB.
  destruct (load_breachReturn json s2) as [r3 s3].
  cbn [fst snd] in HB. cbn zeta in HB. destruct HB as (_ & _ & Hr3).
  destruct r3 as [ | e3]; cbn [andThen fst snd]; [discriminate | ].
  intros [= <-]. destruct Hr3 as [-> ->].
  rewrite Hb2, Hb1, Hp2, Hb0, Hps, Hcs. auto.
Qed.

(** ** Saving *)

(** C10.  [save] writes to the document: with a valid breach return point it
    stores the altitude fact into the point before the point is serialized,
    and changes nothing else; the polygons, the circles and the dirty flag
    are never touched.  With an invalid point the controller is unchanged
    and the [breachReturn] field is not written, so an object that did not
    have it, an empty one for instance, still lacks it. *)
Theorem save_effects (json : QJsonObject) (s : ObstacleController) :
  let json' := fst (save json s) in
  let s' := snd (save json s) in
  _polygons s' = _polygons s
  /\ _circles s' = _circles s
  /\ _dirty s' = _dirty s
  /\ (isValid (_breachReturnPoint s) = true ->
        s' = with_breachReturnPoint
               (setAltitude (_breachReturnAltitudeFact s) (_breachReturnPoint s)) s
        /\ altitude (_breachReturnPoint s') = _breachReturnAltitudeFact s
        /\ json' !! _jsonBreachReturnKey = Some (saveGeoCoordinate (_breachReturnPoint s') true))
  /\ (isValid (_breachReturnPoint s) = false ->
        s' = s
        /\ json' !! _jsonBreachReturnKey = json !! _jsonBreachReturnKey
        /\ contains (fst (save ∅ s)) _jsonBreachReturnKey = false).
Proof.
  unfold save. destruct (isValid (_breachReturnPoint s)); cbn [fst snd].
  - split; [reflexivity | ]. split; [reflexivity | ]. split; [reflexivity | ].
    split; [intros _ | discriminate].
    split; [reflexivity | ]. split; [reflexivity | ].
    apply lookup_insert_eq.
  - split; [reflexivity | ]. split; [reflexivity | ]. split; [reflexivity | ].
    split; [discriminate | intros _].
    split; [reflexivity | ].
    split; [rewrite !lookup_insert_ne by done; reflexivity | reflexivity].
Qed.

(** The four fields of a saved object. *)
Lemma save_fields (s : ObstacleController) :
  let json := fst (save ∅ s) in
  json !! jsonVersionKey = Some (JInt _jsonCurrentVersion)
  /\ json !! _jsonPolygonsKey
     = Some (JArray ((fun p => JObject (polygon_saveToJson p ∅)) <$> _polygons s))
  /\ json !! _jsonCirclesKey
     = Some (JArray ((fun c => JObject (circle_saveToJson c ∅)) <$> _circles s))
  /\ json !! _jsonBreachReturnKey
     = (if isValid (_breachReturnPoint s)
        then Some (saveGeoCoordinate
                     (setAltitude (_breachReturnAltitudeFact s) (_breachReturnPoint s)) true)
        else None).
Proof.
  cbn zeta. unfold save. destruct (isValid (_breachReturnPoint s)); cbn [fst].
  - split; [ | split; [ | split]].
    + rewrite !lookup_insert_ne by done. apply lookup_insert_eq.
    + rewrite !lookup_insert_ne by done. apply lookup_insert_eq.
    + rewrite !lookup_insert_ne by done. apply lookup_insert_eq.
    + apply lookup_insert_eq.
  - split; [ | split; [ | split]].
    + rewrite !lookup_insert_ne by done. apply lookup_insert_eq.
    + rewrite !lookup_insert_ne by done. apply lookup_insert_eq.
    + apply lookup_insert_eq.
    + rewrite !lookup_insert_ne by done. apply lookup_empty.
Qed.

Lemma save_validates (s : ObstacleController) :
  validateKeys (fst (save ∅ s)) keyInfoList = true.
Proof.
  destruct (save_fields s) as (Hv & Hp & Hc & Hb). cbn zeta in *.
  unfold validateKeys, keyInfoList. cbn [forallb]. unfold validateKey.
  cbn [key type required]. rewrite Hv, Hp, Hc, Hb.
  destruct (isValid (_breachReturnPoint s)); reflexivity.
Qed.

(** ** Round trip *)

Lemma load_saved_polygons (RT : ShapeJsonRoundTrip SJ) (l : list QGCFencePolygon)
    (s : ObstacleController) :
  exists s' qs,
    load_polygons ((fun p => JObject (polygon_saveToJson p ∅)) <$> l) s = (LoadOk, s')
    /\ Forall2 polygon_equiv l qs
    /\ _polygons s' = _polygons s ++ qs
    /\ _circles s' = _circles s.
Proof.
  revert s. induction l as [ | p l IH]; intros s.
  - exists s, []. rewrite app_nil_r. repeat split. constructor.
  - cbn [fmap list_fmap load_polygons].
    destruct (polygon_roundtrip SJ RT p (QGCFencePolygon_new false)) as (q & -> & Hq).
    destruct (IH (polygons_append q s)) as (s' & qs & Hload & Hqs & Hps & Hcs).
    destruct (polygons_append_frame q s) as (_ & _ & _ & F4 & F5 & _). cbn zeta in *.
    exists s', (q :: qs). rewrite Hload, Hps, Hcs, F4, F5, <- app_assoc.
    repeat split. constructor; assumption.
Qed.

Lemma load_saved_circles (RT : ShapeJsonRoundTrip SJ) (l : list QGCFenceCircle)
    (s : ObstacleController) :
  exists s' ds,
    load_circles ((fun c => JObject (circle_saveToJson c ∅)) <$> l) s = (LoadOk, s')
    /\ Forall2 circle_equiv l ds
    /\ _polygons s' = _polygons s
    /\ _circles s' = _circles s ++ ds.
Proof.
  revert s. induction l as [ | c l IH]; intros s.
  - exists s, []. rewrite app_nil_r. repeat split. constructor.
  - cbn [fmap list_fmap load_circles].
    destruct (circle_roundtrip SJ RT c QGCFenceCircle_new) as (d & -> & Hd).
    destruct (IH (circles_append d s)) as (s' & ds & Hload & Hds & Hps & Hcs).
    destruct (circles_append_frame d s) as (_ & _ & _ & F4 & F5 & _). cbn zeta in *.
    exists s', (d :: ds). rewrite Hload, Hps, Hcs, F4, F5, <- app_assoc.
    repeat split. constructor; assumption.
Qed.

Lemma polygon_equiv_clean (l qs : list QGCFencePolygon) :
  Forall2 polygon_equiv l qs ->
  Forall2 polygon_equiv l (QGCFencePolygon_setDirty false <$> qs).
Proof.
  intros H. apply Forall2_fmap_r. eapply Forall2_impl; [exact H | ].
  intros p q [Hpath Hincl]. split; assumption.
Qed.

Lemma circle_equiv_clean (l ds : list QGCFenceCircle) :
  Forall2 circle_equiv l ds ->
  Forall2 circle_equiv l (QGCFenceCircle_setDirty false <$> ds).
Proof.
  intros H. apply Forall2_fmap_r. eapply Forall2_impl; [exact H | ].
  intros c d (Hc & Hr & Hi). repeat split; assumption.
Qed.

(** C1, as the code has it.  With shape serializers that read back what they
    write, loading what [save] produced succeeds, in any controller; the
    loaded polygons and circles are as many as the saved ones and
    equivalent to them one by one; the breach return point is valid exactly
    when the saved one was, and then has its latitude and longitude and the
    altitude that [save] wrote, the value of the altitude fact; the dirty
    flag is false. *)
Theorem save_load_roundtrip (RT : ShapeJsonRoundTrip SJ) (s t : ObstacleController) :
  let json := fst (save ∅ s) in
  let t' := snd (load json t) in
  fst (load json t) = LoadOk
  /\ Forall2 polygon_equiv (_polygons s) (_polygons t')
  /\ Forall2 circle_equiv (_circles s) (_circles t')
  /\ length (_polygons t') = length (_polygons s)
  /\ length (_circles t') = length (_circles s)
  /\ isValid (_breachReturnPoint t') = isValid (_breachReturnPoint s)
  /\ (isValid (_breachReturnPoint s) = true ->
        _breachReturnPoint t'
        = setAltitude (_breachReturnAltitudeFact s) (_breachReturnPoint s)
        /\ _breachReturnPoint t' = _breachReturnPoint (snd (save ∅ s))
        /\ _breachReturnAltitudeFact t' = _breachReturnAltitudeFact s
        /\ (altitude (_breachReturnPoint s) = _breachReturnAltitudeFact s ->
            _breachReturnPoint t' = _breachReturnPoint s))
  /\ _dirty t' = false.
Proof.
  cbn zeta.
  destruct (save_fields s) as (Hv & Hp & Hc & Hb). cbn zeta in *.
  destruct (contains_Some _ _ _ Hv) as [Hcv Hav].
  destruct (contains_Some _ _ _ Hp) as [_ Hap].
  destruct (contains_Some _ _ _ Hc) as [_ Hac].
  rewrite load_not_legacy; [ | exact Hcv | rewrite Hav; vm_compute; discriminate].
  rewrite save_validates, Hav, Hap, Hac. cbn [negb toArray].
  change (toInt (JInt _jsonCurrentVersion) =? _jsonCurrentVersion)%Z with true.
  cbn [negb].
  destruct (removeAll_cleared t) as (Hp0 & Hc0 & Hb0).
  set (t0 := removeAll t) in *.
  destruct (load_saved_polygons RT (_polygons s) t0) as (t1 & qs & -> & Hqs & Hp1 & Hc1).
  cbn [andThen].
  destruct (load_saved_circles RT (_circles s) t1) as (t2 & ds & -> & Hds & Hp2 & Hc2).
  cbn [andThen].
  rewrite Hp1, Hp0 in Hp2. rewrite Hc1, Hc0 in Hc2. cbn [app] in Hp2, Hc2.
  (* the breach return point *)
  assert (Hbr : exists t3,
             load_breachReturn (fst (save ∅ s)) t2 = (LoadOk, t3)
             /\ _polygons t3 = qs /\ _circles t3 = ds
             /\ _breachReturnPoint t3
                = (if isValid (_breachReturnPoint s)
                   then setAltitude (_breachReturnAltitudeFact s) (_breachReturnPoint s)
                   else QGeoCoordinate_default)
             /\ (isValid (_breachReturnPoint s) = true ->
                 _breachReturnAltitudeFact t3 = _breachReturnAltitudeFact s)).
  { unfold load_breachReturn.
    destruct (isValid (_breachReturnPoint s)) eqn:Hvalid.
    - destruct (contains_Some _ _ _ Hb) as [-> ->].
      rewrite load_round_trip_coordinate.
      set (c := setAltitude _ _).
      change (_breachReturnPoint (with_breachReturnPoint c t2)) with c.
      destruct (setRawValue_frame (altitude c) (with_breachReturnPoint c t2))
        as (_ & F2 & F3 & F4 & F5 & _). cbn zeta in *.
      eexists. split; [reflexivity | ]. rewrite F2, F3, F4, F5. auto.
    - rewrite (contains_None _ _ Hb).
      change (_breachReturnDefaultAltitude (with_breachReturnPoint QGeoCoordinate_default t2))
        with (_breachReturnDefaultAltitude t2).
      destruct (setRawValue_frame (_breachReturnDefaultAltitude t2)
                  (with_breachReturnPoint QGeoCoordinate_default t2))
        as (_ & F2 & _ & F4 & F5 & _). cbn zeta in *.
      eexists. split; [reflexivity | ]. rewrite F2, F4, F5.
      split; [exact Hp2 | ]. split; [exact Hc2 | ]. split; [reflexivity | discriminate]. }
  destruct Hbr as (t3 & -> & Hp3 & Hc3 & Hb3 & Hf3). cbn [andThen fst snd].
  (* the final signal and setDirty(false) *)
  set (t4 := emit_breachReturnPointChanged (_breachReturnPoint t3) t3).
  destruct (emit_breachReturnPointChanged_frame (_breachReturnPoint t3) t3)
    as (_ & G2 & G3 & G4 & G5 & G6). cbn zeta in *. fold t4 in G2, G3, G4, G5, G6.
  destruct (setDirty_false_shapes t4 G6) as [Hp5 Hc5].
  destruct (setDirty_frame false t4) as (_ & Hb5 & Hf5).
  rewrite Hp5, Hc5, Hb5, Hf5, G2, G3, G4, G5, Hp3, Hc3, Hb3, setDirty_dirty.
  split; [reflexivity | ].
  split; [apply polygon_equiv_clean; exact Hqs | ].
  split; [apply circle_equiv_clean; exact Hds | ].
  split; [rewrite length_fmap; symmetry; exact (Forall2_length _ _ _ Hqs) | ].
  split; [rewrite length_fmap; symmetry; exact (Forall2_length _ _ _ Hds) | ].
  split; [destruct (isValid (_breachReturnPoint s)) eqn:Hvalid;
          [rewrite setAltitude_isValid; exact Hvalid | reflexivity] | ].
  split; [ | reflexivity].
  intros Hvalid. rewrite Hvalid. split; [reflexivity | ]. split; [ | split].
  - unfold save. rewrite Hvalid. reflexivity.
  - exact (Hf3 Hvalid).
  - intros <-. destruct (_breachReturnPoint s); reflexivity.
Qed.

(** Whatever the serializers, a first polygon entry that loads stays in the
    document when the second entry is not an object. *)
Lemma load_failure_keeps_first_polygon (o : QJsonObject) (p : QGCFencePolygon)
    (s : ObstacleController) :
  polygon_loadFromJson o true (QGCFencePolygon_new false) = Some p ->
  let json : QJsonObject :=
    <[jsonVersionKey := JInt 2]>
      (<[_jsonPolygonsKey := JArray [JObject o; JNull]]>
         (<[_jsonCirclesKey := JArray []]> ∅)) in
  fst (load json s) = LoadFailed PolygonNotObject
  /\ _polygons (snd (load json s)) = [p].
Proof.
  intros Hload json.
  assert (Hv : json !! jsonVersionKey = Some (JInt 2)) by apply lookup_insert_eq.
  assert (Hp : json !! _jsonPolygonsKey = Some (JArray [JObject o; JNull])).
  { unfold json. rewrite lookup_insert_ne by done. apply lookup_insert_eq. }
  assert (Hc : json !! _jsonCirclesKey = Some (JArray [])).
  { unfold json. rewrite !lookup_insert_ne by done. apply lookup_insert_eq. }
  assert (Hb : json !! _jsonBreachReturnKey = None).
  { unfold json. rewrite !lookup_insert_ne by done. apply lookup_empty. }
  destruct (contains_Some _ _ _ Hv) as [Hcv Hav].
  destruct (contains_Some _ _ _ Hp) as [_ Hap].
  rewrite load_not_legacy; [ | exact Hcv | rewrite Hav; vm_compute; discriminate].
  assert (Hkeys : validateKeys json keyInfoList = true).
  { unfold validateKeys, keyInfoList. cbn [forallb]. unfold validateKey.
    cbn [key type required]. rewrite Hv, Hp, Hc, Hb. reflexivity. }
  rewrite Hkeys, Hav, Hap. cbn [negb toArray].
  change (toInt (JInt 2) =? _jsonCurrentVersion)%Z with true. cbn [negb].
  cbn [load_polygons]. rewrite Hload. cbn [andThen fst snd].
  destruct (polygons_append_frame p (removeAll s)) as (_ & _ & _ & F4 & _).
  destruct (removeAll_cleared s) as (Hp0 & _). cbn zeta in F4.
  rewrite F4, Hp0. split; reflexivity.
Qed.

End Loading.

(** ** The sample serializers and concrete documents *)

Lemma sample_roundtrip : ShapeJsonRoundTrip sampleShapeJson.
Proof.
  split.
  - intros p p0. eexists. split.
    + cbn [polygon_loadFromJson polygon_saveToJson sampleShapeJson].
      rewrite lookup_insert_ne by done. rewrite !lookup_insert_eq.
      unfold sample_loadPath.
      rewrite (mapM_fmap_Some (fun v => loadGeoCoordinate v true)
                 (fun c => saveGeoCoordinate c true) (path p) load_round_trip_coordinate).
      reflexivity.
    + split; reflexivity.
  - intros c c0. eexists. split.
    + cbn [circle_loadFromJson circle_saveToJson sampleShapeJson].
      rewrite !(lookup_insert_ne _ "radius" "inclusion") by done.
      rewrite (lookup_insert_ne _ "center" "inclusion") by done.
      rewrite (lookup_insert_ne _ "radius" "center") by done.
      rewrite !lookup_insert_eq.
      rewrite load_round_trip_coordinate. reflexivity.
    + repeat split; reflexivity.
Qed.

(** C1 at the sample document, loaded into a new controller. *)
Lemma save_load_roundtrip_witness :
  ShapeJsonRoundTrip sampleShapeJson
  /\ let json := fst (save ∅ sampleDocument) in
     let t' := snd (load json newController) in
     fst (load json newController) = LoadOk
     /\ Forall2 polygon_equiv (_polygons sampleDocument) (_polygons t')
     /\ Forall2 circle_equiv (_circles sampleDocument) (_circles t')
     /\ length (_polygons t') = length (_polygons sampleDocument)
     /\ length (_circles t') = length (_circles sampleDocument)
     /\ isValid (_breachReturnPoint t') = isValid (_breachReturnPoint sampleDocument)
     /\ (isValid (_breachReturnPoint sampleDocument) = true ->
           _breachReturnPoint t'
           = setAltitude (_breachReturnAltitudeFact sampleDocument)
               (_breachReturnPoint sampleDocument)
           /\ _breachReturnPoint t' = _breachReturnPoint (snd (save ∅ sampleDocument))
           /\ _breachReturnAltitudeFact t' = _breachReturnAltitudeFact sampleDocument
           /\ (altitude (_breachReturnPoint sampleDocument)
               = _breachReturnAltitudeFact sampleDocument ->
               _breachReturnPoint t' = _breachReturnPoint sampleDocument))
     /\ _dirty t' = false.
Proof.
  split; [exact sample_roundtrip | ].
  exact (save_load_roundtrip sample_roundtrip sampleDocument newController).
Defined.

(** C1 does not hold of the altitude.  The point was set at altitude
    3 while the altitude fact held 50; [save] writes 50, and the reloaded
    point is not the original one. *)
Lemma roundtrip_altitude_counterexample :
  let json := fst (save ∅ breachPointDocument) in
  let t' := snd (load json (snd (save ∅ breachPointDocument))) in
  isValid (_breachReturnPoint breachPointDocument) = true
  /\ _breachReturnPoint breachPointDocument = coordinate 1 2 3
  /\ _breachReturnAltitudeFact breachPointDocument = double_of_Z 50
  /\ fst (load json (snd (save ∅ breachPointDocument))) = LoadOk
  /\ _breachReturnPoint t' = coordinate 1 2 50
  /\ _breachReturnPoint t' <> _breachReturnPoint breachPointDocument.
Proof.
  cbn zeta. repeat split; try (vm_compute; reflexivity).
  vm_compute. discriminate.
Qed.

(** C2 at a version 1 object, loaded over the sample document. *)
Lemma load_legacy_version_witness :
  (contains legacyObject jsonVersionKey = false
   \/ toInt (jsonAt legacyObject jsonVersionKey) = 1%Z)
  /\ fst (load legacyObject sampleDocument) = LoadOk
  /\ _polygons (snd (load legacyObject sampleDocument)) = []
  /\ _circles (snd (load legacyObject sampleDocument)) = []
  /\ isValid (_breachReturnPoint (snd (load legacyObject sampleDocument))) = false
  /\ isEmpty (snd (load legacyObject sampleDocument)) = true.
Proof.
  assert (H : contains legacyObject jsonVersionKey = false
              \/ toInt (jsonAt legacyObject jsonVersionKey) = 1%Z).
  { right. vm_compute. reflexivity. }
  split; [exact H | ].
  exact (load_legacy_version legacyObject sampleDocument H).
Defined.

(** C3 at a version 3 object that has the required arrays. *)
Lemma load_unsupported_version_witness :
  contains version3Object jsonVersionKey = true
  /\ toInt (jsonAt version3Object jsonVersionKey) = 3%Z
  /\ validateKeys version3Object keyInfoList = true
  /\ fst (load version3Object sampleDocument) = LoadFailed UnsupportedVersion
  /\ length (_polygons (snd (load version3Object sampleDocument))) = 0
  /\ length (_circles (snd (load version3Object sampleDocument))) = 0.
Proof.
  assert (H1 : contains version3Object jsonVersionKey = true) by (vm_compute; reflexivity).
  assert (H2 : toInt (jsonAt version3Object jsonVersionKey) = 3%Z) by (vm_compute; reflexivity).
  assert (H3 : validateKeys version3Object keyInfoList = true) by (vm_compute; reflexivity).
  split; [exact H1 | ]. split; [exact H2 | ]. split; [exact H3 | ].
  apply (load_unsupported_version version3Object sampleDocument H1).
  - rewrite H2. discriminate.
  - rewrite H2. discriminate.
  - exact H3.
Defined.

(** C3 does not hold when a required array is missing: the load is
    refused by the key validation, before the version is compared. *)
Lemma load_version3_only_counterexample :
  contains version3Only jsonVersionKey = true
  /\ toInt (jsonAt version3Only jsonVersionKey) = 3%Z
  /\ fst (load version3Only newController) = LoadFailed KeysInvalid
  /\ fst (load version3Only newController) <> LoadFailed UnsupportedVersion.
Proof.
  repeat split; try (vm_compute; reflexivity).
  vm_compute. discriminate.
Qed.

(** C6 at the sample document, whose flag and shapes are dirty, and at the
    same document once it has been sent to the vehicle, whose flag is
    clear. *)
Lemma setDirty_propagation_witness :
  (dirtyConsistent sampleDocument = true
   /\ _dirty sampleDocument = true
   /\ Forall (fun p => polygon_dirty p = false) (_polygons (setDirty false sampleDocument))
   /\ Forall (fun c => circle_dirty c = false) (_circles (setDirty false sampleDocument))
   /\ _dirty (setDirty false sampleDocument) = false
   /\ _dirty (appendVertex 0 (coordinate 2 1 0) (setDirty false sampleDocument)) = true)
  /\ (dirtyConsistent (sendToVehicle sampleDocument) = true
      /\ _dirty (sendToVehicle sampleDocument) = false
      /\ Forall (fun p => polygon_dirty p = false)
                (_polygons (setDirty false (sendToVehicle sampleDocument)))
      /\ _dirty (setCircleDirty 0 true (setDirty false (sendToVehicle sampleDocument)))
         = true).
Proof.
  assert (H1 : dirtyConsistent sampleDocument = true) by reflexivity.
  assert (H2 : dirtyConsistent (sendToVehicle sampleDocument) = true) by reflexivity.
  destruct (setDirty_propagation sampleDocument H1) as ((HP1 & HC1 & Hd1) & _ & _ & Hv1 & _).
  destruct (setDirty_propagation (sendToVehicle sampleDocument) H2)
    as ((HP2 & _ & _) & _ & _ & _ & _ & Hc2).
  split.
  - split; [exact H1 | ]. split; [reflexivity | ]. split; [exact HP1 | ].
    split; [exact HC1 | ]. split; [exact Hd1 | ].
    apply Hv1. exists samplePolygon. reflexivity.
  - split; [exact H2 | ]. split; [reflexivity | ]. split; [exact HP2 | ].
    apply Hc2. exists (QGCFenceCircle_setDirty false sampleCircle). reflexivity.
Defined.

(** C4 at an object whose second polygon entry is malformed: the polygon of
    the first entry stays. *)
Lemma load_failure_witness :
  fst (load secondPolygonMalformed newController) = LoadFailed PolygonNotObject
  /\ isValid (_breachReturnPoint (snd (load secondPolygonMalformed newController))) = false
  /\ (exists n v,
        toArray (jsonAt secondPolygonMalformed _jsonPolygonsKey) !! n = Some v
        /\ loadPolygonEntry v = inr PolygonNotObject
        /\ length (_polygons (snd (load secondPolygonMalformed newController))) = n
        /\ Forall2 (fun v p => loadPolygonEntry v = inl p)
                   (take n (toArray (jsonAt secondPolygonMalformed _jsonPolygonsKey)))
                   (_polygons (snd (load secondPolygonMalformed newController))))
  /\ _circles (snd (load secondPolygonMalformed newController)) = [].
Proof.
  assert (H : fst (load secondPolygonMalformed newController) = LoadFailed PolygonNotObject)
    by (vm_compute; reflexivity).
  split; [exact H | ].
  destruct (load_failure secondPolygonMalformed newController PolygonNotObject H)
    as (Hb & Hshapes & Hc).
  split; [exact Hb | ]. split; [exact Hshapes | exact Hc].
Defined.

(** C4 does not hold there: the load is refused at the second
    polygon entry and the first polygon stays in the document. *)
Lemma load_failure_keeps_polygon_counterexample :
  fst (load secondPolygonMalformed newController) = LoadFailed PolygonNotObject
  /\ length (_polygons (snd (load secondPolygonMalformed newController))) = 1
  /\ path <$> _polygons (snd (load secondPolygonMalformed newController))
     = [path samplePolygon]
  /\ _polygons (snd (load secondPolygonMalformed newController)) <> [].
Proof.
  split; [vm_compute; reflexivity | ]. split; [vm_compute; reflexivity | ].
  split; [vm_compute; reflexivity | ].
  vm_compute. discriminate.
Qed.

(** * Further properties of the controller *)

Arguments clearAllInteractive !s /.
Arguments polygons_removeAt i !s /.
Arguments circles_removeAt i !s /.
Arguments lastPolygon_setInteractive b !s /.
Arguments lastCircle_setInteractive b !s /.
Arguments transportReports m !s /.
Arguments document !s /.

(** ** The dirty flag *)

Lemma setDirty_same (d : bool) (s : ObstacleController) :
  _dirty s = d -> setDirty d s = s.
Proof. intros H. destruct d; solve_step s. Qed.

(** X1.  [setDirty] signals [dirtyChanged] exactly when the flag changes,
    and once: a second call with the same value does nothing. *)
Theorem setDirty_signals_change (d : bool) (s : ObstacleController) :
  emitted (setDirty d s)
  = (if eqb d (_dirty s) then emitted s else emitted s ++ [dirtyChanged d])
  /\ setDirty d (setDirty d s) = setDirty d s.
Proof.
  split.
  - destruct d; solve_step s.
  - apply setDirty_same, setDirty_dirty.
Qed.

(** ** The breach return point *)

Lemma valid_not_default (c : QGeoCoordinate) :
  isValid c = true -> QGeoCoordinate_eqb c QGeoCoordinate_default = false.
Proof.
  intros Hvalid. destruct (QGeoCoordinate_eqb c QGeoCoordinate_default) eqn:Heq;
    [ | reflexivity].
  apply eqb_default_invalid in Heq. congruence.
Qed.

(** X2.  [setBreachReturnPoint] does nothing when the new point compares
    equal to the current one.  Otherwise it stores the point, leaves the
    document dirty and signals [breachReturnPointChanged] once, after the
    [dirtyChanged] of a document that was clean; the shapes, the altitude
    fact and the transport are not touched. *)
Theorem setBreachReturnPoint_effect (c : QGeoCoordinate) (s : ObstacleController) :
  (QGeoCoordinate_eqb (_breachReturnPoint s) c = true -> setBreachReturnPoint c s = s)
  /\ (QGeoCoordinate_eqb (_breachReturnPoint s) c = false ->
        let s' := setBreachReturnPoint c s in
        _breachReturnPoint s' = c
        /\ _dirty s' = true
        /\ _polygons s' = _polygons s
        /\ _circles s' = _circles s
        /\ _breachReturnAltitudeFact s' = _breachReturnAltitudeFact s
        /\ surroundings s' = surroundings s
        /\ emitted s'
           = emitted s ++ (if _dirty s then [] else [dirtyChanged true])
               ++ [breachReturnPointChanged c]).
Proof.
  split; intros Heq; unfold setBreachReturnPoint; rewrite Heq; cbn [negb].
  - reflexivity.
  - destruct s as [fv off veh mgr ps cs brp fact def [] req sigs]; cbn;
      rewrite ?List.filter_app, ?length_app, <- ?app_assoc; cbn;
      rewrite ?Nat.add_0_r; repeat split.
Qed.

(** ** [removeAll] *)

(** X3.  [removeAll] empties the document and only the document: afterwards
    [isEmpty] holds and [containsItems] does not, while the session, the
    transport with its requests, the pending request flag and the altitude
    fact are as before.  On a document that is already empty, with the
    default point, it does nothing. *)
Theorem removeAll_empties (s : ObstacleController) :
  isEmpty (removeAll s) = true
  /\ containsItems (removeAll s) = false
  /\ surroundings (removeAll s) = surroundings s
  /\ _breachReturnAltitudeFact (removeAll s) = _breachReturnAltitudeFact s
  /\ (_polygons s = [] -> _circles s = [] ->
      _breachReturnPoint s = QGeoCoordinate_default -> removeAll s = s).
Proof.
  destruct (removeAll_cleared s) as (Hp & Hc & Hb).
  destruct (removeAll_frame s) as (Hs & Hf).
  unfold isEmpty, containsItems. rewrite Hp, Hc, Hb.
  split; [reflexivity | ]. split; [reflexivity | ].
  split; [exact Hs | ]. split; [exact Hf | ].
  intros Hps Hcs Hbrp.
  destruct s as [fv off veh mgr ps cs brp fact def d req sigs]; cbn in *; subst.
  reflexivity.
Qed.

(** A document is empty exactly when it contains no item and has no
    valid breach return point: a breach return point alone makes a document
    that is not empty and yet contains no item. *)
Theorem isEmpty_containsItems (s : ObstacleController) :
  isEmpty s = negb (containsItems s) && negb (isValid (_breachReturnPoint s)).
Proof.
  unfold isEmpty, containsItems.
  destruct (_polygons s), (_circles s); reflexivity.
Qed.

(** ** More on [load] *)

Section LoadingMore.
Context {SJ : ShapeJson}.

Lemma load_breachReturn_detail (json : QJsonObject) (s : ObstacleController) :
  let r := fst (load_breachReturn json s) in
  let s' := snd (load_breachReturn json s) in
  surroundings s' = surroundings s
  /\ match r with
     | LoadOk =>
         if contains json _jsonBreachReturnKey
         then loadGeoCoordinate (jsonAt json _jsonBreachReturnKey) true
              = Some (_breachReturnPoint s')
              /\ _breachReturnAltitudeFact s' = altitude (_breachReturnPoint s')
         else _breachReturnPoint s' = QGeoCoordinate_default
              /\ _breachReturnAltitudeFact s' = _breachReturnDefaultAltitude s
     | LoadFailed _ => s' = s
     end.
Proof.
  cbn zeta. unfold load_breachReturn.
  destruct (contains json _jsonBreachReturnKey).
  - destruct (loadGeoCoordinate (jsonAt json _jsonBreachReturnKey) true) as [c | ];
      cbn [fst snd]; [ | split; reflexivity].
    change (_breachReturnPoint (with_breachReturnPoint c s)) with c.
    destruct (setRawValue_frame (altitude c) (with_breachReturnPoint c s))
      as (F1 & F2 & F3 & _). cbn zeta in *.
    rewrite F1, F2, F3. repeat split.
  - cbn [fst snd].
    change (_breachReturnDefaultAltitude (with_breachReturnPoint QGeoCoordinate_default s))
      with (_breachReturnDefaultAltitude s).
    destruct (setRawValue_frame (_breachReturnDefaultAltitude s)
                (with_breachReturnPoint QGeoCoordinate_default s))
      as (F1 & F2 & F3 & _). cbn zeta in *.
    rewrite F1, F2, F3. repeat split.
Qed.

(** The three loops of [load] and its last two lines, from a document that
    [removeAll] has emptied. *)
Lemma load_body_outcome (json : QJsonObject) (s0 : ObstacleController) :
  _polygons s0 = [] -> _circles s0 = [] ->
  let r :=
    andThen (load_polygons (toArray (jsonAt json _jsonPolygonsKey)) s0) (fun s =>
    andThen (load_circles (toArray (jsonAt json _jsonCirclesKey)) s) (fun s =>
    andThen (load_breachReturn json s) (fun s =>
      (LoadOk, setDirty false (emit_breachReturnPointChanged (_breachReturnPoint s) s))))) in
  surroundings (snd r) = surroundings s0
  /\ match fst r with
     | LoadOk =>
         length (_polygons (snd r)) = length (toArray (jsonAt json _jsonPolygonsKey))
         /\ length (_circles (snd r)) = length (toArray (jsonAt json _jsonCirclesKey))
         /\ Forall (fun p => polygon_dirty p = false) (_polygons (snd r))
         /\ Forall (fun c => circle_dirty c = false) (_circles (snd r))
         /\ _dirty (snd r) = false
         /\ (if contains json _jsonBreachReturnKey
             then loadGeoCoordinate (jsonAt json _jsonBreachReturnKey) true
                  = Some (_breachReturnPoint (snd r))
                  /\ _breachReturnAltitudeFact (snd r) = altitude (_breachReturnPoint (snd r))
             else _breachReturnPoint (snd r) = QGeoCoordinate_default
                  /\ _breachReturnAltitudeFact (snd r) = _breachReturnDefaultAltitude s0)
     | LoadFailed _ =>
         _breachReturnPoint (snd r) = _breachReturnPoint s0
         /\ _breachReturnAltitudeFact (snd r) = _breachReturnAltitudeFact s0
     end.
Proof.
  intros Hp0 Hc0. cbn zeta.
  pose proof (load_polygons_effect (toArray (jsonAt json _jsonPolygonsKey)) s0) as HP.
  destruct (load_polygons (toArray (jsonAt json _jsonPolygonsKey)) s0) as [r1 s1].
  cbn [fst snd] in HP. cbn zeta in HP. destruct HP as (Hs1 & Hb1 & Hf1 & Hc1 & Hn1).
  rewrite Hp0 in Hn1. cbn [length Nat.add] in Hn1.
  destruct r1 as [ | e1]; cbn [andThen fst snd]; [ | auto].
  pose proof (load_circles_effect (toArray (jsonAt json _jsonCirclesKey)) s1) as HC.
  destruct (load_circles (toArray (jsonAt json _jsonCirclesKey)) s1) as [r2 s2].
  cbn [fst snd] in HC. cbn zeta in HC. destruct HC as (Hs2 & Hb2 & Hf2 & Hp2 & Hn2).
  rewrite Hc1, Hc0 in Hn2. cbn [length Nat.add] in Hn2.
  destruct r2 as [ | e2]; cbn [andThen fst snd].
  2:{ rewrite Hs2, Hs1, Hb2, Hb1, Hf2, Hf1. auto. }
  pose proof (load_breachReturn_detail json s2) as HB.
  pose proof (load_breachReturn_effect json s2) as HB'.
  destruct (load_breachReturn json s2) as [r3 s3].
  cbn [fst snd] in HB, HB'. cbn zeta in HB, HB'.
  destruct HB as (Hs3 & Hd3). destruct HB' as (Hp3 & Hc3 & _).
  destruct r3 as [ | e3]; cbn [andThen fst snd].
  2:{ subst s3. rewrite Hs2, Hs1, Hb2, Hb1, Hf2, Hf1. auto. }
  set (s4 := emit_breachReturnPointChanged (_breachReturnPoint s3) s3).
  destruct (emit_breachReturnPointChanged_frame (_breachReturnPoint s3) s3)
    as (G1 & G2 & G3 & G4 & G5 & G6). cbn zeta in *. fold s4 in G1, G2, G3, G4, G5, G6.
  destruct (setDirty_false_shapes s4 G6) as [Hp5 Hc5].
  destruct (setDirty_frame false s4) as (Hs5 & Hb5 & Hf5).
  rewrite Hs5, G1, Hs3, Hs2, Hs1, Hp5, Hc5, Hb5, Hf5, G2, G3, !length_fmap, G4, G5,
    Hp3, Hc3, Hp2, Hn1, Hn2, setDirty_dirty.
  split; [reflexivity | ]. split; [reflexivity | ]. split; [reflexivity | ].
  split; [apply polygons_clean_after | ]. split; [apply circles_clean_after | ].
  split; [reflexivity | ].
  assert (Hdef : _breachReturnDefaultAltitude s2 = _breachReturnDefaultAltitude s0).
  { unfold surroundings in Hs1, Hs2. congruence. }
  rewrite <- Hdef. exact Hd3.
Qed.

(** X4.  [load] works on the document alone: whatever the object and
    whatever the outcome, the view, the session, the vehicle, the transport
    and the requests issued to it, the default altitude, the pending request
    flag and the number of [loadComplete] signals are as before. *)
Theorem load_keeps_surroundings (json : QJsonObject) (s : ObstacleController) :
  surroundings (snd (load json s)) = surroundings s.
Proof.
  destruct (removeAll_cleared s) as (Hp0 & Hc0 & _).
  destruct (removeAll_frame s) as (Hs0 & _).
  destruct (load_body_outcome json (removeAll s) Hp0 Hc0) as (Hs & _). cbn zeta in Hs.
  unfold load.
  destruct (negb (contains json jsonVersionKey) || _); [exact Hs0 | ].
  destruct (negb (validateKeys json keyInfoList)); [exact Hs0 | ].
  destruct (negb (toInt (jsonAt json jsonVersionKey) =? _jsonCurrentVersion)%Z);
    [exact Hs0 | ].
  rewrite Hs. exact Hs0.
Qed.

(** X5.  When [load] succeeds on an object that is not a legacy one, the
    object passed the key validation and holds version 2; the document has
    one polygon for each entry of [polygons] and one circle for each entry
    of [circles], all clean, and is not dirty; with a [breachReturn] field
    the point is the one read from it and the altitude fact is its
    altitude, without one the point is the invalid default and the altitude
    fact is back at the default altitude. *)
Theorem load_current_success (json : QJsonObject) (s : ObstacleController) :
  fst (load json s) = LoadOk ->
  contains json jsonVersionKey = true ->
  toInt (jsonAt json jsonVersionKey) <> 1%Z ->
  let s' := snd (load json s) in
  validateKeys json keyInfoList = true
  /\ toInt (jsonAt json jsonVersionKey) = 2%Z
  /\ length (_polygons s') = length (toArray (jsonAt json _jsonPolygonsKey))
  /\ length (_circles s') = length (toArray (jsonAt json _jsonCirclesKey))
  /\ Forall (fun p => polygon_dirty p = false) (_polygons s')
  /\ Forall (fun c => circle_dirty c = false) (_circles s')
  /\ _dirty s' = false
  /\ (if contains json _jsonBreachReturnKey
      then loadGeoCoordinate (jsonAt json _jsonBreachReturnKey) true
           = Some (_breachReturnPoint s')
           /\ _breachReturnAltitudeFact s' = altitude (_breachReturnPoint s')
      else _breachReturnPoint s' = QGeoCoordinate_default
           /\ _breachReturnAltitudeFact s' = _breachReturnDefaultAltitude s).
Proof.
  intros Hok Hpresent Hne. cbn zeta.
  rewrite load_not_legacy in Hok |- * by assumption.
  destruct (validateKeys json keyInfoList); cbn [negb] in Hok |- *; [ | discriminate].
  destruct (Z.eqb_spec (toInt (jsonAt json jsonVersionKey)) _jsonCurrentVersion)
    as [Hv | Hv]; cbn [negb] in Hok |- *; [ | discriminate].
  destruct (removeAll_cleared s) as (Hp0 & Hc0 & _).
  destruct (removeAll_frame s) as (Hs0 & _).
  destruct (load_body_outcome json (removeAll s) Hp0 Hc0) as (_ & Hout).
  cbn zeta in Hout. rewrite Hok in Hout.
  destruct Hout as (H1 & H2 & H3 & H4 & H5 & H6).
  assert (Hdef : _breachReturnDefaultAltitude (removeAll s) = _breachReturnDefaultAltitude s).
  { unfold surroundings in Hs0. congruence. }
  rewrite Hdef in H6.
  split; [reflexivity | ]. split; [exact Hv | ]. auto 10.
Qed.

(** After [load], whatever its outcome, the point and the altitude fact
    agree. *)
Lemma load_altitudeInSync (json : QJsonObject) (s : ObstacleController) :
  altitudeInSync (snd (load json s)).
Proof.
  destruct (removeAll_cleared s) as (Hp0 & Hc0 & Hb0).
  destruct (load_body_outcome json (removeAll s) Hp0 Hc0) as (_ & Hout). cbn zeta in Hout.
  unfold altitudeInSync, load.
  destruct (negb (contains json jsonVersionKey) || _); [left; exact Hb0 | ].
  destruct (negb (validateKeys json keyInfoList)); [left; exact Hb0 | ].
  destruct (negb (toInt (jsonAt json jsonVersionKey) =? _jsonCurrentVersion)%Z);
    [left; exact Hb0 | ].
  destruct (fst _).
  - destruct Hout as (_ & _ & _ & _ & _ & Hbr).
    destruct (contains json _jsonBreachReturnKey).
    + right. symmetry. apply Hbr.
    + left. destruct Hbr as [-> _]. reflexivity.
  - left. destruct Hout as [-> _]. exact Hb0.
Qed.

(** A legacy [load] returns before [setDirty(false)]. *)
Lemma removeAll_keeps_dirty (s : ObstacleController) :
  _dirty s = true \/ isValid (_breachReturnPoint s) = true ->
  _dirty (removeAll s) = true.
Proof.
  intros H.
  assert (H' : _dirty s = true
               \/ QGeoCoordinate_eqb (_breachReturnPoint s) QGeoCoordinate_default = false).
  { destruct H as [H | H]; auto using valid_not_default. }
  clear H. unfold removeAll, setBreachReturnPoint in *.
  destruct s as [fv off veh mgr ps cs brp fact def d req sigs]. cbn in *.
  destruct (QGeoCoordinate_eqb brp QGeoCoordinate_default); cbn [negb];
    destruct ps, cs, d; cbn in *; try reflexivity;
    destruct H' as [H | H]; discriminate.
Qed.

(** X6.  A legacy [load] empties the document but does not clear the dirty
    flag: when the document was dirty, or held a valid breach return point,
    it is dirty afterwards. *)
Theorem load_legacy_stays_dirty (json : QJsonObject) (s : ObstacleController) :
  contains json jsonVersionKey = false \/ toInt (jsonAt json jsonVersionKey) = 1%Z ->
  _dirty s = true \/ isValid (_breachReturnPoint s) = true ->
  fst (load json s) = LoadOk /\ _dirty (snd (load json s)) = true.
Proof.
  intros Hlegacy Hcontent. rewrite (load_legacy_removeAll json s Hlegacy). cbn [fst snd].
  split; [reflexivity | ]. apply removeAll_keeps_dirty. exact Hcontent.
Qed.

End LoadingMore.

(** ** More on [save] *)

Section SavingMore.
Context {SJ : ShapeJson}.

Lemma save_in_sync (json : QJsonObject) (s : ObstacleController) :
  altitudeInSync s -> snd (save json s) = s.
Proof.
  intros Hsync. unfold save.
  destruct (isValid (_breachReturnPoint s)) eqn:Hvalid; cbn [snd]; [ | reflexivity].
  destruct Hsync as [Hinv | Halt]; [congruence | ].
  rewrite <- Halt.
  destruct s as [fv off veh mgr ps cs [lat lng alt] fact def d req sigs]. reflexivity.
Qed.

Lemma save_makes_sync (json : QJsonObject) (s : ObstacleController) :
  altitudeInSync (snd (save json s)).
Proof.
  unfold altitudeInSync, save.
  destruct (isValid (_breachReturnPoint s)) eqn:Hvalid; cbn [snd].
  - right. reflexivity.
  - left. exact Hvalid.
Qed.

(** X7.  [save] is read-only on a document that [load] has just left,
    whatever the loaded object and whether the load succeeded: the point
    and the altitude fact then agree, or the point is invalid. *)
Theorem save_after_load_readonly (loaded json : QJsonObject) (s : ObstacleController) :
  snd (save json (snd (load loaded s))) = snd (load loaded s).
Proof. apply save_in_sync, load_altitudeInSync. Qed.

(** What [save] writes into an object, field by field. *)
Lemma save_lookup (json : QJsonObject) (s : ObstacleController) (k : string) :
  fst (save json s) !! k
  = if decide (k = _jsonBreachReturnKey) then
      (if isValid (_breachReturnPoint s)
       then Some (saveGeoCoordinate
                    (setAltitude (_breachReturnAltitudeFact s) (_breachReturnPoint s)) true)
       else json !! k)
    else if decide (k = _jsonCirclesKey) then
      Some (JArray ((fun c => JObject (circle_saveToJson c ∅)) <$> _circles s))
    else if decide (k = _jsonPolygonsKey) then
      Some (JArray ((fun p => JObject (polygon_saveToJson p ∅)) <$> _polygons s))
    else if decide (k = jsonVersionKey) then Some (JInt _jsonCurrentVersion)
    else json !! k.
Proof.
  unfold save.
  destruct (isValid (_breachReturnPoint s)); cbn [fst];
    repeat (rewrite lookup_insert; repeat case_decide; subst; try congruence; try done).
Qed.

(** X8.  [save] is idempotent: saving again, into the object and from the
    controller that the first [save] left, gives the same object and the
    same controller. *)
Theorem save_idempotent (json : QJsonObject) (s : ObstacleController) :
  save (fst (save json s)) (snd (save json s)) = save json s.
Proof.
  assert (Hs : snd (save (fst (save json s)) (snd (save json s))) = snd (save json s)).
  { apply save_in_sync, save_makes_sync. }
  apply injective_projections; [ | exact Hs].
  apply map_eq. intros k.
  rewrite (save_lookup (fst (save json s)) (snd (save json s)) k).
  rewrite !(save_lookup json s k).
  assert (Hshape : _polygons (snd (save json s)) = _polygons s
                   /\ _circles (snd (save json s)) = _circles s).
  { unfold save. destruct (isValid (_breachReturnPoint s)); split; reflexivity. }
  destruct Hshape as [-> ->].
  assert (Hpoint : isValid (_breachReturnPoint (snd (save json s)))
                   = isValid (_breachReturnPoint s)
                   /\ setAltitude (_breachReturnAltitudeFact (snd (save json s)))
                        (_breachReturnPoint (snd (save json s)))
                      = (if isValid (_breachReturnPoint s)
                         then setAltitude (_breachReturnAltitudeFact s) (_breachReturnPoint s)
                         else setAltitude (_breachReturnAltitudeFact s) (_breachReturnPoint s))).
  { unfold save. destruct (isValid (_breachReturnPoint s)) eqn:Hvalid; cbn [snd]; split;
      try reflexivity; try exact Hvalid. }
  destruct Hpoint as [-> ->].
  repeat case_decide; try reflexivity;
    destruct (isValid (_breachReturnPoint s)); reflexivity.
Qed.

(** X9.  Whatever the object held, after [save] it holds version 2, an
    array with one entry for each polygon and an array with one entry for
    each circle; every field other than the four of the schema is kept as it
    was. *)
Theorem save_fields_written (json : QJsonObject) (s : ObstacleController) :
  let json' := fst (save json s) in
  validateKeys json' [ mkKeyInfo jsonVersionKey TDouble true;
                       mkKeyInfo _jsonCirclesKey TArray true;
                       mkKeyInfo _jsonPolygonsKey TArray true ] = true
  /\ toInt (jsonAt json' jsonVersionKey) = 2%Z
  /\ length (toArray (jsonAt json' _jsonPolygonsKey)) = length (_polygons s)
  /\ length (toArray (jsonAt json' _jsonCirclesKey)) = length (_circles s)
  /\ forall k, k <> jsonVersionKey -> k <> _jsonPolygonsKey -> k <> _jsonCirclesKey ->
               k <> _jsonBreachReturnKey -> json' !! k = json !! k.
Proof.
  cbn zeta.
  pose proof (save_lookup json s jsonVersionKey) as Hv.
  pose proof (save_lookup json s _jsonPolygonsKey) as Hp.
  pose proof (save_lookup json s _jsonCirclesKey) as Hc.
  repeat (case_decide; try discriminate); try congruence.
  unfold validateKeys, validateKey, jsonAt. cbn [forallb key type required].
  rewrite Hv, Hp, Hc. cbn [from_option id toArray]. rewrite !length_fmap.
  split; [reflexivity | ]. split; [reflexivity | ].
  split; [reflexivity | ]. split; [reflexivity | ].
  intros k Hk1 Hk2 Hk3 Hk4. rewrite save_lookup.
  repeat case_decide; congruence.
Qed.

End SavingMore.

(** ** More on the sync operations *)

(** X10.  Online and with no sync in progress, [removeAllFromVehicle] hands
    one remove-all request to the transport and changes nothing else: the
    local document keeps its shapes, its breach return point and its dirty
    flag until the transport calls back. *)
Theorem removeAllFromVehicle_requests (s : ObstacleController) :
  offline s = false -> syncInProgress s = false ->
  let s' := removeAllFromVehicle s in
  issued (_obstacleManager s') = issued (_obstacleManager s) ++ [ReqRemoveAll]
  /\ document s' = document s
  /\ _itemsRequested s' = _itemsRequested s
  /\ emitted s' = emitted s.
Proof.
  intros Hon Hidle. unfold removeAllFromVehicle. rewrite Hon, Hidle.
  destruct s as [fv off veh mgr ps cs brp fact def d req sigs]. repeat split.
Qed.

(** X11.  Online and with no sync in progress, [loadFromVehicle] sets the
    pending request flag and hands one load request to the transport; the
    document is not touched. *)
Theorem loadFromVehicle_requests (s : ObstacleController) :
  offline s = false -> syncInProgress s = false ->
  let s' := loadFromVehicle s in
  issued (_obstacleManager s') = issued (_obstacleManager s) ++ [ReqLoadFromVehicle]
  /\ _itemsRequested s' = true
  /\ document s' = document s
  /\ emitted s' = emitted s.
Proof.
  intros Hon Hidle. unfold loadFromVehicle. rewrite Hon, Hidle.
  destruct s as [fv off veh mgr ps cs brp fact def d req sigs]. repeat split.
Qed.

(** X12.  Online and with no sync in progress, [sendToVehicle] hands one
    send request to the transport, with the breach return point, the
    polygons and the circles as they are at the call, and then clears the
    dirty flag without waiting for the transport: the document is clean, its
    shapes are the same fences, and its point and altitude fact are
    unchanged. *)
Theorem sendToVehicle_requests (s : ObstacleController) :
  offline s = false -> syncInProgress s = false ->
  let s' := sendToVehicle s in
  issued (_obstacleManager s')
  = issued (_obstacleManager s)
      ++ [ReqSendToVehicle (_breachReturnPoint s) (_polygons s) (_circles s)]
  /\ _dirty s' = false
  /\ Forall2 polygon_equiv (_polygons s) (_polygons s')
  /\ Forall2 circle_equiv (_circles s) (_circles s')
  /\ _breachReturnPoint s' = _breachReturnPoint s
  /\ _breachReturnAltitudeFact s' = _breachReturnAltitudeFact s
  /\ _itemsRequested s' = _itemsRequested s.
Proof.
  intros Hon Hidle. unfold sendToVehicle. rewrite Hon, Hidle.
  assert (Hp : forall l : list QGCFencePolygon,
             Forall2 polygon_equiv l (QGCFencePolygon_setDirty false <$> l)).
  { intros l. apply Forall2_fmap_r, Forall_Forall2_diag, Forall_true.
    intros p. split; reflexivity. }
  assert (Hc : forall l : list QGCFenceCircle,
             Forall2 circle_equiv l (QGCFenceCircle_setDirty false <$> l)).
  { intros l. apply Forall2_fmap_r, Forall_Forall2_diag, Forall_true.
    intros c. repeat split; reflexivity. }
  assert (Hp' : forall l : list QGCFencePolygon, Forall2 polygon_equiv l l).
  { intros l. apply Forall_Forall2_diag, Forall_true. intros p. split; reflexivity. }
  assert (Hc' : forall l : list QGCFenceCircle, Forall2 circle_equiv l l).
  { intros l. apply Forall_Forall2_diag, Forall_true. intros c. repeat split; reflexivity. }
  destruct s as [fv off veh mgr ps cs brp fact def [] req sigs]; cbn;
    repeat split; auto.
Qed.

(** X13.  A load asked for with [loadFromVehicle] is always taken: when the
    transport calls back, whatever it then reports replaces the document,
    even in the plan view and over unsaved edits, and the pending request
    flag is reset. *)
Theorem requested_load_reconciles (m : ObstacleManager) (s : ObstacleController) :
  offline s = false -> syncInProgress s = false ->
  let s' := _managerLoadComplete (transportReports m (loadFromVehicle s)) in
  _polygons s' = QGCFencePolygon_setDirty false <$> polygons m
  /\ _circles s' = QGCFenceCircle_setDirty false <$> circles m
  /\ _breachReturnPoint s' = breachReturnPoint m
  /\ _dirty s' = false
  /\ _itemsRequested s' = false.
Proof.
  intros Hon Hidle. cbn zeta.
  set (s1 := transportReports m (loadFromVehicle s)).
  assert (Hreq : _itemsRequested s1 = true /\ _obstacleManager s1 = m).
  { unfold s1, loadFromVehicle. rewrite Hon, Hidle.
    destruct s as [fv off veh mgr ps cs brp fact def d req sigs]. split; reflexivity. }
  destruct Hreq as [Hreq Hm].
  assert (Hw : reloadWanted s1 = true).
  { unfold reloadWanted. rewrite Hreq, orb_true_r. reflexivity. }
  destruct (managerLoadComplete_reload s1 Hw) as (P & C & B & _ & D & I & _).
  cbn zeta in *. rewrite Hm in P, C, B. auto.
Qed.

(** What [_managerLoadComplete] leaves in the document, in both cases. *)
Lemma managerLoadComplete_document (s : ObstacleController) :
  document (_managerLoadComplete s)
  = if reloadWanted s then
      (QGCFencePolygon_setDirty false <$> polygons (_obstacleManager s),
       QGCFenceCircle_setDirty false <$> circles (_obstacleManager s),
       breachReturnPoint (_obstacleManager s),
       (if isValid (breachReturnPoint (_obstacleManager s))
        then altitude (breachReturnPoint (_obstacleManager s))
        else _breachReturnDefaultAltitude s),
       false)
    else document s.
Proof.
  destruct (reloadWanted s) eqn:Hw.
  - destruct (managerLoadComplete_reload s Hw) as (P & C & B & F & D & _).
    cbn zeta in *.
    destruct (_managerLoadComplete s) as [fv off veh mgr ps cs brp fact def d req sigs].
    cbn in *. congruence.
  - rewrite (managerLoadComplete_skip s Hw).
    destruct s as [fv off veh mgr ps cs brp fact def d req sigs]. reflexivity.
Qed.

Lemma managerLoadComplete_static (s : ObstacleController) :
  _flyView (_managerLoadComplete s) = _flyView s
  /\ offline (_managerLoadComplete s) = offline s
  /\ _managerVehicle (_managerLoadComplete s) = _managerVehicle s
  /\ _obstacleManager (_managerLoadComplete s) = _obstacleManager s
  /\ _breachReturnDefaultAltitude (_managerLoadComplete s) = _breachReturnDefaultAltitude s
  /\ _itemsRequested (_managerLoadComplete s) = false.
Proof.
  unfold _managerLoadComplete.
  destruct (reloadWanted s); [ | destruct s; repeat split].
  set (c := breachReturnPoint (_obstacleManager s)).
  destruct (setReturnPointFromManager_effect c s) as (A1 & _ & _ & A4). cbn zeta in *.
  set (s1 := _setReturnPointFromManager c s) in *.
  destruct (setFenceFromManager_effect (polygons (_obstacleManager s1))
              (circles (_obstacleManager s1)) s1 A4) as (B1 & _ & _ & _ & _ & B6).
  cbn zeta in *.
  set (s2 := _setFenceFromManager _ _ s1) in *.
  rewrite (setDirty_false_clean s2 B6).
  unfold surroundings in A1, B1.
  destruct s2 as [fv off veh mgr ps cs brp fact def d req sigs]. cbn in *.
  repeat split; congruence.
Qed.

(** X14.  Reconciliation replaces and never accumulates: a second
    load-complete callback, with the transport reporting the same, leaves
    the document exactly as the first one did. *)
Theorem managerLoadComplete_idempotent (s : ObstacleController) :
  document (_managerLoadComplete (_managerLoadComplete s))
  = document (_managerLoadComplete s).
Proof.
  destruct (managerLoadComplete_static s) as (Hfv & _ & _ & Hm & Hdef & Hreq).
  rewrite (managerLoadComplete_document (_managerLoadComplete s)).
  destruct (reloadWanted (_managerLoadComplete s)) eqn:Hw2; [ | reflexivity].
  rewrite Hm, Hdef.
  rewrite (managerLoadComplete_document s).
  destruct (reloadWanted s) eqn:Hw1; [reflexivity | ].
  (* the first callback was skipped, so the second one is skipped as well *)
  exfalso. rewrite (managerLoadComplete_skip s Hw1) in Hw2.
  unfold reloadWanted in Hw1, Hw2.
  destruct s as [fv off veh mgr ps cs brp fact def d req sigs]. cbn in *.
  rewrite !orb_false_iff in Hw1. destruct Hw1 as [[-> _] Hempty].
  unfold isEmpty in *. cbn in *. congruence.
Qed.

Lemma showPlan_offline (s : ObstacleController) :
  offline s = true -> showPlanFromManagerVehicle s = (true, s).
Proof. intros H. unfold showPlanFromManagerVehicle. rewrite H. reflexivity. Qed.

Lemma showPlan_wait (s : ObstacleController) :
  offline s = false ->
  initialPlanRequestComplete (_managerVehicle s) = false \/ syncInProgress s = true ->
  showPlanFromManagerVehicle s = (true, with_itemsRequested true s).
Proof.
  intros Hon Hwait. unfold showPlanFromManagerVehicle. rewrite Hon.
  change (_managerVehicle (with_itemsRequested true s)) with (_managerVehicle s).
  change (syncInProgress (with_itemsRequested true s)) with (syncInProgress s).
  destruct (initialPlanRequestComplete (_managerVehicle s)); cbn [negb]; [ | reflexivity].
  destruct Hwait as [Hinit | Hsync]; [discriminate | ]. rewrite Hsync. reflexivity.
Qed.

Lemma showPlan_now (s : ObstacleController) :
  offline s = false ->
  initialPlanRequestComplete (_managerVehicle s) = true ->
  syncInProgress s = false ->
  showPlanFromManagerVehicle s = (false, _managerLoadComplete (with_itemsRequested true s)).
Proof.
  intros Hon Hinit Hidle. unfold showPlanFromManagerVehicle. rewrite Hon.
  change (_managerVehicle (with_itemsRequested true s)) with (_managerVehicle s).
  change (syncInProgress (with_itemsRequested true s)) with (syncInProgress s).
  rewrite Hinit, Hidle. reflexivity.
Qed.

(** X15.  Showing the plan from the vehicle twice in a row, with the
    session and the transport unchanged, gives the same answer and the same
    document as showing it once: no shape is duplicated. *)
Theorem showPlanFromManagerVehicle_idempotent (s : ObstacleController) :
  let once := showPlanFromManagerVehicle s in
  let twice := showPlanFromManagerVehicle (snd once) in
  fst twice = fst once /\ document (snd twice) = document (snd once).
Proof.
  cbn zeta.
  destruct (offline s) eqn:Hoff.
  { rewrite (showPlan_offline s Hoff). cbn [fst snd].
    rewrite (showPlan_offline s Hoff). split; reflexivity. }
  destruct (initialPlanRequestComplete (_managerVehicle s)) eqn:Hinit.
  2:{ rewrite (showPlan_wait s Hoff (or_introl Hinit)). cbn [fst snd].
      rewrite (showPlan_wait (with_itemsRequested true s) Hoff (or_introl Hinit)).
      split; reflexivity. }
  destruct (syncInProgress s) eqn:Hsync.
  { rewrite (showPlan_wait s Hoff (or_intror Hsync)). cbn [fst snd].
    rewrite (showPlan_wait (with_itemsRequested true s) Hoff (or_intror Hsync)).
    split; reflexivity. }
  rewrite (showPlan_now s Hoff Hinit Hsync). cbn [fst snd].
  assert (Hw : forall t, reloadWanted (with_itemsRequested true t) = true).
  { intros t. unfold reloadWanted.
    change (_itemsRequested (with_itemsRequested true t)) with true.
    rewrite orb_true_r. reflexivity. }
  set (s0 := with_itemsRequested true s).
  pose proof (managerLoadComplete_document s0) as Hdoc1.
  unfold s0 in Hdoc1 at 2. rewrite Hw in Hdoc1.
  destruct (managerLoadComplete_static s0) as (_ & Hoff1 & Hveh & Hm & Hdef & _).
  set (s1 := _managerLoadComplete s0) in *.
  assert (Hoff1' : offline s1 = false) by (rewrite Hoff1; exact Hoff).
  assert (Hinit1 : initialPlanRequestComplete (_managerVehicle s1) = true)
    by (rewrite Hveh; exact Hinit).
  assert (Hsync1 : syncInProgress s1 = false)
    by (unfold syncInProgress; rewrite Hm; exact Hsync).
  rewrite (showPlan_now s1 Hoff1' Hinit1 Hsync1). cbn [fst snd].
  split; [reflexivity | ].
  rewrite (managerLoadComplete_document (with_itemsRequested true s1)), Hw, Hdoc1.
  change (_obstacleManager (with_itemsRequested true s1)) with (_obstacleManager s1).
  change (_breachReturnDefaultAltitude (with_itemsRequested true s1))
    with (_breachReturnDefaultAltitude s1).
  rewrite Hm, Hdef. reflexivity.
Qed.

(** X16.  The completion callbacks of the transport: an error changes
    nothing, and neither does a completed send in the plan view or a
    completed remove-all while offline.  When a remove-all completes without
    error, online, after the initial plan request and with no sync in
    progress, the document becomes what the transport reports; it is empty
    when the transport reports nothing. *)
Theorem completion_callbacks (s : ObstacleController) :
  _managerSendComplete true s = s
  /\ (_flyView s = false -> _managerSendComplete false s = s)
  /\ _managerRemoveAllComplete true s = s
  /\ (offline s = true -> _managerRemoveAllComplete false s = s)
  /\ (offline s = false ->
      initialPlanRequestComplete (_managerVehicle s) = true ->
      syncInProgress s = false ->
      let s' := _managerRemoveAllComplete false s in
      _polygons s' = QGCFencePolygon_setDirty false <$> polygons (_obstacleManager s)
      /\ _circles s' = QGCFenceCircle_setDirty false <$> circles (_obstacleManager s)
      /\ _breachReturnPoint s' = breachReturnPoint (_obstacleManager s)
      /\ _dirty s' = false
      /\ (polygons (_obstacleManager s) = [] -> circles (_obstacleManager s) = [] ->
          isValid (breachReturnPoint (_obstacleManager s)) = false ->
          isEmpty s' = true)).
Proof.
  split; [reflexivity | ].
  split; [intros Hplan; unfold _managerSendComplete; rewrite Hplan; reflexivity | ].
  split; [reflexivity | ].
  split.
  { intros Hoff. unfold _managerRemoveAllComplete. cbn [negb].
    rewrite (showPlan_offline s Hoff). reflexivity. }
  intros Hon Hinit Hidle. cbn zeta. unfold _managerRemoveAllComplete. cbn [negb].
  rewrite (showPlan_now s Hon Hinit Hidle). cbn [snd].
  assert (Hw : reloadWanted (with_itemsRequested true s) = true).
  { unfold reloadWanted. change (_itemsRequested (with_itemsRequested true s)) with true.
    rewrite orb_true_r. reflexivity. }
  destruct (managerLoadComplete_reload _ Hw) as (P & C & B & _ & D & _).
  cbn zeta in *.
  change (_obstacleManager (with_itemsRequested true s)) with (_obstacleManager s) in P, C, B.
  split; [exact P | ]. split; [exact C | ]. split; [exact B | ]. split; [exact D | ].
  intros Hps Hcs Hbrp. unfold isEmpty. rewrite P, C, B, Hps, Hcs, Hbrp. reflexivity.
Qed.

Section ReconcileThenSave.
Context {SJ : ShapeJson}.

(** X17.  A reconciliation sets the altitude fact from the transport's
    breach return point, to its altitude when the point is valid and to the
    default altitude otherwise; a [save] right after it therefore writes the
    transport's point and leaves the controller as it is. *)
Theorem save_after_reconcile_readonly (json : QJsonObject) (s : ObstacleController) :
  reloadWanted s = true ->
  let s' := _managerLoadComplete s in
  _breachReturnAltitudeFact s'
  = (if isValid (breachReturnPoint (_obstacleManager s))
     then altitude (breachReturnPoint (_obstacleManager s))
     else _breachReturnDefaultAltitude s)
  /\ snd (save json s') = s'.
Proof.
  intros Hw. cbn zeta.
  destruct (managerLoadComplete_reload s Hw) as (_ & _ & B & F & _). cbn zeta in *.
  split; [exact F | ].
  apply save_in_sync. unfold altitudeInSync. rewrite B, F.
  destruct (isValid (breachReturnPoint (_obstacleManager s))); [right | left]; reflexivity.
Qed.

End ReconcileThenSave.

(** ** Editing the lists *)

(** X18.  [deletePolygon] ignores an index that is negative or not below
    the number of polygons.  Otherwise exactly the polygon at the index
    leaves the list: there is one polygon less, the polygons before the
    index stay where they are and those after it move down by one; the
    circles, the breach return point and the transport are not touched. *)
Theorem deletePolygon_effect (index : Z) (s : ObstacleController) :
  ((index < 0 \/ Z.of_nat (length (_polygons s)) <= index)%Z -> deletePolygon index s = s)
  /\ ((0 <= index < Z.of_nat (length (_polygons s)))%Z ->
      let s' := deletePolygon index s in
      length (_polygons s') = length (_polygons s) - 1
      /\ (forall j, j < Z.to_nat index -> _polygons s' !! j = _polygons s !! j)
      /\ (forall j, Z.to_nat index <= j -> _polygons s' !! j = _polygons s !! S j)
      /\ _circles s' = _circles s
      /\ _breachReturnPoint s' = _breachReturnPoint s
      /\ _breachReturnAltitudeFact s' = _breachReturnAltitudeFact s
      /\ surroundings s' = surroundings s).
Proof.
  unfold deletePolygon. split.
  - intros Hout.
    destruct ((index <? 0) || (Z.of_nat (length (_polygons s)) - 1 <? index))%Z eqn:Hguard;
      [reflexivity | ].
    apply orb_false_iff in Hguard. destruct Hguard as [H1 H2].
    apply Z.ltb_ge in H1, H2. lia.
  - intros Hin. cbn zeta.
    destruct ((index <? 0) || (Z.of_nat (length (_polygons s)) - 1 <? index))%Z eqn:Hguard.
    { apply orb_true_iff in Hguard. destruct Hguard as [H | H]; apply Z.ltb_lt in H; lia. }
    assert (Hsome : is_Some (_polygons s !! Z.to_nat index)).
    { apply lookup_lt_is_Some. lia. }
    destruct s as [fv off veh mgr ps cs brp fact def d req sigs]. cbn in *.
    destruct d; cbn; count_simpl;
      (split; [apply length_delete; exact Hsome | ]);
      (split; [intros j Hj; apply list_lookup_delete_lt; exact Hj | ]);
      (split; [intros j Hj; apply list_lookup_delete_ge; exact Hj | ]);
      repeat split.
Qed.

(** X19.  [deleteCircle] does the same on the circles and leaves the
    polygons alone. *)
Theorem deleteCircle_effect (index : Z) (s : ObstacleController) :
  ((index < 0 \/ Z.of_nat (length (_circles s)) <= index)%Z -> deleteCircle index s = s)
  /\ ((0 <= index < Z.of_nat (length (_circles s)))%Z ->
      let s' := deleteCircle index s in
      length (_circles s') = length (_circles s) - 1
      /\ (forall j, j < Z.to_nat index -> _circles s' !! j = _circles s !! j)
      /\ (forall j, Z.to_nat index <= j -> _circles s' !! j = _circles s !! S j)
      /\ _polygons s' = _polygons s
      /\ _breachReturnPoint s' = _breachReturnPoint s
      /\ _breachReturnAltitudeFact s' = _breachReturnAltitudeFact s
      /\ surroundings s' = surroundings s).
Proof.
  unfold deleteCircle. split.
  - intros Hout.
    destruct ((index <? 0) || (Z.of_nat (length (_circles s)) - 1 <? index))%Z eqn:Hguard;
      [reflexivity | ].
    apply orb_false_iff in Hguard. destruct Hguard as [H1 H2].
    apply Z.ltb_ge in H1, H2. lia.
  - intros Hin. cbn zeta.
    destruct ((index <? 0) || (Z.of_nat (length (_circles s)) - 1 <? index))%Z eqn:Hguard.
    { apply orb_true_iff in Hguard. destruct Hguard as [H | H]; apply Z.ltb_lt in H; lia. }
    assert (Hsome : is_Some (_circles s !! Z.to_nat index)).
    { apply lookup_lt_is_Some. lia. }
    destruct s as [fv off veh mgr ps cs brp fact def d req sigs]. cbn in *.
    destruct d; cbn; count_simpl;
      (split; [apply length_delete; exact Hsome | ]);
      (split; [intros j Hj; apply list_lookup_delete_lt; exact Hj | ]);
      (split; [intros j Hj; apply list_lookup_delete_ge; exact Hj | ]);
      repeat split.
Qed.

Lemma polygons_deselected (l : list QGCFencePolygon) :
  Forall (fun p => polygon_interactive p = false) (QGCFencePolygon_setInteractive false <$> l)
  /\ Forall2 (fun p q => polygon_equiv p q /\ polygon_dirty q = polygon_dirty p)
             l (QGCFencePolygon_setInteractive false <$> l)
  /\ QGCFencePolygon_setInteractive false <$> (QGCFencePolygon_setInteractive false <$> l)
     = QGCFencePolygon_setInteractive false <$> l.
Proof.
  induction l as [ | p l (IH1 & IH2 & IH3)]; cbn [fmap list_fmap].
  - repeat split; constructor.
  - split; [constructor; [reflexivity | exact IH1] | ].
    split; [constructor; [repeat split | exact IH2] | ].
    cbn [fmap list_fmap] in IH3. rewrite IH3. reflexivity.
Qed.

Lemma circles_deselected (l : list QGCFenceCircle) :
  Forall (fun c => circle_interactive c = false) (QGCFenceCircle_setInteractive false <$> l)
  /\ Forall2 (fun c d => circle_equiv c d /\ circle_dirty d = circle_dirty c)
             l (QGCFenceCircle_setInteractive false <$> l)
  /\ QGCFenceCircle_setInteractive false <$> (QGCFenceCircle_setInteractive false <$> l)
     = QGCFenceCircle_setInteractive false <$> l.
Proof.
  induction l as [ | c l (IH1 & IH2 & IH3)]; cbn [fmap list_fmap].
  - repeat split; constructor.
  - split; [constructor; [reflexivity | exact IH1] | ].
    split; [constructor; [repeat split | exact IH2] | ].
    cbn [fmap list_fmap] in IH3. rewrite IH3. reflexivity.
Qed.

(** X20.  [clearAllInteractive] deselects every polygon and every circle
    and changes nothing else: the shapes keep their vertices, centers,
    radii, inclusion and dirty flags, the document keeps its dirty flag and
    signals nothing, and a second call changes nothing at all. *)
Theorem clearAllInteractive_effect (s : ObstacleController) :
  let s' := clearAllInteractive s in
  Forall (fun p => polygon_interactive p = false) (_polygons s')
  /\ Forall (fun c => circle_interactive c = false) (_circles s')
  /\ Forall2 (fun p q => polygon_equiv p q /\ polygon_dirty q = polygon_dirty p)
             (_polygons s) (_polygons s')
  /\ Forall2 (fun c d => circle_equiv c d /\ circle_dirty d = circle_dirty c)
             (_circles s) (_circles s')
  /\ _breachReturnPoint s' = _breachReturnPoint s
  /\ _breachReturnAltitudeFact s' = _breachReturnAltitudeFact s
  /\ _dirty s' = _dirty s
  /\ emitted s' = emitted s
  /\ surroundings s' = surroundings s
  /\ clearAllInteractive s' = s'.
Proof.
  destruct s as [fv off veh mgr ps cs brp fact def d req sigs]. cbn.
  destruct (polygons_deselected ps) as (P1 & P2 & P3).
  destruct (circles_deselected cs) as (C1 & C2 & C3).
  rewrite P3, C3. repeat split; assumption.
Qed.

(** ** Adding a shape from the viewport *)


Section AddingShapes.
Context {G : Geodesy}.



End AddingShapes.

(** ** Setting the same point twice *)

(** Two equal numbers, or two NaN, are the same to [operator==]; an infinity
    is not, for the difference of two infinities is NaN. *)
Lemma same_double (x : double) :
  notInfinite x = true -> (qIsNaN x && qIsNaN x) || qFuzzyCompare x x = true.
Proof.
  intros Hfin. destruct x as [sx | sx | | sx m e]; try discriminate.
  - destruct sx; vm_compute; reflexivity.
  - reflexivity.
  - cbn [qIsNaN andb orb]. unfold qFuzzyCompare, qMin, qAbs.
    assert (Hsub : SFsub prec emax (S754_finite sx m e) (S754_finite sx m e)
                   = S754_zero false).
    { unfold SFsub. rewrite Z.sub_diag. reflexivity. }
    rewrite Hsub. cbn [SFabs].
    assert (Hmul : SFmul prec emax (S754_zero false) (double_of_Z 1000000000000)
                   = S754_zero false) by (vm_compute; reflexivity).
    rewrite Hmul.
    destruct (SFltb (S754_finite false m e) (S754_finite false m e)); reflexivity.
Qed.

Lemma QGeoCoordinate_eqb_refl (c : QGeoCoordinate) :
  notInfinite (latitude c) = true ->
  notInfinite (longitude c) = true ->
  notInfinite (altitude c) = true ->
  QGeoCoordinate_eqb c c = true.
Proof.
  intros Hlat Hlng Halt. unfold QGeoCoordinate_eqb.
  rewrite (same_double _ Hlat), (same_double _ Hlng), (same_double _ Halt).
  rewrite orb_true_r. reflexivity.
Qed.

(** X23.  [setBreachReturnPoint] is idempotent: setting the same point
    again changes nothing and signals nothing, provided no component of the
    point is an infinity (an infinity does not compare equal to itself,
    the difference of two infinities being NaN). *)
Theorem setBreachReturnPoint_idempotent (c : QGeoCoordinate) (s : ObstacleController) :
  notInfinite (latitude c) = true ->
  notInfinite (longitude c) = true ->
  notInfinite (altitude c) = true ->
  setBreachReturnPoint c (setBreachReturnPoint c s) = setBreachReturnPoint c s.
Proof.
  intros Hlat Hlng Halt.
  pose proof (QGeoCoordinate_eqb_refl c Hlat Hlng Halt) as Hrefl.
  destruct (QGeoCoordinate_eqb (_breachReturnPoint s) c) eqn:Heq.
  - assert (Hnoop : setBreachReturnPoint c s = s).
    { unfold setBreachReturnPoint. rewrite Heq. reflexivity. }
    rewrite !Hnoop. reflexivity.
  - assert (Hpoint : _breachReturnPoint (setBreachReturnPoint c s) = c).
    { unfold setBreachReturnPoint. rewrite Heq. cbn [negb].
      destruct s as [fv off veh mgr ps cs brp fact def [] req sigs]; reflexivity. }
    unfold setBreachReturnPoint at 1. rewrite Hpoint, Hrefl. reflexivity.
Qed.

(** ** [load] starts afresh *)

Lemma qIsNaN_eq (x : double) : qIsNaN x = true -> x = qQNaN.
Proof. destruct x; try discriminate. reflexivity. Qed.

Lemma eqb_default_eq (c : QGeoCoordinate) :
  QGeoCoordinate_eqb c QGeoCoordinate_default = true -> c = QGeoCoordinate_default.
Proof.
  destruct c as [lat lng alt]. unfold QGeoCoordinate_eqb.
  cbn [latitude longitude altitude QGeoCoordinate_default].
  rewrite !qFuzzyCompare_nan_r, !orb_false_r, !andb_true_r.
  intros H. apply andb_true_iff in H. destruct H as [H Halt].
  apply andb_true_iff in H. destruct H as [Hlat Hlng].
  apply qIsNaN_eq in Hlat, Halt. subst.
  cbn [qIsNaN negb andb orb] in Hlng. apply qIsNaN_eq in Hlng. subst. reflexivity.
Qed.

Lemma removeAll_point (s : ObstacleController) :
  _breachReturnPoint (removeAll s) = QGeoCoordinate_default.
Proof.
  pose proof (eqb_default_eq (_breachReturnPoint s)) as Heq.
  destruct s as [fv off veh mgr ps cs brp fact def d req sigs]. cbn in Heq.
  unfold removeAll, setBreachReturnPoint. cbn [_breachReturnPoint].
  destruct (QGeoCoordinate_eqb brp QGeoCoordinate_default); cbn [negb].
  - destruct ps, cs, d; cbn; auto.
  - destruct ps, cs, d; reflexivity.
Qed.

Section LoadAfresh.
Context {SJ : ShapeJson}.

Lemma load_polygons_same (l : list QJsonValue) (s t : ObstacleController) :
  fst (load_polygons l s) = fst (load_polygons l t)
  /\ exists qs,
       _polygons (snd (load_polygons l s)) = _polygons s ++ qs
       /\ _polygons (snd (load_polygons l t)) = _polygons t ++ qs.
Proof.
  revert s t. induction l as [ | v l IH]; intros s t.
  - split; [reflexivity | ]. exists []. rewrite !app_nil_r. split; reflexivity.
  - destruct v; cbn [load_polygons fst snd];
      try (split; [reflexivity | ]; exists []; rewrite !app_nil_r; split; reflexivity).
    destruct (polygon_loadFromJson o true (QGCFencePolygon_new false)) as [p | ];
      cbn [fst snd];
      [ | split; [reflexivity | ]; exists []; rewrite !app_nil_r; split; reflexivity].
    destruct (IH (polygons_append p s) (polygons_append p t)) as (Hr & qs & Hs & Ht).
    destruct (polygons_append_frame p s) as (_ & _ & _ & Fs & _).
    destruct (polygons_append_frame p t) as (_ & _ & _ & Ft & _).
    cbn zeta in *. split; [exact Hr | ]. exists (p :: qs).
    rewrite Hs, Ht, Fs, Ft, <- !app_assoc. split; reflexivity.
Qed.

Lemma load_circles_same (l : list QJsonValue) (s t : ObstacleController) :
  fst (load_circles l s) = fst (load_circles l t)
  /\ exists ds,
       _circles (snd (load_circles l s)) = _circles s ++ ds
       /\ _circles (snd (load_circles l t)) = _circles t ++ ds.
Proof.
  revert s t. induction l as [ | v l IH]; intros s t.
  - split; [reflexivity | ]. exists []. rewrite !app_nil_r. split; reflexivity.
  - destruct v; cbn [load_circles fst snd];
      try (split; [reflexivity | ]; exists []; rewrite !app_nil_r; split; reflexivity).
    destruct (circle_loadFromJson o QGCFenceCircle_new) as [c | ];
      cbn [fst snd];
      [ | split; [reflexivity | ]; exists []; rewrite !app_nil_r; split; reflexivity].
    destruct (IH (circles_append c s) (circles_append c t)) as (Hr & ds & Hs & Ht).
    destruct (circles_append_frame c s) as (_ & _ & _ & _ & Fs & _).
    destruct (circles_append_frame c t) as (_ & _ & _ & _ & Ft & _).
    cbn zeta in *. split; [exact Hr | ]. exists (c :: ds).
    rewrite Hs, Ht, Fs, Ft, <- !app_assoc. split; reflexivity.
Qed.

Lemma load_breachReturn_same (json : QJsonObject) (s t : ObstacleController) :
  _breachReturnPoint s = _breachReturnPoint t ->
  fst (load_breachReturn json s) = fst (load_breachReturn json t)
  /\ _breachReturnPoint (snd (load_breachReturn json s))
     = _breachReturnPoint (snd (load_breachReturn json t)).
Proof.
  intros Hsame.
  pose proof (load_breachReturn_detail json s) as Hs.
  pose proof (load_breachReturn_detail json t) as Ht.
  cbn zeta in Hs, Ht. destruct Hs as [_ Hs]. destruct Ht as [_ Ht].
  assert (Hr : fst (load_breachReturn json s) = fst (load_breachReturn json t)).
  { unfold load_breachReturn.
    destruct (contains json _jsonBreachReturnKey); [ | reflexivity].
    destruct (loadGeoCoordinate (jsonAt json _jsonBreachReturnKey) true); reflexivity. }
  split; [exact Hr | ]. rewrite <- Hr in Ht.
  destruct (fst (load_breachReturn json s)).
  - destruct (contains json _jsonBreachReturnKey).
    + destruct Hs as [Hs _]. destruct Ht as [Ht _]. congruence.
    + destruct Hs as [-> _]. destruct Ht as [-> _]. reflexivity.
  - rewrite Hs, Ht. exact Hsame.
Qed.

(** X24.  [load] starts afresh: its answer, and the polygons, the circles
    and the breach return point it leaves, depend on the object alone and
    not on what the document held before. *)
Theorem load_independent_of_previous (json : QJsonObject) (s t : ObstacleController) :
  fst (load json s) = fst (load json t)
  /\ _polygons (snd (load json s)) = _polygons (snd (load json t))
  /\ _circles (snd (load json s)) = _circles (snd (load json t))
  /\ _breachReturnPoint (snd (load json s)) = _breachReturnPoint (snd (load json t)).
Proof.
  unfold load.
  destruct (removeAll_cleared s) as (Hps & Hcs & _).
  destruct (removeAll_cleared t) as (Hpt & Hct & _).
  pose proof (removeAll_point s) as Hbs. pose proof (removeAll_point t) as Hbt.
  set (s0 := removeAll s) in *. set (t0 := removeAll t) in *.
  assert (H0 : _polygons s0 = _polygons t0 /\ _circles s0 = _circles t0
               /\ _breachReturnPoint s0 = _breachReturnPoint t0)
    by (repeat split; congruence).
  destruct (negb (contains json jsonVersionKey) || _); [cbn [fst snd]; tauto | ].
  destruct (negb (validateKeys json keyInfoList)); [cbn [fst snd]; tauto | ].
  destruct (negb (toInt (jsonAt json jsonVersionKey) =? _jsonCurrentVersion)%Z);
    [cbn [fst snd]; tauto | ].
  clear H0.
  (* the polygon entries *)
  destruct (load_polygons_same (toArray (jsonAt json _jsonPolygonsKey)) s0 t0)
    as (Hr1 & qs & Hs1 & Ht1).
  pose proof (load_polygons_effect (toArray (jsonAt json _jsonPolygonsKey)) s0) as Es1.
  pose proof (load_polygons_effect (toArray (jsonAt json _jsonPolygonsKey)) t0) as Et1.
  destruct (load_polygons (toArray (jsonAt json _jsonPolygonsKey)) s0) as [r1 s1].
  destruct (load_polygons (toArray (jsonAt json _jsonPolygonsKey)) t0) as [r1' t1].
  cbn [fst snd] in *. cbn zeta in Es1, Et1. subst r1'.
  destruct Es1 as (_ & Ebs1 & _ & Ecs1 & _). destruct Et1 as (_ & Ebt1 & _ & Ect1 & _).
  rewrite Hps in Hs1. rewrite Hpt in Ht1. cbn [app] in Hs1, Ht1.
  destruct r1 as [ | e1]; cbn [andThen fst snd];
    [ | repeat split; congruence].
  (* the circle entries *)
  destruct (load_circles_same (toArray (jsonAt json _jsonCirclesKey)) s1 t1)
    as (Hr2 & ds & Hs2 & Ht2).
  pose proof (load_circles_effect (toArray (jsonAt json _jsonCirclesKey)) s1) as Es2.
  pose proof (load_circles_effect (toArray (jsonAt json _jsonCirclesKey)) t1) as Et2.
  destruct (load_circles (toArray (jsonAt json _jsonCirclesKey)) s1) as [r2 s2].
  destruct (load_circles (toArray (jsonAt json _jsonCirclesKey)) t1) as [r2' t2].
  cbn [fst snd] in *. cbn zeta in Es2, Et2. subst r2'.
  destruct Es2 as (_ & Ebs2 & _ & Eps2 & _). destruct Et2 as (_ & Ebt2 & _ & Ept2 & _).
  rewrite Ecs1, Hcs in Hs2. rewrite Ect1, Hct in Ht2. cbn [app] in Hs2, Ht2.
  destruct r2 as [ | e2]; cbn [andThen fst snd];
    [ | repeat split; congruence].
  (* the breach return point *)
  assert (Hb2 : _breachReturnPoint s2 = _breachReturnPoint t2) by congruence.
  destruct (load_breachReturn_same json s2 t2 Hb2) as (Hr3 & Hb3).
  pose proof (load_breachReturn_effect json s2) as Es3.
  pose proof (load_breachReturn_effect json t2) as Et3.
  destruct (load_breachReturn json s2) as [r3 s3].
  destruct (load_breachReturn json t2) as [r3' t3].
  cbn [fst snd] in *. cbn zeta in Es3, Et3. subst r3'.
  destruct Es3 as (Eps3 & Ecs3 & _). destruct Et3 as (Ept3 & Ect3 & _).
  destruct r3 as [ | e3]; cbn [andThen fst snd];
    [ | repeat split; congruence].
  (* the last two lines *)
  destruct (emit_breachReturnPointChanged_frame (_breachReturnPoint s3) s3)
    as (_ & Gs2 & _ & Gs4 & Gs5 & Gs6).
  destruct (emit_breachReturnPointChanged_frame (_breachReturnPoint t3) t3)
    as (_ & Gt2 & _ & Gt4 & Gt5 & Gt6).
  cbn zeta in *.
  destruct (setDirty_false_shapes _ Gs6) as [-> ->].
  destruct (setDirty_false_shapes _ Gt6) as [-> ->].
  destruct (setDirty_frame false (emit_breachReturnPointChanged (_breachReturnPoint s3) s3))
    as (_ & -> & _).
  destruct (setDirty_frame false (emit_breachReturnPointChanged (_breachReturnPoint t3) t3))
    as (_ & -> & _).
  rewrite Gs2, Gs4, Gs5, Gt2, Gt4, Gt5.
  repeat split; congruence.
Qed.

End LoadAfresh.

(** ** The further properties on the sample documents *)

(** X5 at what [save] produced from the sample document. *)
Lemma load_current_success_witness :
  let json := fst (save ∅ sampleDocument) in
  fst (load json newController) = LoadOk
  /\ contains json jsonVersionKey = true
  /\ toInt (jsonAt json jsonVersionKey) <> 1%Z
  /\ length (_polygons (snd (load json newController))) = length (toArray (jsonAt json _jsonPolygonsKey))
  /\ _dirty (snd (load json newController)) = false.
Proof.
  cbn zeta.
  assert (H1 : fst (load (fst (save ∅ sampleDocument)) newController) = LoadOk)
    by (vm_compute; reflexivity).
  assert (H2 : contains (fst (save ∅ sampleDocument)) jsonVersionKey = true)
    by (vm_compute; reflexivity).
  assert (H3 : toInt (jsonAt (fst (save ∅ sampleDocument)) jsonVersionKey) <> 1%Z)
    by (vm_compute; discriminate).
  split; [exact H1 | ]. split; [exact H2 | ]. split; [exact H3 | ].
  destruct (load_current_success (fst (save ∅ sampleDocument)) newController H1 H2 H3)
    as (_ & _ & Hp & _ & _ & _ & Hd & _).
  split; [exact Hp | exact Hd].
Defined.

(** X6 at a version 1 object, loaded over a clean document that has a valid
    breach return point. *)
Lemma load_legacy_stays_dirty_witness :
  let s := setDirty false breachPointDocument in
  (contains legacyObject jsonVersionKey = false
   \/ toInt (jsonAt legacyObject jsonVersionKey) = 1%Z)
  /\ (_dirty s = true \/ isValid (_breachReturnPoint s) = true)
  /\ _dirty s = false
  /\ fst (load legacyObject s) = LoadOk
  /\ _dirty (snd (load legacyObject s)) = true.
Proof.
  intros s.
  assert (H1 : contains legacyObject jsonVersionKey = false
               \/ toInt (jsonAt legacyObject jsonVersionKey) = 1%Z)
    by (right; vm_compute; reflexivity).
  assert (H2 : _dirty s = true \/ isValid (_breachReturnPoint s) = true)
    by (right; vm_compute; reflexivity).
  split; [exact H1 | ]. split; [exact H2 | ]. split; [reflexivity | ].
  exact (load_legacy_stays_dirty legacyObject s H1 H2).
Defined.

(** X10 at the sample document. *)
Lemma removeAllFromVehicle_requests_witness :
  offline sampleDocument = false
  /\ syncInProgress sampleDocument = false
  /\ issued (_obstacleManager (removeAllFromVehicle sampleDocument))
     = issued (_obstacleManager sampleDocument) ++ [ReqRemoveAll]
  /\ document (removeAllFromVehicle sampleDocument) = document sampleDocument.
Proof.
  assert (H1 : offline sampleDocument = false) by reflexivity.
  assert (H2 : syncInProgress sampleDocument = false) by reflexivity.
  split; [exact H1 | ]. split; [exact H2 | ].
  destruct (removeAllFromVehicle_requests sampleDocument H1 H2) as (Hi & Hd & _).
  split; [exact Hi | exact Hd].
Defined.

(** X11 at the sample document. *)
Lemma loadFromVehicle_requests_witness :
  offline sampleDocument = false
  /\ syncInProgress sampleDocument = false
  /\ issued (_obstacleManager (loadFromVehicle sampleDocument))
     = issued (_obstacleManager sampleDocument) ++ [ReqLoadFromVehicle]
  /\ _itemsRequested (loadFromVehicle sampleDocument) = true.
Proof.
  assert (H1 : offline sampleDocument = false) by reflexivity.
  assert (H2 : syncInProgress sampleDocument = false) by reflexivity.
  split; [exact H1 | ]. split; [exact H2 | ].
  destruct (loadFromVehicle_requests sampleDocument H1 H2) as (Hi & Hr & _).
  split; [exact Hi | exact Hr].
Defined.

(** X12 at the sample document. *)
Lemma sendToVehicle_requests_witness :
  offline sampleDocument = false
  /\ syncInProgress sampleDocument = false
  /\ issued (_obstacleManager (sendToVehicle sampleDocument))
     = issued (_obstacleManager sampleDocument)
         ++ [ReqSendToVehicle (_breachReturnPoint sampleDocument)
               (_polygons sampleDocument) (_circles sampleDocument)]
  /\ _dirty (sendToVehicle sampleDocument) = false.
Proof.
  assert (H1 : offline sampleDocument = false) by reflexivity.
  assert (H2 : syncInProgress sampleDocument = false) by reflexivity.
  split; [exact H1 | ]. split; [exact H2 | ].
  destruct (sendToVehicle_requests sampleDocument H1 H2) as (Hi & Hd & _).
  split; [exact Hi | exact Hd].
Defined.

(** X13 at the sample document, the transport coming back with one circle. *)
Lemma requested_load_reconciles_witness :
  let m := mkManager false (coordinate 5 6 7) [] [sampleCircle] [ReqLoadFromVehicle] in
  offline sampleDocument = false
  /\ syncInProgress sampleDocument = false
  /\ _polygons (_managerLoadComplete (transportReports m (loadFromVehicle sampleDocument))) = []
  /\ _breachReturnPoint
       (_managerLoadComplete (transportReports m (loadFromVehicle sampleDocument)))
     = coordinate 5 6 7.
Proof.
  intros m.
  assert (H1 : offline sampleDocument = false) by reflexivity.
  assert (H2 : syncInProgress sampleDocument = false) by reflexivity.
  split; [exact H1 | ]. split; [exact H2 | ].
  destruct (requested_load_reconciles m sampleDocument H1 H2) as (Hp & _ & Hb & _).
  split; [exact Hp | exact Hb].
Defined.

(** X17 at the sample document once the load it asked for has come back
    with a valid breach return point at altitude 7, a polygon and a circle:
    the altitude fact, which held the default 50, takes the altitude of the
    point, and the [save] that follows changes nothing. *)
Lemma save_after_reconcile_readonly_witness :
  reloadWanted awaitedDocument = true
  /\ isValid (breachReturnPoint (_obstacleManager awaitedDocument)) = true
  /\ _breachReturnAltitudeFact awaitedDocument = double_of_Z 50
  /\ _breachReturnAltitudeFact (_managerLoadComplete awaitedDocument) = double_of_Z 7
  /\ length (_polygons (_managerLoadComplete awaitedDocument)) = 1
  /\ length (_circles (_managerLoadComplete awaitedDocument)) = 1
  /\ snd (save ∅ (_managerLoadComplete awaitedDocument)) = _managerLoadComplete awaitedDocument.
Proof.
  assert (H : reloadWanted awaitedDocument = true) by reflexivity.
  split; [exact H | ].
  destruct (save_after_reconcile_readonly ∅ awaitedDocument H) as (Hf & Hs).
  split; [reflexivity | ]. split; [reflexivity | ].
  split; [rewrite Hf; reflexivity | ].
  split; [reflexivity | ]. split; [reflexivity | ].
  exact Hs.
Defined.

(** X23 at a new controller and a point of the sample documents. *)
Lemma setBreachReturnPoint_idempotent_witness :
  notInfinite (latitude (coordinate 1 2 3)) = true
  /\ notInfinite (longitude (coordinate 1 2 3)) = true
  /\ notInfinite (altitude (coordinate 1 2 3)) = true
  /\ setBreachReturnPoint (coordinate 1 2 3)
       (setBreachReturnPoint (coordinate 1 2 3) newController)
     = setBreachReturnPoint (coordinate 1 2 3) newController.
Proof.
  assert (H1 : notInfinite (latitude (coordinate 1 2 3)) = true) by reflexivity.
  assert (H2 : notInfinite (longitude (coordinate 1 2 3)) = true) by reflexivity.
  assert (H3 : notInfinite (altitude (coordinate 1 2 3)) = true) by reflexivity.
  split; [exact H1 | ]. split; [exact H2 | ]. split; [exact H3 | ].
  exact (setBreachReturnPoint_idempotent (coordinate 1 2 3) newController H1 H2 H3).
Defined.

(** ** The consistency of the dirty flags *)

(** A step that raises the document's flag at most, and changes the flag of
    no shape, keeps the document consistent. *)
Lemma dirtyConsistent_kept (s s' : ObstacleController) :
  (_dirty s = true -> _dirty s' = true) ->
  polygon_dirty <$> _polygons s' = polygon_dirty <$> _polygons s ->
  circle_dirty <$> _circles s' = circle_dirty <$> _circles s ->
  dirtyConsistent s = true -> dirtyConsistent s' = true.
Proof.
  intros Hd HP HC. unfold dirtyConsistent. rewrite HP, HC.
  destruct (_dirty s).
  - rewrite Hd by reflexivity. reflexivity.
  - cbn [orb]. intros ->. apply orb_true_r.
Qed.

Lemma dirtyConsistent_no_shapes (s : ObstacleController) :
  _polygons s = [] -> _circles s = [] -> dirtyConsistent s = true.
Proof. intros HP HC. unfold dirtyConsistent. rewrite HP, HC. apply orb_true_r. Qed.

Lemma setDirty_consistent (d : bool) (s : ObstacleController) :
  dirtyConsistent s = true -> dirtyConsistent (setDirty d s) = true.
Proof.
  intros Hc. destruct d.
  - apply dirtyConsistent_of_dirty, setDirty_dirty.
  - destruct (setDirty_false_all_clean s Hc) as [HP HC].
    apply dirtyConsistent_of_clean; assumption.
Qed.

Lemma setBreachReturnPoint_consistent (c : QGeoCoordinate) (s : ObstacleController) :
  dirtyConsistent s = true -> dirtyConsistent (setBreachReturnPoint c s) = true.
Proof.
  intros Hc. unfold setBreachReturnPoint.
  destruct (negb (QGeoCoordinate_eqb (_breachReturnPoint s) c)); [ | exact Hc].
  apply dirtyConsistent_of_dirty. cbn zeta.
  apply (emit_breachReturnPointChanged_frame c).
Qed.

Lemma setRawValue_consistent (a : double) (s : ObstacleController) :
  dirtyConsistent s = true -> dirtyConsistent (setRawValue a s) = true.
Proof.
  destruct (setRawValue_frame a s) as (_ & _ & _ & HP & HC & Hd). cbn zeta in *.
  apply dirtyConsistent_kept; [exact Hd | rewrite HP; reflexivity | rewrite HC; reflexivity].
Qed.

Lemma removeAll_consistent (s : ObstacleController) : dirtyConsistent (removeAll s) = true.
Proof.
  destruct (removeAll_cleared s) as (HP & HC & _).
  apply dirtyConsistent_no_shapes; assumption.
Qed.

Lemma with_breachReturnPoint_consistent (c : QGeoCoordinate) (s : ObstacleController) :
  dirtyConsistent (with_breachReturnPoint c s) = dirtyConsistent s.
Proof. destruct s; reflexivity. Qed.

Lemma with_itemsRequested_consistent (b : bool) (s : ObstacleController) :
  dirtyConsistent (with_itemsRequested b s) = dirtyConsistent s.
Proof. destruct s; reflexivity. Qed.

Lemma with_obstacleManager_consistent (m : ObstacleManager) (s : ObstacleController) :
  dirtyConsistent (with_obstacleManager m s) = dirtyConsistent s.
Proof. destruct s; reflexivity. Qed.

Lemma emit_consistent (sig : Signal) (s : ObstacleController) :
  dirtyConsistent (emit sig s) = dirtyConsistent s.
Proof. destruct s; reflexivity. Qed.

Lemma runSyncOp_consistent (s : ObstacleController) (op : SyncOp) :
  dirtyConsistent s = true -> dirtyConsistent (runSyncOp s op) = true.
Proof.
  intros Hc.
  destruct op; cbn [runSyncOp]; unfold loadFromVehicle, sendToVehicle, removeAllFromVehicle;
    (destruct (offline s); [exact Hc | ]); (destruct (syncInProgress s); [exact Hc | ]);
    unfold call_obstacleManager; cbn zeta.
  - rewrite with_obstacleManager_consistent, with_itemsRequested_consistent. exact Hc.
  - apply setDirty_consistent. rewrite with_obstacleManager_consistent. exact Hc.
  - rewrite with_obstacleManager_consistent. exact Hc.
Qed.

Lemma managerLoadComplete_consistent (s : ObstacleController) :
  dirtyConsistent s = true -> dirtyConsistent (_managerLoadComplete s) = true.
Proof.
  intros Hc. destruct (reloadWanted s) eqn:Hw.
  - destruct (managerLoadComplete_reload s Hw) as (HP & HC & _). cbn zeta in *.
    apply dirtyConsistent_of_clean.
    + rewrite HP. apply polygons_clean_after.
    + rewrite HC. apply circles_clean_after.
  - rewrite managerLoadComplete_skip by exact Hw.
    rewrite with_itemsRequested_consistent. exact Hc.
Qed.

Lemma showPlanFromManagerVehicle_consistent (s : ObstacleController) :
  dirtyConsistent s = true ->
  dirtyConsistent (snd (showPlanFromManagerVehicle s)) = true.
Proof.
  intros Hc. destruct (offline s) eqn:Hoff.
  - rewrite showPlan_offline by exact Hoff. exact Hc.
  - destruct (initialPlanRequestComplete (_managerVehicle s)) eqn:Hinit.
    + destruct (syncInProgress s) eqn:Hsync.
      * rewrite showPlan_wait by (auto). cbn [snd].
        rewrite with_itemsRequested_consistent. exact Hc.
      * rewrite showPlan_now by assumption. cbn [snd].
        apply managerLoadComplete_consistent.
        rewrite with_itemsRequested_consistent. exact Hc.
    + rewrite showPlan_wait by (auto). cbn [snd].
      rewrite with_itemsRequested_consistent. exact Hc.
Qed.

Lemma deletePolygon_consistent (index : Z) (s : ObstacleController) :
  dirtyConsistent s = true -> dirtyConsistent (deletePolygon index s) = true.
Proof.
  intros Hc. unfold deletePolygon.
  destruct ((index <? 0) || _)%Z; [exact Hc | ].
  apply dirtyConsistent_of_dirty. unfold polygons_removeAt, _setDirty. apply setDirty_dirty.
Qed.

Lemma deleteCircle_consistent (index : Z) (s : ObstacleController) :
  dirtyConsistent s = true -> dirtyConsistent (deleteCircle index s) = true.
Proof.
  intros Hc. unfold deleteCircle.
  destruct ((index <? 0) || _)%Z; [exact Hc | ].
  apply dirtyConsistent_of_dirty. unfold circles_removeAt, _setDirty. apply setDirty_dirty.
Qed.

Lemma polygon_flags_deselected (l : list QGCFencePolygon) :
  polygon_dirty <$> (QGCFencePolygon_setInteractive false <$> l) = polygon_dirty <$> l.
Proof. induction l as [ | p l IH]; [reflexivity | ]. rewrite !fmap_cons, IH. reflexivity. Qed.

Lemma circle_flags_deselected (l : list QGCFenceCircle) :
  circle_dirty <$> (QGCFenceCircle_setInteractive false <$> l) = circle_dirty <$> l.
Proof. induction l as [ | c l IH]; [reflexivity | ]. rewrite !fmap_cons, IH. reflexivity. Qed.

Lemma clearAllInteractive_consistent (s : ObstacleController) :
  dirtyConsistent (clearAllInteractive s) = dirtyConsistent s.
Proof.
  destruct s as [fv off veh mgr ps cs brp fact def d req sigs].
  unfold dirtyConsistent. cbn.
  rewrite polygon_flags_deselected, circle_flags_deselected. reflexivity.
Qed.

Lemma clearAllInteractive_dirty (s : ObstacleController) :
  _dirty (clearAllInteractive s) = _dirty s.
Proof. destruct s; reflexivity. Qed.

Lemma lastPolygon_setInteractive_dirty (b : bool) (s : ObstacleController) :
  _dirty (lastPolygon_setInteractive b s) = _dirty s.
Proof. destruct s; reflexivity. Qed.

Lemma lastCircle_setInteractive_dirty (b : bool) (s : ObstacleController) :
  _dirty (lastCircle_setInteractive b s) = _dirty s.
Proof. destruct s; reflexivity. Qed.

Lemma with_polygons_dirty (l : list QGCFencePolygon) (s : ObstacleController) :
  _dirty (with_polygons l s) = _dirty s.
Proof. destruct s; reflexivity. Qed.

Lemma appendVertex_consistent (i : nat) (v : QGeoCoordinate) (s : ObstacleController) :
  dirtyConsistent s = true -> dirtyConsistent (appendVertex i v s) = true.
Proof.
  intros Hc. unfold appendVertex.
  destruct (_polygons s !! i) as [p | ] eqn:Hi; [ | exact Hc]. cbn zeta.
  destruct (polygon_dirty p) eqn:Hp.
  - apply dirtyConsistent_of_dirty. rewrite with_polygons_dirty.
    exact (dirty_polygon_dirty_document s i p Hc Hi Hp).
  - apply dirtyConsistent_of_dirty. unfold _setDirty. apply setDirty_dirty.
Qed.

Lemma setPolygonDirty_consistent (i : nat) (d : bool) (s : ObstacleController) :
  dirtyConsistent s = true -> dirtyConsistent (setPolygonDirty i d s) = true.
Proof.
  intros Hc. unfold setPolygonDirty.
  destruct (_polygons s !! i) as [p | ]; [ | exact Hc].
  destruct (eqb d (polygon_dirty p)); [exact Hc | ].
  apply dirtyConsistent_of_dirty. unfold _setDirty. apply setDirty_dirty.
Qed.

Lemma setCircleDirty_consistent (i : nat) (d : bool) (s : ObstacleController) :
  dirtyConsistent s = true -> dirtyConsistent (setCircleDirty i d s) = true.
Proof.
  intros Hc. unfold setCircleDirty.
  destruct (_circles s !! i) as [c | ]; [ | exact Hc].
  destruct (eqb d (circle_dirty c)); [exact Hc | ].
  apply dirtyConsistent_of_dirty. unfold _setDirty. apply setDirty_dirty.
Qed.

Section Reachability.
Context {SJ : ShapeJson} {G : Geodesy}.

Lemma load_polygons_consistent (l : list QJsonValue) (s : ObstacleController) :
  dirtyConsistent s = true -> dirtyConsistent (snd (load_polygons l s)) = true.
Proof.
  revert s. induction l as [ | v l IH]; intros s Hc; [exact Hc | ].
  destruct v; cbn [load_polygons snd]; try exact Hc.
  destruct (polygon_loadFromJson o true (QGCFencePolygon_new false)) as [p | ];
    [ | exact Hc].
  apply IH, dirtyConsistent_of_dirty. apply (polygons_append_frame p s).
Qed.

Lemma load_circles_consistent (l : list QJsonValue) (s : ObstacleController) :
  dirtyConsistent s = true -> dirtyConsistent (snd (load_circles l s)) = true.
Proof.
  revert s. induction l as [ | v l IH]; intros s Hc; [exact Hc | ].
  destruct v; cbn [load_circles snd]; try exact Hc.
  destruct (circle_loadFromJson o QGCFenceCircle_new) as [c | ]; [ | exact Hc].
  apply IH, dirtyConsistent_of_dirty. apply (circles_append_frame c s).
Qed.

Lemma load_breachReturn_consistent (json : QJsonObject) (s : ObstacleController) :
  dirtyConsistent s = true -> dirtyConsistent (snd (load_breachReturn json s)) = true.
Proof.
  intros Hc. unfold load_breachReturn.
  destruct (contains json _jsonBreachReturnKey).
  - destruct (loadGeoCoordinate (jsonAt json _jsonBreachReturnKey) true) as [c | ];
      cbn [snd]; [ | exact Hc].
    apply setRawValue_consistent. rewrite with_breachReturnPoint_consistent. exact Hc.
  - cbn [snd]. apply setRawValue_consistent.
    rewrite with_breachReturnPoint_consistent. exact Hc.
Qed.

(** Whatever it is given and however it ends, [load] leaves a consistent
    document. *)
Lemma load_consistent (json : QJsonObject) (s : ObstacleController) :
  dirtyConsistent (snd (load json s)) = true.
Proof.
  unfold load. pose proof (removeAll_consistent s) as H0.
  set (s0 := removeAll s) in *.
  destruct (negb (contains json jsonVersionKey) || _); [exact H0 | ].
  destruct (negb (validateKeys json keyInfoList)); [exact H0 | ].
  destruct (negb (toInt (jsonAt json jsonVersionKey) =? _jsonCurrentVersion)%Z);
    [exact H0 | ].
  pose proof (load_polygons_consistent (toArray (jsonAt json _jsonPolygonsKey)) s0 H0) as H1.
  destruct (load_polygons (toArray (jsonAt json _jsonPolygonsKey)) s0) as [[ | e1] s1];
    cbn [andThen snd] in *; [ | exact H1].
  pose proof (load_circles_consistent (toArray (jsonAt json _jsonCirclesKey)) s1 H1) as H2.
  destruct (load_circles (toArray (jsonAt json _jsonCirclesKey)) s1) as [[ | e2] s2];
    cbn [andThen snd] in *; [ | exact H2].
  pose proof (load_breachReturn_consistent json s2 H2) as H3.
  destruct (load_breachReturn json s2) as [[ | e3] s3];
    cbn [andThen snd] in *; [ | exact H3].
  apply setDirty_consistent, dirtyConsistent_of_dirty.
  apply (emit_breachReturnPointChanged_frame (_breachReturnPoint s3) s3).
Qed.

Lemma save_consistent (json : QJsonObject) (s : ObstacleController) :
  dirtyConsistent (snd (save json s)) = dirtyConsistent s.
Proof.
  unfold save. cbn zeta.
  destruct (isValid (_breachReturnPoint s)); cbn [snd]; [ | reflexivity].
  apply with_breachReturnPoint_consistent.
Qed.

Lemma addInclusionPolygon_consistent (topLeft bottomRight : QGeoCoordinate)
    (s : ObstacleController) :
  dirtyConsistent (addInclusionPolygon topLeft bottomRight s) = true.
Proof.
  apply dirtyConsistent_of_dirty. unfold addInclusionPolygon. cbn zeta.
  rewrite lastPolygon_setInteractive_dirty, clearAllInteractive_dirty.
  apply (polygons_append_frame (initialPolygon topLeft bottomRight) s).
Qed.

Lemma addInclusionCircle_consistent (topLeft bottomRight : QGeoCoordinate)
    (s : ObstacleController) :
  dirtyConsistent (addInclusionCircle topLeft bottomRight s) = true.
Proof.
  apply dirtyConsistent_of_dirty. unfold addInclusionCircle. cbn zeta.
  rewrite lastCircle_setInteractive_dirty, clearAllInteractive_dirty.
  apply (circles_append_frame (initialCircle topLeft bottomRight) s).
Qed.

(** Every operation keeps the document consistent. *)
Lemma perform_consistent (s : ObstacleController) (op : Operation) :
  dirtyConsistent s = true -> dirtyConsistent (perform s op) = true.
Proof.
  intros Hc. destruct op; cbn [perform].
  - apply setDirty_consistent, Hc.
  - apply setBreachReturnPoint_consistent, Hc.
  - apply removeAll_consistent.
  - apply load_consistent.
  - rewrite save_consistent. exact Hc.
  - apply runSyncOp_consistent, Hc.
  - apply showPlanFromManagerVehicle_consistent, Hc.
  - apply addInclusionPolygon_consistent.
  - apply addInclusionCircle_consistent.
  - apply deletePolygon_consistent, Hc.
  - apply deleteCircle_consistent, Hc.
  - rewrite clearAllInteractive_consistent. exact Hc.
  - apply managerLoadComplete_consistent, Hc.
  - unfold _managerSendComplete. destruct (negb error && _flyView s); [ | exact Hc].
    apply showPlanFromManagerVehicle_consistent, Hc.
  - unfold _managerRemoveAllComplete. destruct (negb error); [ | exact Hc].
    apply showPlanFromManagerVehicle_consistent, Hc.
  - apply setRawValue_consistent, Hc.
  - apply appendVertex_consistent, Hc.
  - apply setPolygonDirty_consistent, Hc.
  - apply setCircleDirty_consistent, Hc.
  - unfold transportReports. rewrite with_obstacleManager_consistent. exact Hc.
Qed.

Lemma perform_all_consistent (ops : list Operation) (s : ObstacleController) :
  dirtyConsistent s = true -> dirtyConsistent (fold_left perform ops s) = true.
Proof.
  revert s. induction ops as [ | op ops IH]; intros s Hc; [exact Hc | ].
  cbn [fold_left]. apply IH, perform_consistent, Hc.
Qed.

(** A new controller is consistent, so every state a controller can come to
    is: its flag is set whenever one of its shapes is dirty. *)
Lemma reachable_consistent (s : ObstacleController) :
  reachable s -> dirtyConsistent s = true.
Proof.
  intros (fv & off & veh & m & a & ops & ->).
  apply perform_all_consistent. reflexivity.
Qed.

(** So [setDirty(false)] leaves every shape of every reachable document
    clean. *)
Lemma reachable_setDirty_false_clean (s : ObstacleController) :
  reachable s ->
  Forall (fun p => polygon_dirty p = false) (_polygons (setDirty false s))
  /\ Forall (fun c => circle_dirty c = false) (_circles (setDirty false s)).
Proof. intros Hr. apply setDirty_false_all_clean, reachable_consistent, Hr. Qed.

End Reachability.
